(** * GitHub backend of the CMS: content keys, metadata store, rebase and
      editorial workflow

    A shallow embedding of the backend's [API] class (the TypeScript source
    of the GitHub implementation) together with the properties its
    specification states about it.

    Conventions of the embedding.
    - A JavaScript string is a [string]; one character stands for one
      UTF-16 code unit, so [String.length] is [.length] and
      [str.substring(k)] drops the first [k] units.
    - [undefined] and [null] are [None].
    - Every remote call goes through [request], which appends the call to
      the [trace] of the world and asks an oracle ([respond]) for the
      answer; the oracle sees the calls made so far, so any behaviour of the
      hosting service can be expressed.
    - Asynchronous code is a state-and-error computation [M]; a promise that
      never settles is the outcome [Pending]. *)

From Stdlib Require Import ZArith Lia Ascii.
From stdpp Require Import base option strings list gmap.

(* ===================================================================== *)
(** ** Strings as JavaScript uses them *)
(* ===================================================================== *)

Module Js.

(** [s.substring(n)] for [0 <= n]: the units from index [n] on; the empty
    string when [n] is past the end. *)
Fixpoint substring (n : nat) (s : string) : string :=
  match n, s with
  | O, _ => s
  | S _, EmptyString => EmptyString
  | S n', String _ rest => substring n' rest
  end.

(** [s.startsWith(p)] *)
Fixpoint startsWith (p s : string) : bool :=
  match p, s with
  | EmptyString, _ => true
  | String _ _, EmptyString => false
  | String a p', String b s' =>
      if Ascii.eqb a b then startsWith p' s' else false
  end.

(** lodash [trimStart(s, '/')]: drop the leading slashes. *)
Fixpoint trimStartSlash (s : string) : string :=
  match s with
  | String "/"%char rest => trimStartSlash rest
  | _ => s
  end.

(** [s.split('/')]: the pieces between slashes; [''.split('/')] is ['']. *)
Fixpoint split_go (cur : string) (s : string) : list string :=
  match s with
  | EmptyString => [String.rev cur]
  | String "/"%char rest => String.rev cur :: split_go EmptyString rest
  | String c rest => split_go (String c cur) rest
  end.

Definition splitSlash (s : string) : list string := split_go EmptyString s.

(** An interpolated value inside a template literal: [undefined] prints as
    the word. *)
Definition interpolate (o : option string) : string :=
  match o with
  | Some s => s
  | None => "undefined"
  end.

End Js.

(* ===================================================================== *)
(** ** Data model *)
(* ===================================================================== *)

(** [interface Config] and the fields the constructor derives from it. *)
Record Config := {
  cfg_branch : option string;
  cfg_useOpenAuthoring : option bool;
  cfg_repo : option string;
  cfg_originRepo : option string;
  cfg_squashMerges : bool;
  cfg_initialWorkflowStatus : string
}.

Record API := {
  branch : string;
  useOpenAuthoring : bool;
  repo : string;
  originRepo : string;
  mergeMethod : string;
  initialWorkflowStatus : string
}.

(** The empty string is falsy: [config.repo || ''] and the like. *)
Definition orElse (o : option string) (d : string) : string :=
  match o with
  | Some EmptyString | None => d
  | Some s => s
  end.

Definition construct (config : Config) : API :=
  let r := orElse (cfg_repo config) EmptyString in
  {| branch := orElse (cfg_branch config) "master";
     useOpenAuthoring := default false (cfg_useOpenAuthoring config);
     repo := r;
     originRepo := orElse (cfg_originRepo config) r;
     mergeMethod := if cfg_squashMerges config then "squash" else "merge";
     initialWorkflowStatus := cfg_initialWorkflowStatus config |}.

Definition repoURL (this : API) : string := "/repos/" +:+ repo this.
Definition originRepoURL (this : API) : string := "/repos/" +:+ originRepo this.

(** [type MediaFile = { sha; path }] *)
Record MediaFile := { mf_sha : string; mf_path : string }.

(** [PR.head] is [string | { sha: string }]. *)
Inductive PRHead :=
| HeadSha (sha : string)
| HeadObject (sha : string).

Record PR := { pr_number : Z; pr_head : PRHead }.

Record MetaDataObjects := {
  obj_entry : MediaFile;
  obj_files : list MediaFile
}.

Record Metadata := {
  md_type : string;
  md_objects : MetaDataObjects;
  md_branch : string;
  md_status : string;
  md_pr : option PR;
  md_collection : string;
  md_commitMessage : string;
  md_version : option string;
  md_user : string;
  md_title : option string;
  md_description : option string;
  md_timeStamp : string
}.

Definition with_status (m : Metadata) (s : string) : Metadata :=
  {| md_type := md_type m; md_objects := md_objects m; md_branch := md_branch m;
     md_status := s; md_pr := md_pr m; md_collection := md_collection m;
     md_commitMessage := md_commitMessage m; md_version := md_version m;
     md_user := md_user m; md_title := md_title m;
     md_description := md_description m; md_timeStamp := md_timeStamp m |}.

(** [{ ...metaData, pr, branch, version: '1' }] *)
Definition migrated (m : Metadata) (p : PR) (b : string) : Metadata :=
  {| md_type := md_type m; md_objects := md_objects m; md_branch := b;
     md_status := md_status m; md_pr := Some p; md_collection := md_collection m;
     md_commitMessage := md_commitMessage m; md_version := Some "1";
     md_user := md_user m; md_title := md_title m;
     md_description := md_description m; md_timeStamp := md_timeStamp m |}.

Record Branch := { ref : string }.

(** A path change handed to [updateTree]: [{ path, sha }], a [null] sha
    marking a deletion.  The path is optional because [rebaseSingleCommit]
    passes [file.previous_filename], which the type allows to be absent. *)
Record TreeFile := { tf_sha : option string; tf_path : option string }.

(** [TreeEntry]: what [createTree] posts. *)
Record TreeEntry := {
  te_path : string;
  te_mode : string;
  te_type : string;
  te_sha : option string
}.

(** Author and committer of a commit. *)
Record Signature := { sig_name : string; sig_email : string; sig_date : string }.

Record CommitInfo := {
  ci_message : string;
  ci_author : Signature;
  ci_committer : Signature
}.

(** [GitHubCompareCommit]: [{ sha, parents: [{ sha }], commit: { message,
    author, committer } }]. *)
Record GitHubCompareCommit := {
  sha : string;
  parents : list string;
  commit_info : CommitInfo
}.

(** [GitHubCompareFile]: one changed file of a comparison. *)
Record GitHubCompareFile := {
  cf_status : string;
  cf_filename : string;
  cf_previous_filename : option string;
  cf_sha : string
}.

Record GitHubCompareResponse := {
  base_commit : GitHubCompareCommit;
  commits : list GitHubCompareCommit;
  files : list GitHubCompareFile
}.

Record PullInfo := {
  pi_number : Z;
  pi_state : string;
  pi_merged_at : option string;
  pi_head_sha : string;
  pi_head_ref : string
}.

Record GitHubUser := { user_name : string; user_login : string }.

(* ===================================================================== *)
(** ** Content-key codec *)
(* ===================================================================== *)

Section Codec.

(** [CMS_BRANCH_PREFIX], imported from the shared utility package. *)
Variable CMS_BRANCH_PREFIX : string.
Variable this : API.

(** Modelled from the spec: the utility package's [generateContentKey],
    which is not part of the sources at hand; in the standard variant the
    content key is [collection/slug]. *)
Definition lib_generateContentKey (collectionName slug : string) : string :=
  collectionName +:+ "/" +:+ slug.

(** The method calls the utility function in the standard variant but does
    not return its result; control falls through to the last line. *)
Definition generateContentKey (collectionName slug : string) : string :=
  let _ :=
    if negb (useOpenAuthoring this)
    then Some (lib_generateContentKey collectionName slug)
    else None in
  repo this +:+ "/" +:+ collectionName +:+ "/" +:+ slug.

Definition slugFromContentKey (contentKey collectionName : string) : string :=
  if negb (useOpenAuthoring this)
  then Js.substring (String.length collectionName + 1) contentKey
  else Js.substring
         (String.length (repo this) + String.length collectionName + 2)
         contentKey.

Definition generateBranchName (contentKey : string) : string :=
  CMS_BRANCH_PREFIX +:+ "/" +:+ contentKey.

Definition branchNameFromRef (r : string) : string :=
  Js.substring (String.length "refs/heads/") r.

Definition contentKeyFromRef (r : string) : string :=
  Js.substring
    (String.length ("refs/heads/" +:+ CMS_BRANCH_PREFIX +:+ "/")) r.

Definition assertCmsBranch (branchName : string) : bool :=
  Js.startsWith (CMS_BRANCH_PREFIX +:+ "/") branchName.

End Codec.

(* ===================================================================== *)
(** ** The hosting service, seen through [request] *)
(* ===================================================================== *)

(** One constructor per remote call the class makes.  [root] is the
    repository URL the call is addressed to ([repoURL] or [originRepoURL]).
    The cache-busting [ts] parameter of [urlFor] and the percent-encoding of
    ref names are left out: they do not change which call is made. *)
Inductive Request :=
| GetRef (root type name : string)
| ListRefs (root prefix : string)
| CreateBlob (root content : string)
| CreateTree (root : string) (base_tree : option string) (tree : list TreeEntry)
| CreateCommit (root message tree : string) (parent_shas : list string)
               (author committer : option Signature)
| CreateRef (root ref_name : string) (sha : PRHead)
| PatchRef (root type name sha : string) (force : bool)
| DeleteRef (root type name : string)
| GetBranch (root name : string)
| GetContents (root path ref_param : string)
| GetUser
| GetPull (root : string) (number : Z)
| ListPulls (root head state base : string)
| CreatePull (root title body head base : string)
| PatchPull (root : string) (number : Z) (state : string)
| MergePull (root : string) (number : Z) (commit_message : string)
            (head : PRHead) (merge_method : string)
| Compare (root base head : string).

(** [response.object] of a ref, and the answer to a ref request:
    [{ ref, object }]. *)
Record GitObject := { object_sha : string }.

Record RefResponse := { rr_ref : string; rr_object : GitObject }.

(** What the code reads off the answer of each call. *)
Definition Response (r : Request) : Type :=
  match r with
  | GetRef _ _ _ => RefResponse
  | ListRefs _ _ => list Branch
  | CreateBlob _ _ => string
  | CreateTree _ _ _ => string
  | CreateCommit _ _ _ _ _ _ => GitHubCompareCommit
  | CreateRef _ _ _ => RefResponse
  | PatchRef _ _ _ _ _ => unit
  | DeleteRef _ _ _ => unit
  | GetBranch _ _ => string
  | GetContents _ _ _ => string
  | GetUser => GitHubUser
  | GetPull _ _ => PullInfo
  | ListPulls _ _ _ _ => list PullInfo
  | CreatePull _ _ _ _ _ => PullInfo
  | PatchPull _ _ _ => unit
  | MergePull _ _ _ _ _ => unit
  | Compare _ _ _ => GitHubCompareResponse
  end.

(** A failed call: the message and, when a response arrived, its HTTP
    status. *)
Record Failure := { f_message : string; f_status : option Z }.

(** The hosting service: given the calls made so far, the answer to the
    next one and the time it takes. *)
Record Remote := {
  respond : list Request -> forall r : Request, Response r + Failure;
  latency : list Request -> Request -> Z
}.

(* ===================================================================== *)
(** ** Errors, outcomes and the world *)
(* ===================================================================== *)

Inductive JsError :=
| APIError (message : string) (status : option Z)
| PlainError (message : string)
| TypeError (message : string)
| SyntaxError (message : string)
| StringRejection (reason : string).

(** [err.message]; a rejected string has none. *)
Definition error_message (e : JsError) : option string :=
  match e with
  | APIError m _ | PlainError m | TypeError m | SyntaxError m => Some m
  | StringRejection _ => None
  end.

(** [err.status] *)
Definition error_status (e : JsError) : option Z :=
  match e with
  | APIError _ s => s
  | _ => None
  end.

Inductive Outcome (A : Type) :=
| Fulfilled (a : A)
| Rejected (e : JsError)
| Pending.

Arguments Fulfilled {A} a.
Arguments Rejected {A} e.
Arguments Pending {A}.

Inductive Settlement :=
| Resolved
| RejectedWith (e : JsError).

(** A write to the metadata ref waiting for, or holding, the semaphore. *)
Inductive Write :=
| WStore (key : string) (data : Metadata)
| WDelete (key : string).

Record Task := { t_promise : nat; t_write : Write }.

(** The state of the [semaphore] package's object. *)
Record Semaphore := {
  capacity : Z;
  current : Z;
  queue : list Task
}.

(** A call whose promise nobody awaits. *)
Inductive Detached :=
| DeleteUnpublishedEntry (collection slug : string).

(** A [localForage] item of the metadata cache. *)
Record CacheEntry := { expires : Z; data : Metadata }.

Record World := {
  trace : list Request;
  clock : Z;
  cache : gmap string CacheEntry;
  metadataSemaphore : option Semaphore;
  ready : list Task;
  promises : list (option Settlement);
  detached : list Detached;
  userPromise : option (GitHubUser + JsError)
}.

Definition set_remote (tr : list Request) (t : Z) (w : World) : World :=
  {| trace := tr; clock := t; cache := cache w;
     metadataSemaphore := metadataSemaphore w; ready := ready w;
     promises := promises w; detached := detached w;
     userPromise := userPromise w |}.

Definition set_cache (c : gmap string CacheEntry) (w : World) : World :=
  {| trace := trace w; clock := clock w; cache := c;
     metadataSemaphore := metadataSemaphore w; ready := ready w;
     promises := promises w; detached := detached w;
     userPromise := userPromise w |}.

Definition set_sched (s : option Semaphore) (r : list Task) (w : World) : World :=
  {| trace := trace w; clock := clock w; cache := cache w;
     metadataSemaphore := s; ready := r;
     promises := promises w; detached := detached w;
     userPromise := userPromise w |}.

Definition set_promises (p : list (option Settlement)) (w : World) : World :=
  {| trace := trace w; clock := clock w; cache := cache w;
     metadataSemaphore := metadataSemaphore w; ready := ready w;
     promises := p; detached := detached w;
     userPromise := userPromise w |}.

Definition set_detached (d : list Detached) (w : World) : World :=
  {| trace := trace w; clock := clock w; cache := cache w;
     metadataSemaphore := metadataSemaphore w; ready := ready w;
     promises := promises w; detached := d;
     userPromise := userPromise w |}.

Definition set_userPromise (u : option (GitHubUser + JsError)) (w : World) : World :=
  {| trace := trace w; clock := clock w; cache := cache w;
     metadataSemaphore := metadataSemaphore w; ready := ready w;
     promises := promises w; detached := detached w;
     userPromise := u |}.

(** A fresh page: nothing requested, nothing cached, no semaphore yet. *)
Definition initial_world (now : Z) : World :=
  {| trace := []; clock := now; cache := ∅; metadataSemaphore := None;
     ready := []; promises := []; detached := []; userPromise := None |}.

(* ===================================================================== *)
(** ** The monad of asynchronous computations *)
(* ===================================================================== *)

Definition M (A : Type) : Type := World -> Outcome A * World.

Definition ret {A : Type} (a : A) : M A := fun w => (Fulfilled a, w).

Definition throw {A : Type} (e : JsError) : M A := fun w => (Rejected e, w).

Definition bind {A B : Type} (m : M A) (k : A -> M B) : M B :=
  fun w =>
    match m w with
    | (Fulfilled a, w') => k a w'
    | (Rejected e, w') => (Rejected e, w')
    | (Pending, w') => (Pending, w')
    end.

(** [try { m } catch (e) { h e }], also [promise.catch(h)]. *)
Definition try_catch {A : Type} (m : M A) (h : JsError -> M A) : M A :=
  fun w =>
    match m w with
    | (Rejected e, w') => h e w'
    | r => r
    end.

Declare Scope js_scope.
Delimit Scope js_scope with js.
Notation "x <- m ;; k" := (bind m (fun x => k))
  (at level 100, m at next level, right associativity) : js_scope.
Notation "m ;;; k" := (bind m (fun _ => k))
  (at level 100, right associativity) : js_scope.
Local Open Scope js_scope.

(** [Date.now()] *)
Definition dateNow : M Z := fun w => (Fulfilled (clock w), w).

(** [localForage.getItem] and [localForage.setItem] *)
Definition localForage_getItem (k : string) : M (option CacheEntry) :=
  fun w => (Fulfilled (cache w !! k), w).

Definition localForage_setItem (k : string) (v : CacheEntry) : M unit :=
  fun w => (Fulfilled tt, set_cache (<[k := v]> (cache w)) w).

(** Settle a promise; a promise settles once. *)
Definition settle (p : nat) (s : Settlement) : M unit :=
  fun w =>
    match promises w !! p with
    | Some None => (Fulfilled tt, set_promises (<[p := Some s]> (promises w)) w)
    | _ => (Fulfilled tt, w)
    end.

Definition new_promise : M nat :=
  fun w => (Fulfilled (length (promises w)),
            set_promises (promises w ++ [None]) w).

(** Start a call without awaiting it. *)
Definition spawn (d : Detached) : M unit :=
  fun w => (Fulfilled tt, set_detached (detached w ++ [d]) w).

(** *** The [semaphore] package

    [semaphore(capacity)] makes a counter with a FIFO queue.  [take(task)]
    runs the task at once when a slot is free and queues it otherwise;
    [leave()] frees a slot and hands it to the head of the queue.  A task
    that was handed the slot is put on [ready]: its body runs from the
    event loop. *)
Definition semaphore (cap : Z) : Semaphore :=
  {| capacity := if (cap =? 0)%Z then 1%Z else cap; current := 0%Z; queue := [] |}.

Definition ensureSemaphore : M unit :=
  fun w =>
    match metadataSemaphore w with
    | Some _ => (Fulfilled tt, w)
    | None => (Fulfilled tt, set_sched (Some (semaphore 1)) (ready w) w)
    end.

Definition take (t : Task) : M unit :=
  fun w =>
    match metadataSemaphore w with
    | None => (Fulfilled tt, w)
    | Some s =>
        if (capacity s <? current s + 1)%Z
        then (Fulfilled tt,
              set_sched (Some {| capacity := capacity s; current := current s;
                                 queue := queue s ++ [t] |}) (ready w) w)
        else (Fulfilled tt,
              set_sched (Some {| capacity := capacity s;
                                 current := (current s + 1)%Z;
                                 queue := queue s |}) (ready w ++ [t]) w)
    end.

Definition leave : M unit :=
  fun w =>
    match metadataSemaphore w with
    | None => (Fulfilled tt, w)
    | Some s =>
        let cur := (current s - 1)%Z in
        match queue s with
        | [] =>
            let w' := set_sched (Some {| capacity := capacity s; current := cur;
                                         queue := [] |}) (ready w) w in
            if (cur <? 0)%Z
            then (Rejected (PlainError "leave called too many times."), w')
            else (Fulfilled tt, w')
        | item :: rest =>
            if (capacity s <? 1 + cur)%Z
            then (Fulfilled tt,
                  set_sched (Some {| capacity := capacity s; current := cur;
                                     queue := item :: rest |}) (ready w) w)
            else (Fulfilled tt,
                  set_sched (Some {| capacity := capacity s;
                                     current := (cur + 1)%Z;
                                     queue := rest |}) (ready w ++ [item]) w)
        end
    end.

(* ===================================================================== *)
(** ** Sample configurations and hosting services *)
(* ===================================================================== *)

Module Sample.

Definition PREFIX : string := "cms".

Definition standard : API :=
  construct {| cfg_branch := None; cfg_useOpenAuthoring := None;
               cfg_repo := Some "owner/repo"; cfg_originRepo := None;
               cfg_squashMerges := false;
               cfg_initialWorkflowStatus := "draft" |}.

Definition fork : API :=
  construct {| cfg_branch := None; cfg_useOpenAuthoring := Some true;
               cfg_repo := Some "contributor/repo";
               cfg_originRepo := Some "owner/repo";
               cfg_squashMerges := false;
               cfg_initialWorkflowStatus := "draft" |}.

Definition someone : Signature :=
  {| sig_name := "Ada"; sig_email := "ada@example.org";
     sig_date := "2020-01-01T00:00:00Z" |}.

Definition made (s : string) : GitHubCompareCommit :=
  {| sha := s; parents := [];
     commit_info := {| ci_message := EmptyString; ci_author := someone;
                       ci_committer := someone |} |}.

(** A commit of a branch: it renames a file. *)
Definition original : GitHubCompareCommit :=
  {| sha := "x1"; parents := ["p0"];
     commit_info := {| ci_message := "Rename a to b"; ci_author := someone;
                       ci_committer := someone |} |}.

Definition entryFile : MediaFile := {| mf_sha := "e1"; mf_path := "posts/hello.md" |}.
Definition mediaFile : MediaFile := {| mf_sha := "i1"; mf_path := "/static/img.png" |}.

Definition pull : PR := {| pr_number := 7; pr_head := HeadSha "h1" |}.

Definition meta (key : string) (p : option PR) : Metadata :=
  {| md_type := "PR";
     md_objects := {| obj_entry := entryFile; obj_files := [mediaFile] |};
     md_branch := "cms/" +:+ key; md_status := "pending_review"; md_pr := p;
     md_collection := "posts"; md_commitMessage := "Create post";
     md_version := Some "1"; md_user := "Ada"; md_title := None;
     md_description := None; md_timeStamp := "2020-01-01T00:00:00Z" |}.

Definition stringify (m : Metadata) : string := "{}".
Definition base64 (s : string) : string := s.

(** The stored document of every key is the one of an entry under review
    with pull request 7. *)
Definition parse (raw : string) : option Metadata := Some (meta raw (Some pull)).

Definition mergedPull : PullInfo :=
  {| pi_number := 7; pi_state := "closed";
     pi_merged_at := Some "2020-01-02T00:00:00Z";
     pi_head_sha := "h1"; pi_head_ref := "cms/posts/hello" |}.

Definition renamed : GitHubCompareFile :=
  {| cf_status := "renamed"; cf_filename := "b.md";
     cf_previous_filename := Some "a.md"; cf_sha := "s1" |}.

(** A service on which every call succeeds, unless [merge] or [all] say
    otherwise; [changed] is the diff every comparison reports. *)
Definition answer (merge all : option Failure) (changed : list GitHubCompareFile)
    (h : list Request) (r : Request) : Response r + Failure :=
  match all with
  | Some f => inr f
  | None =>
      match r as r0 return (Response r0 + Failure) with
      | GetRef _ _ name => inl {| rr_ref := name; rr_object := {| object_sha := "m0" |} |}
      | ListRefs _ _ => inl [ {| ref := "refs/heads/cms/contributor/repo/posts/hello" |} ]
      | CreateBlob _ _ => inl "b1"
      | CreateTree _ _ _ => inl "t1"
      | CreateCommit _ _ _ _ _ _ => inl (made "c1")
      | CreateRef _ name _ => inl {| rr_ref := name; rr_object := {| object_sha := "m0" |} |}
      | PatchRef _ _ _ _ _ => inl tt
      | DeleteRef _ _ _ => inl tt
      | GetBranch _ _ => inl "d0"
      | GetContents _ path _ => inl path
      | GetUser => inl {| user_name := "Ada"; user_login := "contributor" |}
      | GetPull _ _ => inl mergedPull
      | ListPulls _ _ _ _ => inl [mergedPull]
      | CreatePull _ _ _ _ _ => inl mergedPull
      | PatchPull _ _ _ => inl tt
      | MergePull _ _ _ _ _ =>
          match merge with
          | Some f => inr f
          | None => inl tt
          end
      | Compare _ _ _ =>
          inl {| base_commit := made "d0"; commits := []; files := changed |}
      end
  end.

Definition happy : Remote :=
  {| respond := answer None None []; latency := fun _ _ => 10%Z |}.

Definition renaming : Remote :=
  {| respond := answer None None [renamed]; latency := fun _ _ => 10%Z |}.

Definition conflicting : Remote :=
  {| respond := answer (Some {| f_message := "Pull Request is not mergeable";
                                f_status := Some 405%Z |}) None [];
     latency := fun _ _ => 10%Z |}.

Definition unreachable : Remote :=
  {| respond := answer None (Some {| f_message := "Failed to fetch";
                                     f_status := None |}) [];
     latency := fun _ _ => 10%Z |}.

End Sample.

(* ===================================================================== *)
(** ** The [API] class *)
(* ===================================================================== *)

(** An item handed to [uploadBlob]: [{ raw, sha?, path? }]. *)
Record BlobItem := {
  bi_path : option string;
  bi_raw : string;
  bi_sha : option string
}.

(** A created tree together with the sha it was built on:
    [{ ...newTree, parentSha }]. *)
Record ChangeTree := { ct_sha : string; ct_parentSha : option string }.

Definition dquote : string := String "034"%char EmptyString.
Definition newline : string := String "010"%char EmptyString.

(** A non-empty string is truthy. *)
Definition truthy (o : option string) : bool :=
  match o with
  | Some (String _ _) => true
  | _ => false
  end.

Definition asTreeFile (item : BlobItem) : TreeFile :=
  {| tf_sha := bi_sha item; tf_path := bi_path item |}.

Definition mediaTreeFile (f : MediaFile) : TreeFile :=
  {| tf_sha := Some (mf_sha f); tf_path := Some (mf_path f) |}.

(** lodash [trimStart] turns an absent string into the empty one. *)
Definition toTreeEntry (file : TreeFile) : TreeEntry :=
  {| te_path := Js.trimStartSlash (default EmptyString (tf_path file));
     te_mode := "100644";
     te_type := "blob";
     te_sha := tf_sha file |}.

(** The callback of the [reduce] in [rebaseSingleCommit]. *)
Definition pushTreeFiles (arr : list TreeFile) (file : GitHubCompareFile)
  : list TreeFile :=
  if bool_decide (cf_status file = "removed") then
    arr ++ [ {| tf_sha := None; tf_path := Some (cf_filename file) |} ]
  else if bool_decide (cf_status file = "renamed") then
    (arr ++ [ {| tf_sha := None; tf_path := cf_previous_filename file |} ])
        ++ [ {| tf_sha := Some (cf_sha file); tf_path := Some (cf_filename file) |} ]
  else
    arr ++ [ {| tf_sha := Some (cf_sha file); tf_path := Some (cf_filename file) |} ].

(** *** Files handed to [persistFiles] *)

(** An entry to persist: [{ path, slug, raw }].  Its [sha] is written by
    [uploadBlob] before anything reads it. *)
Record Entry := { en_path : string; en_slug : string; en_raw : string }.

(** An [AssetProxy]: of its [toBase64()] method what counts here is the
    value it resolves to. *)
Record AssetProxy := { ap_path : string; ap_toBase64 : string }.

Inductive PersistFile :=
| AssetFile (asset : AssetProxy)
| EntryFile (entry : Entry).

(** A file after [uploadBlob]: the same object, now carrying its [sha]. *)
Record Uploaded := { up_file : PersistFile; up_sha : string }.

Record ParsedData := { pd_title : option string; pd_description : option string }.

(** [PersistOptions]; [collectionName] is read under a cast to [string]. *)
Record PersistOptions := {
  po_collectionName : string;
  po_commitMessage : string;
  po_useWorkflow : option bool;
  po_unpublished : option bool;
  po_status : option string;
  po_parsedData : option ParsedData
}.

Definition file_path (f : PersistFile) : string :=
  match f with
  | AssetFile asset => ap_path asset
  | EntryFile entry => en_path entry
  end.

Definition uploadedTreeFile (u : Uploaded) : TreeFile :=
  {| tf_sha := Some (up_sha u); tf_path := Some (file_path (up_file u)) |}.

(** The media files among the uploaded files, as [{ path, sha }] with the
    leading slashes of the path trimmed. *)
Definition mediaFilesListOf (uploaded : list Uploaded) : list MediaFile :=
  flat_map
    (fun u =>
       match up_file u with
       | AssetFile asset =>
           [ {| mf_sha := up_sha u; mf_path := Js.trimStartSlash (ap_path asset) |} ]
       | EntryFile _ => []
       end)
    uploaded.

(** The entry among the uploaded files: it was put last. *)
Definition uploadedEntryOf (uploaded : list Uploaded) : option (Entry * string) :=
  match last uploaded with
  | Some {| up_file := EntryFile entry; up_sha := s |} => Some (entry, s)
  | _ => None
  end.

(** lodash [differenceBy(old, new, 'path')]: the files of [old] whose path
    no file of [new] has. *)
Definition differenceByPath (old new : list MediaFile) : list MediaFile :=
  filter (fun f => mf_path f ∉ map mf_path new) old.

Definition with_pr (m : Metadata) (p : option PR) : Metadata :=
  {| md_type := md_type m; md_objects := md_objects m; md_branch := md_branch m;
     md_status := md_status m; md_pr := p; md_collection := md_collection m;
     md_commitMessage := md_commitMessage m; md_version := md_version m;
     md_user := md_user m; md_title := md_title m;
     md_description := md_description m; md_timeStamp := md_timeStamp m |}.

(** [{ ...metadata, pr, title, description, objects }] *)
Definition updated (m : Metadata) (p : option PR) (title description : option string)
    (objects : MetaDataObjects) : Metadata :=
  {| md_type := md_type m; md_objects := objects; md_branch := md_branch m;
     md_status := md_status m; md_pr := p; md_collection := md_collection m;
     md_commitMessage := md_commitMessage m; md_version := md_version m;
     md_user := md_user m; md_title := title;
     md_description := description; md_timeStamp := md_timeStamp m |}.

Definition CURRENT_METADATA_VERSION : string := "1".
Definition DEFAULT_COMMIT_MESSAGE : string := "Automatically generated by Netlify CMS".

(** [Promise.all] over calls that have all been started: every call takes
    place, in list order; the first rejection is the result. *)
Fixpoint promiseAll {A : Type} (calls : list (M A)) : M (list A) :=
  match calls with
  | [] => ret []
  | call :: rest =>
      fun w =>
        match call w with
        | (Fulfilled a, w1) =>
            bind (promiseAll rest) (fun results => ret (a :: results)) w1
        | (Rejected e, w1) => (Rejected e, snd (promiseAll rest w1))
        | (Pending, w1) =>
            match promiseAll rest w1 with
            | (Rejected e, w2) => (Rejected e, w2)
            | (_, w2) => (Pending, w2)
            end
        end
  end.

(** *** More sample data and hosting services *)

Module More.

Definition post : Entry :=
  {| en_path := "posts/hello.md"; en_slug := "hello"; en_raw := "# Hello" |}.

Definition image : AssetProxy :=
  {| ap_path := "/static/img.png"; ap_toBase64 := "aW1n" |}.

Definition direct : PersistOptions :=
  {| po_collectionName := "posts"; po_commitMessage := "Create post";
     po_useWorkflow := None; po_unpublished := None; po_status := None;
     po_parsedData := None |}.

Definition review : PersistOptions :=
  {| po_collectionName := "posts"; po_commitMessage := "Create post";
     po_useWorkflow := Some true; po_unpublished := None; po_status := None;
     po_parsedData := Some {| pd_title := Some "Hello"; pd_description := None |} |}.

Definition revise : PersistOptions :=
  {| po_collectionName := "posts"; po_commitMessage := "Update post";
     po_useWorkflow := Some true; po_unpublished := Some true; po_status := None;
     po_parsedData := Some {| pd_title := Some "Hello"; pd_description := None |} |}.

Definition isoDate (now : Z) : string := "2020-01-01T00:00:00Z".

(** A pull request closed without having been merged. *)
Definition closedPull : PullInfo :=
  {| pi_number := 7; pi_state := "closed"; pi_merged_at := None;
     pi_head_sha := "h1"; pi_head_ref := "cms/posts/hello" |}.

(** The commit after [Sample.original] on a branch. *)
Definition second : GitHubCompareCommit :=
  {| sha := "x2"; parents := ["x1"];
     commit_info := {| ci_message := "Edit b"; ci_author := Sample.someone;
                       ci_committer := Sample.someone |} |}.

(** What a service answers, decided per call; [None] leaves the call to
    the service underneath. *)
Definition Script : Type := forall r : Request, option (Response r + Failure).

Definition scripted (script : Script) (base : Remote) : Remote :=
  {| respond := fun h r =>
                  match script r with
                  | Some answer => answer
                  | None => respond base h r
                  end;
     latency := latency base |}.

Definition notFound : Failure := {| f_message := "Not Found"; f_status := Some 404%Z |}.
Definition gone : Failure :=
  {| f_message := "Reference does not exist"; f_status := Some 422%Z |}.
Definition serverError : Failure :=
  {| f_message := "Server Error"; f_status := Some 500%Z |}.

(** No branch can be deleted: there is none. *)
Definition noBranch : Script :=
  fun r => match r as r0 return option (Response r0 + Failure) with
           | DeleteRef _ _ _ => Some (inr gone)
           | _ => None
           end.

(** There are no workflow branches at all. *)
Definition noRefs : Script :=
  fun r => match r as r0 return option (Response r0 + Failure) with
           | ListRefs _ _ => Some (inr notFound)
           | _ => None
           end.

(** Pull requests cannot be listed or changed. *)
Definition noPulls : Script :=
  fun r => match r as r0 return option (Response r0 + Failure) with
           | ListPulls _ _ _ _ => Some (inl [])
           | PatchPull _ _ _ => Some (inr serverError)
           | MergePull _ _ _ _ _ => Some (inr serverError)
           | _ => None
           end.

(** The pull request is in the given state. *)
Definition pullIs (info : PullInfo) : Script :=
  fun r => match r as r0 return option (Response r0 + Failure) with
           | GetPull _ _ => Some (inl info)
           | _ => None
           end.

(** The branch is two commits ahead of a base it does not sit on. *)
Definition ahead : Script :=
  fun r => match r as r0 return option (Response r0 + Failure) with
           | Compare _ _ _ =>
               Some (inl {| base_commit := Sample.made "d0";
                            commits := [Sample.original; second];
                            files := [Sample.renamed] |})
           | _ => None
           end.

(** The branch is one commit ahead of the tip of the default branch. *)
Definition onTip : Script :=
  fun r => match r as r0 return option (Response r0 + Failure) with
           | Compare _ _ _ =>
               Some (inl {| base_commit := Sample.made "p0";
                            commits := [Sample.original];
                            files := [] |})
           | _ => None
           end.

(** Stored documents of entries that have no pull request. *)
Definition parseDraft (raw : string) : option Metadata := Some (Sample.meta raw None).

End More.

Section Backend.

Variables CMS_BRANCH_PREFIX MERGE_COMMIT_MESSAGE DEFAULT_PR_BODY : string.
Variable JSON_stringify : Metadata -> string.
Variable JSON_parse : string -> option Metadata.
Variable Base64_encode : string -> string.
Variable remote : Remote.
Variable this : API.

(** The world once the call [r] has been made: it is on the trace and
    time has passed. *)
Definition called (r : Request) (w : World) : World :=
  set_remote (trace w ++ [r]) (clock w + latency remote (trace w) r)%Z w.

(** [request]: the call is made, and a failure of any kind comes back as
    an [APIError] carrying the response status ([handleRequestError]). *)
Definition request (r : Request) : M (Response r) :=
  fun w =>
    match respond remote (trace w) r with
    | inl v => (Fulfilled v, called r w)
    | inr f => (Rejected (APIError (f_message f) (f_status f)), called r w)
    end.

(** [requestAllPages] does not pass through [handleRequestError]. *)
Definition requestAllPages (r : Request) : M (Response r) :=
  fun w =>
    match respond remote (trace w) r with
    | inl v => (Fulfilled v, called r w)
    | inr f => (Rejected (PlainError (f_message f)), called r w)
    end.

(** [user()]: the promise is made once and kept. *)
Definition user : M GitHubUser :=
  fun w =>
    match userPromise w with
    | Some (inl u) => (Fulfilled u, w)
    | Some (inr e) => (Rejected e, w)
    | None =>
        match request GetUser w with
        | (Fulfilled u, w') => (Fulfilled u, set_userPromise (Some (inl u)) w')
        | (Rejected e, w') => (Rejected e, set_userPromise (Some (inr e)) w')
        | (Pending, w') => (Pending, w')
        end
    end.

(** *** Blobs, trees, commits, refs *)

(** The new sha is stored on the item ([item.sha = response.sha]). *)
Definition uploadBlob (item : BlobItem) : M BlobItem :=
  response <- request (CreateBlob (repoURL this) (Base64_encode (bi_raw item)));;
  ret {| bi_path := bi_path item; bi_raw := bi_raw item; bi_sha := Some response |}.

Definition createTree (baseSha : string) (tree : list TreeEntry) : M string :=
  request (CreateTree (repoURL this) (Some baseSha) tree).

Definition updateTree (baseSha : string) (files : list TreeFile) : M ChangeTree :=
  newTree <- createTree baseSha (map toTreeEntry files);;
  ret {| ct_sha := newTree; ct_parentSha := Some baseSha |}.

Definition createCommit (message treeSha : string) (parent_shas : list string)
    (author committer : option Signature) : M GitHubCompareCommit :=
  request (CreateCommit (repoURL this) message treeSha parent_shas author committer).

Definition commit (message : string) (changeTree : ChangeTree)
  : M GitHubCompareCommit :=
  let parent_shas :=
    match ct_parentSha changeTree with
    | Some p => if truthy (Some p) then [p] else []
    | None => []
    end in
  createCommit message (ct_sha changeTree) parent_shas None None.

Definition createRef (type name : string) (sha0 : PRHead) : M RefResponse :=
  request (CreateRef (repoURL this) ("refs/" +:+ type +:+ "/" +:+ name) sha0).

(** [opts.force || false] *)
Definition patchRef (type name sha0 : string) (force : option bool) : M unit :=
  request (PatchRef (repoURL this) type name sha0 (default false force)).

Definition deleteRef (type name : string) : M unit :=
  request (DeleteRef (repoURL this) type name).

(** [branchData.commit.sha] of the default branch *)
Definition getDefaultBranch : M string :=
  request (GetBranch (originRepoURL this) (branch this)).

Definition createBranch (branchName : string) (sha0 : PRHead) : M RefResponse :=
  createRef "heads" branchName sha0.

Definition patchBranch (branchName sha0 : string) (force : option bool) : M unit :=
  let force := default false force in
  if force && negb (assertCmsBranch CMS_BRANCH_PREFIX branchName)
  then throw (PlainError
                ("Only CMS branches can be force updated, cannot force update "
                   +:+ branchName))
  else patchRef "heads" branchName sha0 (Some force).

Definition deleteBranch (branchName : string) : M unit :=
  try_catch (deleteRef "heads" branchName)
    (fun err =>
       if bool_decide (error_message err = Some "Reference does not exist")
       then ret tt
       else throw err).

(** *** Metadata store *)

Definition readme : BlobItem :=
  {| bi_path := None;
     bi_raw := "# Netlify CMS" +:+ newline +:+ newline +:+
               "This tree is used by the Netlify CMS to store metadata information for specific files and branches.";
     bi_sha := None |}.

Definition checkMetadataRef : M GitObject :=
  try_catch
    (response <- request (GetRef (repoURL this) "meta" "_netlify_cms");;
     ret (rr_object response))
    (fun _ =>
       item <- uploadBlob readme;;
       tree <- request (CreateTree (repoURL this) None
                          [ {| te_path := "README.md"; te_mode := "100644";
                               te_type := "blob"; te_sha := bi_sha item |} ]);;
       response <- commit "First Commit" {| ct_sha := tree; ct_parentSha := None |};;
       response <- createRef "meta" "_netlify_cms" (HeadSha (sha response));;
       ret (rr_object response)).

(** The task [storeMetadata] hands to the semaphore: the body of the
    [async] callback, [try] and [catch] included.  [p] is the promise the
    method returned. *)
Definition storeMetadata_task (p : nat) (key : string) (data0 : Metadata) : M unit :=
  try_catch
    (branchData <- checkMetadataRef;;
     let file := {| bi_path := Some (key +:+ ".json");
                    bi_raw := JSON_stringify data0;
                    bi_sha := None |} in
     file <- uploadBlob file;;
     changeTree <- updateTree (object_sha branchData) [asTreeFile file];;
     response <- commit ("Updating “" +:+ key +:+ "” metadata") changeTree;;
     patchRef "meta" "_netlify_cms" (sha response) None;;;
     now <- dateNow;;
     localForage_setItem ("gh.meta." +:+ key)
       {| expires := (now + 300000)%Z; data := data0 |};;;
     leave;;;
     settle p Resolved)
    (fun err => settle p (RejectedWith err)).

Definition deleteMetadata_task (p : nat) (key : string) : M unit :=
  try_catch
    (branchData <- checkMetadataRef;;
     let file := {| tf_sha := None; tf_path := Some (key +:+ ".json") |} in
     changeTree <- updateTree (object_sha branchData) [file];;
     response <- commit ("Deleting “" +:+ key +:+ "” metadata") changeTree;;
     patchRef "meta" "_netlify_cms" (sha response) None;;;
     leave;;;
     settle p Resolved)
    (fun _ =>
       leave;;;
       settle p Resolved).

(** Calling the method: the semaphore is made on first use, the promise
    is created and the task is given to [take]. *)
Definition storeMetadata_promise (key : string) (data0 : Metadata) : M nat :=
  ensureSemaphore;;;
  p <- new_promise;;
  take {| t_promise := p; t_write := WStore key data0 |};;;
  ret p.

Definition deleteMetadata_promise (key : string) : M nat :=
  ensureSemaphore;;;
  p <- new_promise;;
  take {| t_promise := p; t_write := WDelete key |};;;
  ret p.

(** One turn of the event loop: the body of a task that holds a slot runs
    to its end.  Bodies of different tasks never interleave, which is what
    the semaphore is there for. *)
Definition run_task (t : Task) (w : World) : World :=
  match t_write t with
  | WStore key data0 => snd (storeMetadata_task (t_promise t) key data0 w)
  | WDelete key => snd (deleteMetadata_task (t_promise t) key w)
  end.

(** [await p]: turns of the event loop until [p] has settled; if nothing
    is left to run and [p] is still open, it never settles. *)
Fixpoint await_loop (fuel : nat) (p : nat) (w : World) : Outcome unit * World :=
  match promises w !! p with
  | Some (Some Resolved) => (Fulfilled tt, w)
  | Some (Some (RejectedWith e)) => (Rejected e, w)
  | _ =>
      match fuel, ready w with
      | S fuel', t :: rest =>
          await_loop fuel' p
            (run_task t (set_sched (metadataSemaphore w) rest w))
      | _, _ => (Pending, w)
      end
  end.

(** Every turn takes one task off [ready] and moves at most queued tasks
    onto it, so this many turns empty it. *)
Definition pending_tasks (w : World) : nat :=
  (length (ready w) +
   match metadataSemaphore w with
   | Some s => length (queue s)
   | None => 0
   end)%nat.

Definition await (p : nat) : M unit :=
  fun w => await_loop (pending_tasks w) p w.

Definition storeMetadata (key : string) (data0 : Metadata) : M unit :=
  p <- storeMetadata_promise key data0;;
  await p.

Definition deleteMetadata (key : string) : M unit :=
  p <- deleteMetadata_promise key;;
  await p.

Definition parseMetadata (response : string) : M Metadata :=
  match JSON_parse response with
  | Some m => ret m
  | None => throw (SyntaxError "Unexpected token in JSON")
  end.

Definition retrieveMetadata (key : string) : M Metadata :=
  cached <- localForage_getItem ("gh.meta." +:+ key);;
  now <- dateNow;;
  let fetch : M Metadata :=
    let errorHandler (err : JsError) : M Metadata := throw err in
    if negb (useOpenAuthoring this) then
      try_catch
        (response <- request (GetContents (repoURL this) (key +:+ ".json")
                                          "refs/meta/_netlify_cms");;
         parseMetadata response)
        errorHandler
    else
      let parts := Js.splitSlash key in
      let user0 := parts !! 0%nat in
      let repo0 := parts !! 1%nat in
      try_catch
        (response <- request (GetContents
                                ("/repos/" +:+ Js.interpolate user0 +:+ "/"
                                   +:+ Js.interpolate repo0)
                                (key +:+ ".json") "refs/meta/_netlify_cms");;
         parseMetadata response)
        errorHandler in
  match cached with
  | Some c => if (now <? expires c)%Z then ret (data c) else fetch
  | None => fetch
  end.

(** *** Pull requests *)

Definition getHeadReference (head : string) : M string :=
  if useOpenAuthoring this
  then u <- user;; ret (user_login u +:+ ":" +:+ head)
  else ret head.

Definition createPR (title head : string) : M PullInfo :=
  headReference <- getHeadReference head;;
  request (CreatePull (originRepoURL this) title DEFAULT_PR_BODY headReference
                      (branch this)).

Definition openPR (pullRequest : PR) : M unit :=
  request (PatchPull (originRepoURL this) (pr_number pullRequest) "open").

Definition closePR (pullRequest : PR) : M unit :=
  request (PatchPull (originRepoURL this) (pr_number pullRequest) "closed").

(** The URL the method builds ends in a stray [" }"] after the number;
    the call is still the lookup of that pull request. *)
Definition getPullRequest (prNumber : Z) : M PullInfo :=
  request (GetPull (originRepoURL this) prNumber).

Definition getPRsForBranchName (branchName : string) : M (list PullInfo) :=
  requestAllPages (ListPulls (repoURL this) branchName "open" (branch this)).

(** *** Publishing *)

Definition forceMergeMessage (files0 : list MediaFile) : string :=
  fold_left
    (fun commitMessage file =>
       commitMessage +:+ newline +:+ "* " +:+ dquote +:+ mf_path file +:+ dquote)
    files0
    ("Automatically generated. Merged on Netlify CMS" +:+ newline +:+ newline
       +:+ "Force merge of:").

Definition forceMergePR (objects : MetaDataObjects) : M unit :=
  let files0 := obj_files objects ++ [obj_entry objects] in
  let commitMessage := forceMergeMessage files0 in
  branchData <- getDefaultBranch;;
  changeTree <- updateTree branchData (map mediaTreeFile files0);;
  response <- commit commitMessage changeTree;;
  patchBranch (branch this) (sha response) None.

Definition mergePR (pullrequest : PR) (objects : MetaDataObjects) : M unit :=
  try_catch
    (request (MergePull (originRepoURL this) (pr_number pullrequest)
                        MERGE_COMMIT_MESSAGE (pr_head pullrequest)
                        (mergeMethod this)))
    (fun error =>
       match error with
       | APIError _ (Some 405%Z) => forceMergePR objects
       | _ => throw error
       end).

(** Destructuring an absent [metadata.pr] throws. *)
Definition publishUnpublishedEntry (collectionName slug : string) : M Metadata :=
  let contentKey := generateContentKey this collectionName slug in
  let branchName := generateBranchName CMS_BRANCH_PREFIX contentKey in
  metadata <- retrieveMetadata contentKey;;
  match md_pr metadata with
  | Some pr => mergePR pr (md_objects metadata)
  | None => throw (TypeError "Cannot destructure property of undefined")
  end;;;
  deleteBranch branchName;;;
  deleteMetadata contentKey;;;
  ret metadata.

Definition deleteUnpublishedEntry (collectionName slug : string) : M unit :=
  let contentKey := generateContentKey this collectionName slug in
  let branchName := generateBranchName CMS_BRANCH_PREFIX contentKey in
  metadata <- retrieveMetadata contentKey;;
  match md_pr metadata with
  | Some pr => closePR pr
  | None => ret tt
  end;;;
  deleteBranch branchName;;;
  deleteMetadata contentKey.

(** *** Open-authoring reconciliation *)

Definition getUpdatedOpenAuthoringMetadata (contentKey : string)
    (metadataArg : option Metadata) : M (option Metadata) :=
  metadata <- match metadataArg with
              | Some m => ret m
              | None => retrieveMetadata contentKey
              end;;
  let prMetadata := md_pr metadata in
  let status := md_status metadata in
  match prMetadata with
  | None =>
      if negb (bool_decide (status = "draft")) then
        let newMetadata := with_status metadata "draft" in
        storeMetadata_promise contentKey newMetadata;;;
        ret (Some newMetadata)
      else ret (Some metadata)
  | Some pr =>
      originPRInfo <- getPullRequest (pr_number pr);;
      let currentState := pi_state originPRInfo in
      let mergedAt := pi_merged_at originPRInfo in
      if bool_decide (currentState = "closed") && truthy mergedAt then
        let collection := md_collection metadata in
        let slug := slugFromContentKey this contentKey collection in
        spawn (DeleteUnpublishedEntry collection slug);;;
        ret None
      else if bool_decide (currentState = "closed") && negb (truthy mergedAt) then
        if negb (bool_decide (status = "draft")) then
          let newMetadata := with_status metadata "draft" in
          storeMetadata contentKey newMetadata;;;
          ret (Some newMetadata)
        else ret (Some metadata)
      else
        if negb (bool_decide (status = "pending_review")) then
          let newMetadata := with_status metadata "pending_review" in
          storeMetadata contentKey newMetadata;;;
          ret (Some newMetadata)
        else ret (Some metadata)
  end.

(** *** Migration of legacy branches *)

Definition migrateToVersion1 (branch0 : Branch) (metaData : Metadata) : M Branch :=
  let oldContentKey := Js.substring (String.length "refs/heads/cms/") (ref branch0) in
  let newContentKey := md_collection metaData +:+ "/" +:+ oldContentKey in
  let newBranchName := "cms/" +:+ newContentKey in
  match md_pr metaData with
  | None => throw (TypeError "Cannot read property 'head' of undefined")
  | Some oldPR =>
      newBranch <- createBranch newBranchName (pr_head oldPR);;
      pr <- createPR (md_commitMessage metaData) newBranchName;;
      storeMetadata newContentKey
        (migrated metaData
           {| pr_number := pi_number pr; pr_head := HeadSha (pi_head_sha pr) |}
           newBranchName);;;
      closePR oldPR;;;
      deleteBranch (md_branch metaData);;;
      deleteMetadata oldContentKey;;;
      ret {| ref := rr_ref newBranch |}
  end.

Definition migrateBranch (branch0 : Branch) : M Branch :=
  metadata <- retrieveMetadata (contentKeyFromRef CMS_BRANCH_PREFIX (ref branch0));;
  if negb (truthy (md_version metadata))
  then migrateToVersion1 branch0 metadata
  else ret branch0.

(** *** Listing *)

Definition replace404WithEmptyArray (err : JsError) : M (list Branch) :=
  if bool_decide (error_status err = Some 404%Z) then ret [] else throw err.

(** Modelled from the spec: the utility package's [onlySuccessfulPromises],
    which is not part of the sources at hand.  Entries whose step fails are
    dropped from the listing rather than failing the whole call.  The
    steps are started in list order; a step that never settles keeps the
    whole listing open, the later steps still taking place. *)
Fixpoint onlySuccessfulPromises {A B : Type} (step : A -> M B) (l : list A)
  : M (list B) :=
  match l with
  | [] => ret []
  | x :: rest =>
      fun w =>
        match step x w with
        | (Fulfilled b, w') =>
            (results <- onlySuccessfulPromises step rest;; ret (b :: results)) w'
        | (Rejected _, w') => onlySuccessfulPromises step rest w'
        | (Pending, w') => (Pending, snd (onlySuccessfulPromises step rest w'))
        end
  end.

(** The mapper of the open-authoring listing. *)
Definition reconcileBranch (branch0 : Branch) : M Branch :=
  let contentKey := contentKeyFromRef CMS_BRANCH_PREFIX (ref branch0) in
  metadata <- getUpdatedOpenAuthoringMetadata contentKey None;;
  match metadata with
  | None => throw (StringRejection "Unpublished entry was removed")
  | Some _ => ret branch0
  end.

Definition listUnpublishedBranches : M (list Branch) :=
  try_catch
    (branches <- try_catch (request (ListRefs (repoURL this) "cms"))
                           replace404WithEmptyArray;;
     if useOpenAuthoring this then
       onlySuccessfulPromises reconcileBranch branches
     else
       prs <- getPRsForBranchName CMS_BRANCH_PREFIX;;
       onlySuccessfulPromises migrateBranch
         (filter
            (fun b : Branch =>
               Exists (fun pr => pi_head_ref pr = branchNameFromRef (ref b)) prs)
            branches))
    (fun err => throw err).

(** Calls that were started without being awaited take their turn once
    the caller is done; their outcome is seen by nobody. *)
Definition run_detached (d : Detached) (w : World) : World :=
  match d with
  | DeleteUnpublishedEntry collection slug =>
      snd (deleteUnpublishedEntry collection slug w)
  end.

Definition flush_detached (w : World) : World :=
  fold_left (fun w0 d => run_detached d w0) (detached w) (set_detached [] w).

(** *** Rebase *)

Definition getCommitsDiff (baseSha headSha : string) : M (list GitHubCompareFile) :=
  response <- request (Compare (repoURL this) baseSha headSha);;
  ret (files response).

Definition rebaseSingleCommit (baseCommit commit0 : GitHubCompareCommit)
  : M GitHubCompareCommit :=
  match parents commit0 with
  | [] => throw (TypeError "Cannot read property 'sha' of undefined")
  | parent0 :: _ =>
      files0 <- getCommitsDiff parent0 (sha commit0);;
      let treeFiles := fold_left pushTreeFiles files0 [] in
      tree <- updateTree (sha baseCommit) treeFiles;;
      let message := ci_message (commit_info commit0) in
      let author := ci_author (commit_info commit0) in
      let committer := ci_committer (commit_info commit0) in
      createCommit message (ct_sha tree) [sha baseCommit]
                   (Some author) (Some committer)
  end.

(** The result is [last(commits)] (lodash, here stdpp's [last]) on the short cut, which is [undefined]
    for an empty list. *)
Definition rebaseCommits (baseCommit : GitHubCompareCommit)
    (commits0 : list GitHubCompareCommit) : M (option GitHubCompareCommit) :=
  let replay : M (option GitHubCompareCommit) :=
    newHead <- fold_left
                 (fun lastCommitPromise commit0 =>
                    newParent <- lastCommitPromise;;
                    rebaseSingleCommit newParent commit0)
                 commits0 (ret baseCommit);;
    ret (Some newHead) in
  match commits0 with
  | [] => ret (last commits0)
  | first :: _ =>
      match parents first with
      | [] => throw (TypeError "Cannot read property 'sha' of undefined")
      | parent0 :: _ =>
          if bool_decide (parent0 = sha baseCommit)
          then ret (last commits0)
          else replay
      end
  end.

Definition compareBranchToDefault (branchName : string)
  : M (GitHubCompareCommit * list GitHubCompareCommit) :=
  headReference <- getHeadReference branchName;;
  response <- request (Compare (originRepoURL this) (branch this) headReference);;
  ret (base_commit response, commits response).

Definition rebaseBranch (branchName : string) : M (option GitHubCompareCommit) :=
  try_catch
    (compared <- compareBranchToDefault branchName;;
     rebaseCommits (fst compared) (snd compared))
    (fun error => throw error).

(** *** Status changes *)

(** [new Date().toISOString()] *)
Variable Date_toISOString : Z -> string.

Definition pendingPublishRefused : string :=
  "Open Authoring entries may not be set to the status " +:+ dquote
    +:+ "pending_publish" +:+ dquote +:+ ".".

(** When none of the cases applies the method ends without a result and
    without having stored anything. *)
Definition updateUnpublishedEntryStatus (collectionName slug status : string)
  : M unit :=
  let contentKey := generateContentKey this collectionName slug in
  metadata <- retrieveMetadata contentKey;;
  if negb (useOpenAuthoring this) then
    storeMetadata contentKey (with_status metadata status)
  else if bool_decide (status = "pending_publish") then
    throw (PlainError pendingPublishRefused)
  else
    match md_pr metadata with
    | Some prMetadata =>
        originPRInfo <- getPullRequest (pr_number prMetadata);;
        let state := pi_state originPRInfo in
        if bool_decide (state = "open") && bool_decide (status = "draft") then
          closePR prMetadata;;;
          storeMetadata contentKey (with_status metadata status)
        else if bool_decide (state = "closed")
                && bool_decide (status = "pending_review") then
          openPR prMetadata;;;
          storeMetadata contentKey (with_status metadata status)
        else ret tt
    | None =>
        if bool_decide (status = "pending_review") then
          let branchName := generateBranchName CMS_BRANCH_PREFIX contentKey in
          let commitMessage :=
            orElse (Some (md_commitMessage metadata)) DEFAULT_COMMIT_MESSAGE in
          created <- createPR commitMessage branchName;;
          storeMetadata contentKey
            (with_status
               (with_pr metadata
                  (Some {| pr_number := pi_number created;
                           pr_head := HeadObject (pi_head_sha created) |}))
               status)
        else ret tt
    end.

(** *** Persisting files *)

Definition createBranchAndPullRequest (branchName sha0 commitMessage : string)
  : M PullInfo :=
  createBranch branchName (HeadSha sha0);;;
  createPR commitMessage branchName.

(** [uploadBlob] on a file to persist: an asset brings its own [toBase64],
    an entry is encoded from its [raw] text. *)
Definition uploadFile (file : PersistFile) : M Uploaded :=
  match file with
  | AssetFile asset =>
      response <- request (CreateBlob (repoURL this) (ap_toBase64 asset));;
      ret {| up_file := file; up_sha := response |}
  | EntryFile entry =>
      response <- request (CreateBlob (repoURL this) (Base64_encode (en_raw entry)));;
      ret {| up_file := file; up_sha := response |}
  end.

(** [this.user()] called without awaiting it yet: the request is made and
    its outcome kept for the [await] further down. *)
Definition userStarted : M unit :=
  fun w => (Fulfilled tt, snd (user w)).

Definition editorialWorkflowGit (files0 : list Uploaded)
    (entry : option (Entry * string)) (mediaFilesList : list MediaFile)
    (options : PersistOptions) : M unit :=
  match entry with
  | None => throw (TypeError "Cannot read property 'slug' of null")
  | Some (entry, entrySha) =>
      let contentKey :=
        generateContentKey this (po_collectionName options) (en_slug entry) in
      let branchName := generateBranchName CMS_BRANCH_PREFIX contentKey in
      let unpublished := default false (po_unpublished options) in
      let objects :=
        {| obj_entry := {| mf_sha := entrySha; mf_path := en_path entry |};
           obj_files := mediaFilesList |} in
      let title := po_parsedData options ≫= pd_title in
      let description := po_parsedData options ≫= pd_description in
      if negb unpublished then
        userStarted;;;
        branchData <- getDefaultBranch;;
        changeTree <- updateTree branchData (map uploadedTreeFile files0);;
        commitResponse <- commit (po_commitMessage options) changeTree;;
        pr <- (if useOpenAuthoring this then
                 createBranch branchName (HeadSha (sha commitResponse));;;
                 ret None
               else
                 created <- createBranchAndPullRequest
                              branchName (sha commitResponse)
                              (po_commitMessage options);;
                 ret (Some created));;
        user0 <- user;;
        now <- dateNow;;
        storeMetadata contentKey
          {| md_type := "PR";
             md_objects := objects;
             md_branch := branchName;
             md_status := orElse (po_status options) (initialWorkflowStatus this);
             md_pr := (fun created =>
                         {| pr_number := pi_number created;
                            pr_head := HeadSha (pi_head_sha created) |}) <$> pr;
             md_collection := po_collectionName options;
             md_commitMessage := po_commitMessage options;
             md_version := Some CURRENT_METADATA_VERSION;
             md_user := orElse (Some (user_name user0)) (user_login user0);
             md_title := title;
             md_description := description;
             md_timeStamp := Date_toISOString now |}
      else
        metadata <- retrieveMetadata contentKey;;
        let metadataMediaFiles := obj_files (md_objects metadata) in
        let mediaFilesToRemove :=
          map (fun file => {| tf_sha := None; tf_path := Some (mf_path file) |})
              (differenceByPath metadataMediaFiles mediaFilesList) in
        rebasedHead <- rebaseBranch branchName;;
        let treeFiles := mediaFilesToRemove ++ map uploadedTreeFile files0 in
        match rebasedHead with
        | None => throw (TypeError "Cannot read property 'sha' of undefined")
        | Some rebasedHead =>
            changeTree <- updateTree (sha rebasedHead) treeFiles;;
            commit0 <- commit (po_commitMessage options) changeTree;;
            let pr := (fun p => {| pr_number := pr_number p;
                                   pr_head := HeadSha (sha commit0) |})
                        <$> md_pr metadata in
            let updatedMetadata := updated metadata pr title description objects in
            storeMetadata contentKey updatedMetadata;;;
            patchBranch branchName (sha commit0) (Some true)
        end
  end.

Definition persistFiles (entry : option Entry) (mediaFiles : list AssetProxy)
    (options : PersistOptions) : M unit :=
  let files0 :=
    match entry with
    | Some entry => map AssetFile mediaFiles ++ [EntryFile entry]
    | None => map AssetFile mediaFiles
    end in
  uploaded <- promiseAll (map uploadFile files0);;
  if negb (default false (po_useWorkflow options)) then
    branchData <- getDefaultBranch;;
    changeTree <- updateTree branchData (map uploadedTreeFile uploaded);;
    response <- commit (po_commitMessage options) changeTree;;
    patchBranch (branch this) (sha response) None
  else
    editorialWorkflowGit uploaded
      (match entry with
       | Some _ => uploadedEntryOf uploaded
       | None => None
       end)
      (mediaFilesListOf uploaded) options.

(* =================================================================== *)
(** ** Notions used by the statements *)
(* =================================================================== *)

(** The translation of one changed file as the specification words it: a
    removed file is a deletion, a renamed file is a deletion of the old
    path plus an addition of the new one, anything else is an addition. *)
Definition translateChange (file : GitHubCompareFile) : list TreeFile :=
  let deletion (path : option string) := {| tf_sha := None; tf_path := path |} in
  let addition := {| tf_sha := Some (cf_sha file);
                     tf_path := Some (cf_filename file) |} in
  if bool_decide (cf_status file = "removed") then
    [deletion (Some (cf_filename file))]
  else if bool_decide (cf_status file = "renamed") then
    [deletion (cf_previous_filename file); addition]
  else [addition].

(** No write is in flight or waiting, and the semaphore, if it exists
    already, is free. *)
Definition idle (w : World) : Prop :=
  ready w = [] /\
  (metadataSemaphore w = None \/ metadataSemaphore w = Some (semaphore 1)).

(** The single slot is taken and no task is left that could give it
    back. *)
Definition stuck (w : World) : Prop :=
  ready w = [] /\
  exists q, metadataSemaphore w =
              Some {| capacity := 1; current := 1; queue := q |}.

(** A computation that only talks to the hosting service: it settles, and
    of the world it changes the trace and the clock alone. *)
Definition remote_only {A : Type} (m : M A) : Prop :=
  forall w, fst (m w) <> Pending /\ exists tr t, snd (m w) = set_remote tr t w.

(** The remote calls of the [try] block of [storeMetadata], and of the one
    of [deleteMetadata]. *)
Definition store_remote (key : string) (data0 : Metadata) : M unit :=
  branchData <- checkMetadataRef;;
  file <- uploadBlob {| bi_path := Some (key +:+ ".json");
                        bi_raw := JSON_stringify data0;
                        bi_sha := None |};;
  changeTree <- updateTree (object_sha branchData) [asTreeFile file];;
  response <- commit ("Updating “" +:+ key +:+ "” metadata") changeTree;;
  patchRef "meta" "_netlify_cms" (sha response) None.

Definition delete_remote (key : string) : M unit :=
  branchData <- checkMetadataRef;;
  changeTree <- updateTree (object_sha branchData)
                  [ {| tf_sha := None; tf_path := Some (key +:+ ".json") |} ];;
  response <- commit ("Deleting “" +:+ key +:+ "” metadata") changeTree;;
  patchRef "meta" "_netlify_cms" (sha response) None.

(** The world in which the task of a write called in an idle world starts:
    its promise is open and it holds the slot. *)
Definition started (w : World) : World :=
  set_sched (Some {| capacity := 1; current := 1; queue := [] |}) []
            (set_promises (promises w ++ [None]) w).

(** The world a task leaves behind when it gives the slot back and settles
    its promise [p]. *)
Definition released (p : nat) (w : World) : World :=
  set_promises (<[p := Some Resolved]> (promises w))
               (set_sched (Some (semaphore 1)) [] w).

(** A hosting service on which every call succeeds, and stored documents
    that all parse. *)
Definition always_answers : Prop :=
  forall (h : list Request) (r : Request), exists v, respond remote h r = inl v.


(** A computation that leaves the metadata store alone: it settles, every
    call it makes satisfies [P], and the cache, the semaphore, the tasks
    and the promises are as before. *)
Definition aside {A : Type} (P : Request -> Prop) (m : M A) : Prop :=
  forall w,
    fst (m w) <> Pending
    /\ (exists ext, trace (snd (m w)) = trace w ++ ext /\ Forall P ext)
    /\ cache (snd (m w)) = cache w
    /\ metadataSemaphore (snd (m w)) = metadataSemaphore w
    /\ ready (snd (m w)) = ready w
    /\ promises (snd (m w)) = promises w.

(** Calls that read. *)
Definition reads (r : Request) : Prop :=
  match r with
  | GetRef _ _ _ | ListRefs _ _ | GetBranch _ _ | GetContents _ _ _ | GetUser
  | GetPull _ _ | ListPulls _ _ _ _ | Compare _ _ _ => True
  | _ => False
  end.

(** Calls that create git objects, which no ref points at yet. *)
Definition creates_objects (r : Request) : Prop :=
  match r with
  | CreateBlob _ _ | CreateTree _ _ _ | CreateCommit _ _ _ _ _ _ => True
  | _ => False
  end.

(** Calls that move a ref by force, and calls that delete a ref. *)
Definition forces (r : Request) : Prop :=
  match r with
  | PatchRef _ _ _ _ true => True
  | _ => False
  end.

Definition deletes_ref (r : Request) : Prop :=
  match r with
  | DeleteRef _ _ _ => True
  | _ => False
  end.

(** Calls that change a pull request. *)
Definition changes_pull (r : Request) : Prop :=
  match r with
  | PatchPull _ _ _ | MergePull _ _ _ _ _ | CreatePull _ _ _ _ _ => True
  | _ => False
  end.

(** The calls the metadata store makes when it writes. *)
Definition store_call (r : Request) : Prop :=
  match r with
  | GetRef root "meta" "_netlify_cms" => root = repoURL this
  | CreateBlob root _ | CreateTree root _ _ | CreateCommit root _ _ _ _ _ =>
      root = repoURL this
  | CreateRef root "refs/meta/_netlify_cms" _ => root = repoURL this
  | PatchRef root "meta" "_netlify_cms" _ false => root = repoURL this
  | _ => False
  end.

(** The calls of a save that goes straight to the default branch. *)
Definition direct_save_call (r : Request) : Prop :=
  match r with
  | CreateBlob root _ | CreateTree root _ _ | CreateCommit root _ _ _ _ _ =>
      root = repoURL this
  | GetBranch root name => root = originRepoURL this /\ name = branch this
  | PatchRef root "heads" name _ false => root = repoURL this /\ name = branch this
  | _ => False
  end.

Definition creates_blob (r : Request) : Prop :=
  match r with
  | CreateBlob _ _ => True
  | _ => False
  end.

(** A computation that goes through when the hosting service answers
    every call: it is fulfilled, and of the world it changes the trace and
    the clock alone. *)
Definition answers {A : Type} (m : M A) : Prop :=
  always_answers ->
  forall w, exists a tr t, m w = (Fulfilled a, set_remote tr t w).

(** A string without a slash in it: one segment of a path or key. *)
Fixpoint slashFree (s : string) : bool :=
  match s with
  | EmptyString => true
  | String c rest => negb (Ascii.eqb c "/") && slashFree rest
  end.

(* =================================================================== *)
(** ** Strings *)
(* =================================================================== *)

Lemma append_cons (a : ascii) (s t : string) :
  String a s +:+ t = String a (s +:+ t).
Proof. reflexivity. Qed.

Lemma append_nil (t : string) : EmptyString +:+ t = t.
Proof. reflexivity. Qed.

Lemma append_assoc (s t u : string) : (s +:+ t) +:+ u = s +:+ (t +:+ u).
Proof.
  induction s as [|a s IH]; [reflexivity|].
  rewrite !append_cons. by rewrite IH.
Qed.

Lemma length_append (s t : string) :
  String.length (s +:+ t) = (String.length s + String.length t)%nat.
Proof.
  induction s as [|a s IH]; [reflexivity|].
  rewrite append_cons. simpl. by rewrite IH.
Qed.

Lemma substring_append (p s : string) :
  Js.substring (String.length p) (p +:+ s) = s.
Proof.
  induction p as [|a p IH]; [by destruct s|].
  rewrite append_cons. simpl. exact IH.
Qed.

Lemma length_substring (n : nat) (s : string) :
  String.length (Js.substring n s) = (String.length s - n)%nat.
Proof.
  revert s. induction n as [|n IH]; intros s.
  - destruct s; simpl; lia.
  - destruct s as [|a s]; simpl; [reflexivity|]. apply IH.
Qed.

Lemma startsWith_append (p s : string) : Js.startsWith p (p +:+ s) = true.
Proof.
  induction p as [|a p IH]; [reflexivity|].
  rewrite append_cons. simpl. by rewrite Ascii.eqb_refl.
Qed.

(* =================================================================== *)
(** ** Content keys and branch names *)
(* =================================================================== *)

(** Whatever the variant, the key is [repo/collection/slug]. *)
Lemma generateContentKey_always_prefixed (collectionName slug : string) :
  generateContentKey this collectionName slug
  = repo this +:+ "/" +:+ collectionName +:+ "/" +:+ slug.
Proof. reflexivity. Qed.

Lemma generateContentKey_never_plain (collectionName slug : string) :
  generateContentKey this collectionName slug
  <> lib_generateContentKey collectionName slug.
Proof.
  unfold generateContentKey, lib_generateContentKey. intros H.
  apply (f_equal String.length) in H.
  rewrite !length_append in H. simpl in H. lia.
Qed.


Lemma branchNameFromRef_generateBranchName (contentKey : string) :
  branchNameFromRef
    ("refs/heads/" +:+ generateBranchName CMS_BRANCH_PREFIX contentKey)
  = generateBranchName CMS_BRANCH_PREFIX contentKey.
Proof. unfold branchNameFromRef. apply substring_append. Qed.


(** In the standard variant it never does: what comes back is longer
    than the slug. *)
Lemma slugFromContentKey_standard (collectionName slug : string) :
  useOpenAuthoring this = false ->
  slugFromContentKey this (generateContentKey this collectionName slug)
                     collectionName
  = Js.substring (String.length collectionName + 1)
      (repo this +:+ "/" +:+ collectionName +:+ "/" +:+ slug)
  /\ slugFromContentKey this (generateContentKey this collectionName slug)
                        collectionName <> slug.
Proof.
  intros Hstd. unfold slugFromContentKey, generateContentKey. rewrite Hstd.
  simpl negb. cbv iota. split; [reflexivity|].
  intros H. apply (f_equal String.length) in H.
  rewrite length_substring, !length_append in H. simpl in H. lia.
Qed.

(* =================================================================== *)
(** ** Laws of the monad *)
(* =================================================================== *)

Lemma bind_ret_l {A B : Type} (a : A) (k : A -> M B) (w : World) :
  (x <- ret a;; k x) w = k a w.
Proof. reflexivity. Qed.

Lemma bind_ret_r {A : Type} (m : M A) (w : World) :
  (x <- m;; ret x) w = m w.
Proof. unfold bind, ret. by destruct (m w) as [[?|?|] ?]. Qed.

Lemma bind_assoc {A B C : Type} (m : M A) (k1 : A -> M B) (k2 : B -> M C)
    (w : World) :
  (y <- (x <- m;; k1 x);; k2 y) w = (x <- m;; y <- k1 x;; k2 y) w.
Proof. unfold bind. by destruct (m w) as [[?|?|] ?]. Qed.

Lemma bind_ext {A B : Type} (m : M A) (k1 k2 : A -> M B) (w : World) :
  (forall a w', k1 a w' = k2 a w') ->
  (x <- m;; k1 x) w = (x <- m;; k2 x) w.
Proof. intros H. unfold bind. destruct (m w) as [[?|?|] ?]; auto. Qed.

Lemma bind_fulfilled {A B : Type} (m : M A) (k : A -> M B) (w w' : World) (a : A) :
  m w = (Fulfilled a, w') -> (x <- m;; k x) w = k a w'.
Proof. intros H. unfold bind. by rewrite H. Qed.

Lemma bind_rejected {A B : Type} (m : M A) (k : A -> M B) (w w' : World)
    (e : JsError) :
  m w = (Rejected e, w') -> (x <- m;; k x) w = (Rejected e, w').
Proof. intros H. unfold bind. by rewrite H. Qed.

Lemma try_catch_fulfilled {A : Type} (m : M A) (h : JsError -> M A)
    (w w' : World) (a : A) :
  m w = (Fulfilled a, w') -> try_catch m h w = (Fulfilled a, w').
Proof. intros H. unfold try_catch. by rewrite H. Qed.

Lemma try_catch_rejected {A : Type} (m : M A) (h : JsError -> M A)
    (w w' : World) (e : JsError) :
  m w = (Rejected e, w') -> try_catch m h w = h e w'.
Proof. intros H. unfold try_catch. by rewrite H. Qed.

Lemma request_answered (r : Request) (w : World) (v : Response r) :
  respond remote (trace w) r = inl v ->
  request r w = (Fulfilled v, called r w).
Proof. intros H. unfold request. by rewrite H. Qed.

Lemma request_failed (r : Request) (w : World) (f : Failure) :
  respond remote (trace w) r = inr f ->
  request r w = (Rejected (APIError (f_message f) (f_status f)), called r w).
Proof. intros H. unfold request. by rewrite H. Qed.

(* =================================================================== *)
(** ** Forced ref updates *)
(* =================================================================== *)

Lemma patchBranch_cases (branchName sha0 : string) (force : option bool) (w : World) :
  patchBranch branchName sha0 force w
  = if default false force && negb (assertCmsBranch CMS_BRANCH_PREFIX branchName)
    then (Rejected (PlainError
                      ("Only CMS branches can be force updated, cannot force update "
                         +:+ branchName)), w)
    else request (PatchRef (repoURL this) "heads" branchName sha0
                           (default false force)) w.
Proof.
  unfold patchBranch, patchRef.
  destruct (default false force && negb (assertCmsBranch CMS_BRANCH_PREFIX branchName));
    reflexivity.
Qed.

Lemma request_trace (r : Request) (w : World) :
  trace (snd (request r w)) = trace w ++ [r].
Proof. unfold request. destruct (respond remote (trace w) r); reflexivity. Qed.

(** C10: called with [force = true] on a branch whose name does not start
    with the workflow prefix followed by a slash, [patchBranch] throws and
    makes no remote call; and whatever [force] is, a call on such a branch
    never issues a forced ref update. *)
Theorem patchBranch_force_needs_cms_branch
    (branchName sha0 : string) (w : World) :
  Js.startsWith (CMS_BRANCH_PREFIX +:+ "/") branchName = false ->
  patchBranch branchName sha0 (Some true) w
  = (Rejected (PlainError
                 ("Only CMS branches can be force updated, cannot force update "
                    +:+ branchName)), w)
  /\ forall force,
       trace (snd (patchBranch branchName sha0 force w)) = trace w
       \/ trace (snd (patchBranch branchName sha0 force w))
          = trace w ++ [PatchRef (repoURL this) "heads" branchName sha0 false].
Proof.
  intros Hother. split.
  - rewrite patchBranch_cases. unfold assertCmsBranch. by rewrite Hother.
  - intros force. rewrite patchBranch_cases. unfold assertCmsBranch.
    rewrite Hother. destruct force as [[|]|]; simpl.
    + by left.
    + right. exact (request_trace (PatchRef _ _ _ _ _) w).
    + right. exact (request_trace (PatchRef _ _ _ _ _) w).
Qed.

(* =================================================================== *)
(** ** Rebase *)
(* =================================================================== *)

Lemma pushTreeFiles_translateChange (arr : list TreeFile) (file : GitHubCompareFile) :
  pushTreeFiles arr file = arr ++ translateChange file.
Proof.
  unfold pushTreeFiles, translateChange.
  repeat case_bool_decide; by rewrite <- ?app_assoc.
Qed.

Lemma treeFiles_translateChange (files0 : list GitHubCompareFile) (arr : list TreeFile) :
  fold_left pushTreeFiles files0 arr = arr ++ flat_map translateChange files0.
Proof.
  revert arr. induction files0 as [|file files0 IH]; intros arr; simpl.
  - by rewrite app_nil_r.
  - rewrite IH, pushTreeFiles_translateChange. by rewrite <- app_assoc.
Qed.

(** The replay applies each commit to the result of the one before. *)
Lemma replay_from (l : list GitHubCompareCommit) (m : M GitHubCompareCommit)
    (w : World) :
  fold_left (fun lastCommitPromise c =>
               newParent <- lastCommitPromise;; rebaseSingleCommit newParent c) l m w
  = (x <- m;;
     fold_left (fun lastCommitPromise c =>
                  newParent <- lastCommitPromise;; rebaseSingleCommit newParent c)
               l (ret x)) w.
Proof.
  revert m w. induction l as [|c l IH]; intros m w; simpl.
  - by rewrite bind_ret_r.
  - rewrite IH, bind_assoc. apply bind_ext. intros x w'.
    by rewrite IH, bind_assoc, bind_ret_l.
Qed.

Lemma replay_cons (baseCommit commit0 : GitHubCompareCommit)
    (rest : list GitHubCompareCommit) (w : World) :
  fold_left (fun lastCommitPromise c =>
               newParent <- lastCommitPromise;; rebaseSingleCommit newParent c)
            (commit0 :: rest) (ret baseCommit) w
  = (newParent <- rebaseSingleCommit baseCommit commit0;;
     fold_left (fun lastCommitPromise c =>
                  newParent <- lastCommitPromise;; rebaseSingleCommit newParent c)
               rest (ret newParent)) w.
Proof. simpl. by rewrite replay_from, bind_assoc, bind_ret_l. Qed.

(** With a first commit already sitting on the base, nothing is replayed
    and the last commit of the list, the head of the branch, is returned. *)
Lemma rebaseCommits_short_cut (baseCommit first : GitHubCompareCommit)
    (rest : list GitHubCompareCommit) (others : list string) (w : World) :
  parents first = sha baseCommit :: others ->
  rebaseCommits baseCommit (first :: rest) w
  = (Fulfilled (last (first :: rest)), w)
  /\ is_Some (last (first :: rest)).
Proof.
  intros Hparent. unfold rebaseCommits. rewrite Hparent.
  rewrite bool_decide_eq_true_2 by reflexivity. split; [reflexivity|].
  by apply last_is_Some.
Qed.

(** C4: with an empty list of commits nothing is replayed, but what comes
    back is [undefined], not a commit: [last] of an empty list. *)
Theorem rebaseCommits_empty_returns_undefined
    (baseCommit : GitHubCompareCommit) (w : World) :
  rebaseCommits baseCommit [] w = (Fulfilled None, w).
Proof. reflexivity. Qed.

(** C5: replaying one commit asks for its diff against its own parent,
    builds a tree on the new base from the translated changes (a removed
    file is a deletion, a renamed file a deletion of the old path plus an
    addition of the new path with the file's sha, any other file an
    addition), and creates a commit whose only parent is the new base and
    whose message, author and committer are the original ones. *)
Theorem rebaseSingleCommit_replays_changes
    (baseCommit commit0 : GitHubCompareCommit) (parent0 : string)
    (others : list string) (w : World)
    (compared : GitHubCompareResponse) (tree : string) :
  let diff := Compare (repoURL this) parent0 (sha commit0) in
  let changes := flat_map translateChange (files compared) in
  let build := CreateTree (repoURL this) (Some (sha baseCommit))
                          (map toTreeEntry changes) in
  let create := CreateCommit (repoURL this) (ci_message (commit_info commit0)) tree
                             [sha baseCommit]
                             (Some (ci_author (commit_info commit0)))
                             (Some (ci_committer (commit_info commit0))) in
  parents commit0 = parent0 :: others ->
  respond remote (trace w) diff = inl compared ->
  respond remote (trace w ++ [diff]) build = inl tree ->
  rebaseSingleCommit baseCommit commit0 w
  = request create (called build (called diff w))
  /\ trace (snd (rebaseSingleCommit baseCommit commit0 w))
     = trace w ++ [diff; build; create].
Proof.
  intros diff changes build create Hparents Hdiff Hbuild.
  assert (Hrun : rebaseSingleCommit baseCommit commit0 w
                 = request create (called build (called diff w))).
  { unfold rebaseSingleCommit. rewrite Hparents.
    unfold getCommitsDiff, updateTree, createTree, createCommit.
    unfold bind at 1. unfold bind at 1. unfold request at 1.
    fold diff. rewrite Hdiff. unfold ret at 1.
    rewrite treeFiles_translateChange. simpl app.
    unfold bind at 1. unfold bind at 1. unfold request at 1.
    fold changes. fold build. simpl trace. rewrite Hbuild.
    unfold ret at 1. reflexivity. }
  split; [exact Hrun|].
  rewrite Hrun.
  etransitivity; [exact (request_trace create (called build (called diff w)))|].
  simpl. by rewrite <- !app_assoc.
Qed.

(* =================================================================== *)
(** ** Remote-only computations *)
(* =================================================================== *)

Lemma remote_only_ret {A : Type} (a : A) : remote_only (ret a).
Proof.
  intros w. split; [done|]. exists (trace w), (clock w). by destruct w.
Qed.

Lemma remote_only_throw {A : Type} (e : JsError) : remote_only (@throw A e).
Proof.
  intros w. split; [done|]. exists (trace w), (clock w). by destruct w.
Qed.

Lemma remote_only_request (r : Request) : remote_only (request r).
Proof.
  intros w. unfold request.
  destruct (respond remote (trace w) r); (split; [done|]); by eexists _, _.
Qed.

Lemma remote_only_bind {A B : Type} (m : M A) (k : A -> M B) :
  remote_only m -> (forall a, remote_only (k a)) -> remote_only (x <- m;; k x).
Proof.
  intros Hm Hk w. unfold bind.
  destruct (Hm w) as [Hsettles (tr & t & Hw)].
  destruct (m w) as [[a|e|] w1]; simpl in *; subst.
  - destruct (Hk a (set_remote tr t w)) as [Hs (tr' & t' & Hw')].
    split; [done|]. exists tr', t'. by rewrite Hw'.
  - split; [done|]. by exists tr, t.
  - done.
Qed.

Lemma remote_only_try_catch {A : Type} (m : M A) (h : JsError -> M A) :
  remote_only m -> (forall e, remote_only (h e)) -> remote_only (try_catch m h).
Proof.
  intros Hm Hh w. unfold try_catch.
  destruct (Hm w) as [Hsettles (tr & t & Hw)].
  destruct (m w) as [[a|e|] w1]; simpl in *; subst.
  - split; [done|]. by exists tr, t.
  - destruct (Hh e (set_remote tr t w)) as [Hs (tr' & t' & Hw')].
    split; [done|]. exists tr', t'. by rewrite Hw'.
  - done.
Qed.

Ltac remote_only :=
  repeat (intros;
          first [ apply remote_only_bind
                | apply remote_only_try_catch
                | match goal with
                  | |- remote_only (request ?r) => exact (remote_only_request r)
                  end
                | apply remote_only_ret
                | apply remote_only_throw ]).

Lemma remote_only_checkMetadataRef : remote_only checkMetadataRef.
Proof.
  unfold checkMetadataRef, uploadBlob, commit, createCommit, createRef.
  remote_only.
Qed.

Lemma remote_only_store_remote (key : string) (data0 : Metadata) :
  remote_only (store_remote key data0).
Proof.
  unfold store_remote. apply remote_only_bind; [apply remote_only_checkMetadataRef|].
  unfold uploadBlob, updateTree, createTree, commit, createCommit, patchRef.
  remote_only.
Qed.

Lemma remote_only_delete_remote (key : string) : remote_only (delete_remote key).
Proof.
  unfold delete_remote. apply remote_only_bind; [apply remote_only_checkMetadataRef|].
  unfold updateTree, createTree, commit, createCommit, patchRef.
  remote_only.
Qed.

(** What a remote-only computation returns, spelled out. *)
Lemma remote_only_run {A : Type} (m : M A) (w : World) :
  remote_only m ->
  exists tr t,
    (exists a, m w = (Fulfilled a, set_remote tr t w))
    \/ (exists e, m w = (Rejected e, set_remote tr t w)).
Proof.
  intros Hm. destruct (Hm w) as [Hsettles (tr & t & Hw)].
  exists tr, t. destruct (m w) as [[a|e|] w1]; simpl in *; subst.
  - left. by exists a.
  - right. by exists e.
  - done.
Qed.

(* =================================================================== *)
(** ** The metadata store: one write in an idle world *)
(* =================================================================== *)

Ltac bind_norm := repeat (rewrite bind_assoc; apply bind_ext; intros ? ?).

Lemma storeMetadata_task_split (p : nat) (key : string) (data0 : Metadata) (w : World) :
  storeMetadata_task p key data0 w
  = try_catch
      (store_remote key data0;;;
       now <- dateNow;;
       localForage_setItem ("gh.meta." +:+ key)
         {| expires := (now + 300000)%Z; data := data0 |};;;
       leave;;;
       settle p Resolved)
      (fun err => settle p (RejectedWith err)) w.
Proof.
  unfold storeMetadata_task, store_remote, try_catch.
  match goal with
  | |- match ?a w with _ => _ end = match ?b w with _ => _ end =>
      assert (Heq : a w = b w); [|by rewrite Heq]
  end.
  symmetry. bind_norm. reflexivity.
Qed.

Lemma deleteMetadata_task_split (p : nat) (key : string) (w : World) :
  deleteMetadata_task p key w
  = try_catch
      (delete_remote key;;; leave;;; settle p Resolved)
      (fun _ => leave;;; settle p Resolved) w.
Proof.
  unfold deleteMetadata_task, delete_remote, try_catch.
  match goal with
  | |- match ?a w with _ => _ end = match ?b w with _ => _ end =>
      assert (Heq : a w = b w); [|by rewrite Heq]
  end.
  symmetry. bind_norm. reflexivity.
Qed.

Lemma promise_open (l : list (option Settlement)) :
  (l ++ [None]) !! length l = Some None.
Proof. by apply list_lookup_middle. Qed.

Lemma promise_settled (l : list (option Settlement)) (s : Settlement) :
  <[length l := Some s]> (l ++ [None]) !! length l = Some (Some s).
Proof. apply list_lookup_insert_eq. rewrite length_app. simpl. lia. Qed.

Lemma storeMetadata_promise_idle (key : string) (data0 : Metadata) (w : World) :
  idle w ->
  storeMetadata_promise key data0 w
  = (Fulfilled (length (promises w)),
     set_sched (Some {| capacity := 1; current := 1; queue := [] |})
               [ {| t_promise := length (promises w); t_write := WStore key data0 |} ]
               (set_promises (promises w ++ [None]) w)).
Proof.
  intros [Hready Hsem]. destruct w; simpl in *; subst.
  destruct Hsem as [-> | ->]; reflexivity.
Qed.

Lemma deleteMetadata_promise_idle (key : string) (w : World) :
  idle w ->
  deleteMetadata_promise key w
  = (Fulfilled (length (promises w)),
     set_sched (Some {| capacity := 1; current := 1; queue := [] |})
               [ {| t_promise := length (promises w); t_write := WDelete key |} ]
               (set_promises (promises w ++ [None]) w)).
Proof.
  intros [Hready Hsem]. destruct w; simpl in *; subst.
  destruct Hsem as [-> | ->]; reflexivity.
Qed.

(** The task of a write that starts in the world [started w]. *)
Lemma run_task_store (key : string) (data0 : Metadata) (w : World) :
  run_task {| t_promise := length (promises w); t_write := WStore key data0 |}
           (started w)
  = match store_remote key data0 (started w) with
    | (Fulfilled _, w1) =>
        released (length (promises w))
          (set_cache (<["gh.meta." +:+ key :=
                          {| expires := (clock w1 + 300000)%Z; data := data0 |}]>
                        (cache w1)) w1)
    | (Rejected e, w1) =>
        set_promises (<[length (promises w) := Some (RejectedWith e)]> (promises w1)) w1
    | (Pending, w1) => w1
    end.
Proof.
  unfold run_task. cbv iota beta delta [t_write t_promise].
  rewrite storeMetadata_task_split.
  destruct (remote_only_run (store_remote key data0) (started w)
              (remote_only_store_remote key data0))
    as (tr & t & [[a Hrun] | [e Hrun]]); rewrite Hrun.
  - erewrite try_catch_fulfilled; [reflexivity|].
    erewrite bind_fulfilled by exact Hrun.
    unfold bind, dateNow, localForage_setItem, leave, settle. simpl.
    rewrite promise_open. reflexivity.
  - erewrite try_catch_rejected.
    2:{ erewrite bind_rejected by exact Hrun. reflexivity. }
    unfold settle. simpl. rewrite promise_open. reflexivity.
Qed.

Lemma run_task_delete (key : string) (w : World) :
  run_task {| t_promise := length (promises w); t_write := WDelete key |}
           (started w)
  = match delete_remote key (started w) with
    | (Fulfilled _, w1) | (Rejected _, w1) => released (length (promises w)) w1
    | (Pending, w1) => w1
    end.
Proof.
  unfold run_task. cbv iota beta delta [t_write t_promise].
  rewrite deleteMetadata_task_split.
  destruct (remote_only_run (delete_remote key) (started w)
              (remote_only_delete_remote key))
    as (tr & t & [[a Hrun] | [e Hrun]]); rewrite Hrun.
  - erewrite try_catch_fulfilled; [reflexivity|].
    erewrite bind_fulfilled by exact Hrun.
    unfold bind, leave, settle. simpl.
    rewrite promise_open. reflexivity.
  - erewrite try_catch_rejected.
    2:{ erewrite bind_rejected by exact Hrun. reflexivity. }
    unfold bind, leave, settle. simpl. rewrite promise_open. reflexivity.
Qed.

(** Turns of the event loop. *)
Lemma await_loop_resolved (fuel p : nat) (w : World) :
  promises w !! p = Some (Some Resolved) ->
  await_loop fuel p w = (Fulfilled tt, w).
Proof. intros H. destruct fuel; simpl; by rewrite H. Qed.

Lemma await_loop_rejected (fuel p : nat) (w : World) (e : JsError) :
  promises w !! p = Some (Some (RejectedWith e)) ->
  await_loop fuel p w = (Rejected e, w).
Proof. intros H. destruct fuel; simpl; by rewrite H. Qed.

Lemma await_loop_blocked (fuel p : nat) (w : World) :
  promises w !! p = Some None -> ready w = [] ->
  await_loop fuel p w = (Pending, w).
Proof. intros H Hr. destruct fuel; simpl; rewrite H, ?Hr; reflexivity. Qed.

Lemma await_loop_turn (fuel p : nat) (w : World) (t : Task) (rest : list Task) :
  promises w !! p = Some None -> ready w = t :: rest ->
  await_loop (S fuel) p w
  = await_loop fuel p (run_task t (set_sched (metadataSemaphore w) rest w)).
Proof. intros H Hr. simpl. by rewrite H, Hr. Qed.

(** A write called in an idle world: its task runs at once; the outcome is
    decided by the remote calls of the task. *)
Lemma storeMetadata_idle (key : string) (data0 : Metadata) (w : World) :
  idle w ->
  storeMetadata key data0 w
  = match store_remote key data0 (started w) with
    | (Fulfilled _, w1) =>
        (Fulfilled tt,
         released (length (promises w))
           (set_cache (<["gh.meta." +:+ key :=
                           {| expires := (clock w1 + 300000)%Z; data := data0 |}]>
                         (cache w1)) w1))
    | (Rejected e, w1) =>
        (Rejected e,
         set_promises (<[length (promises w) := Some (RejectedWith e)]> (promises w1)) w1)
    | (Pending, w1) => (Pending, w1)
    end.
Proof.
  intros Hidle. unfold storeMetadata.
  rewrite (bind_fulfilled _ _ _ _ _ (storeMetadata_promise_idle key data0 w Hidle)).
  unfold await. change (pending_tasks _) with 1%nat.
  erewrite await_loop_turn; [|apply promise_open|reflexivity].
  change (set_sched _ [] _) with (started w).
  rewrite run_task_store.
  destruct (remote_only_run (store_remote key data0) (started w)
              (remote_only_store_remote key data0))
    as (tr & t & [[a Hrun] | [e Hrun]]); rewrite Hrun.
  - apply await_loop_resolved. apply promise_settled.
  - apply await_loop_rejected. apply promise_settled.
Qed.

Lemma deleteMetadata_idle (key : string) (w : World) :
  idle w ->
  deleteMetadata key w
  = match delete_remote key (started w) with
    | (Fulfilled _, w1) | (Rejected _, w1) =>
        (Fulfilled tt, released (length (promises w)) w1)
    | (Pending, w1) => (Pending, w1)
    end.
Proof.
  intros Hidle. unfold deleteMetadata.
  rewrite (bind_fulfilled _ _ _ _ _ (deleteMetadata_promise_idle key w Hidle)).
  unfold await. change (pending_tasks _) with 1%nat.
  erewrite await_loop_turn; [|apply promise_open|reflexivity].
  change (set_sched _ [] _) with (started w).
  rewrite run_task_delete.
  destruct (remote_only_run (delete_remote key) (started w)
              (remote_only_delete_remote key))
    as (tr & t & [[a Hrun] | [e Hrun]]); rewrite Hrun.
  - apply await_loop_resolved. apply promise_settled.
  - apply await_loop_resolved. apply promise_settled.
Qed.

Lemma idle_released (p : nat) (tr : list Request) (t : Z) (w : World) :
  idle (released p (set_remote tr t (started w))).
Proof. split; [reflexivity|]. by right. Qed.

Lemma deleteMetadata_idle_resolves (key : string) (w : World) :
  idle w ->
  exists w1, deleteMetadata key w = (Fulfilled tt, w1) /\ idle w1.
Proof.
  intros Hidle. rewrite (deleteMetadata_idle key w Hidle).
  destruct (remote_only_run (delete_remote key) (started w)
              (remote_only_delete_remote key))
    as (tr & t & [[a Hrun] | [e Hrun]]); rewrite Hrun;
    eexists; (split; [reflexivity|apply idle_released]).
Qed.

(** A failed [storeMetadata] rejects its promise and keeps the slot. *)
Lemma storeMetadata_failure_keeps_slot (key : string) (data0 : Metadata)
    (w w' : World) (e : JsError) :
  idle w ->
  storeMetadata key data0 w = (Rejected e, w') ->
  stuck w'.
Proof.
  intros Hidle. rewrite (storeMetadata_idle key data0 w Hidle).
  destruct (remote_only_run (store_remote key data0) (started w)
              (remote_only_store_remote key data0))
    as (tr & t & [[a Hrun] | [e' Hrun]]); rewrite Hrun; intros [= <- <-].
  split; [reflexivity|]. by eexists.
Qed.

(** With the slot held for good, a write is queued, makes no remote call
    and never settles. *)
Lemma deleteMetadata_promise_stuck (key : string) (w : World) (q : list Task) :
  ready w = [] ->
  metadataSemaphore w = Some {| capacity := 1; current := 1; queue := q |} ->
  deleteMetadata_promise key w
  = (Fulfilled (length (promises w)),
     set_sched (Some {| capacity := 1; current := 1;
                        queue := q ++ [ {| t_promise := length (promises w);
                                           t_write := WDelete key |} ] |})
               []
               (set_promises (promises w ++ [None]) w)).
Proof. intros Hready Hsem. destruct w; simpl in *; subst. reflexivity. Qed.

Lemma storeMetadata_promise_stuck (key : string) (data0 : Metadata) (w : World)
    (q : list Task) :
  ready w = [] ->
  metadataSemaphore w = Some {| capacity := 1; current := 1; queue := q |} ->
  storeMetadata_promise key data0 w
  = (Fulfilled (length (promises w)),
     set_sched (Some {| capacity := 1; current := 1;
                        queue := q ++ [ {| t_promise := length (promises w);
                                           t_write := WStore key data0 |} ] |})
               []
               (set_promises (promises w ++ [None]) w)).
Proof. intros Hready Hsem. destruct w; simpl in *; subst. reflexivity. Qed.

Lemma deleteMetadata_when_stuck (key : string) (w : World) :
  stuck w ->
  exists w', deleteMetadata key w = (Pending, w')
             /\ trace w' = trace w /\ stuck w'.
Proof.
  intros [Hready (q & Hsem)]. unfold deleteMetadata.
  rewrite (bind_fulfilled _ _ _ _ _ (deleteMetadata_promise_stuck key w q Hready Hsem)).
  eexists. split.
  - unfold await. apply await_loop_blocked; [apply promise_open|reflexivity].
  - split; [reflexivity|]. split; [reflexivity|]. by eexists.
Qed.

Lemma storeMetadata_when_stuck (key : string) (data0 : Metadata) (w : World) :
  stuck w ->
  exists w', storeMetadata key data0 w = (Pending, w')
             /\ trace w' = trace w /\ stuck w'.
Proof.
  intros [Hready (q & Hsem)]. unfold storeMetadata.
  rewrite (bind_fulfilled _ _ _ _ _
             (storeMetadata_promise_stuck key data0 w q Hready Hsem)).
  eexists. split.
  - unfold await. apply await_loop_blocked; [apply promise_open|reflexivity].
  - split; [reflexivity|]. split; [reflexivity|]. by eexists.
Qed.

(** C8: whatever the hosting service answers, [deleteMetadata] does not
    reject, be the slot free or held for good; called on an idle store it
    resolves and leaves the store idle, hence a second call for the same key
    resolves as well. *)
Theorem deleteMetadata_twice_resolves (key : string) (w : World) :
  (idle w \/ stuck w ->
   forall e w', deleteMetadata key w <> (Rejected e, w'))
  /\ (idle w ->
      exists w1 w2,
        deleteMetadata key w = (Fulfilled tt, w1)
        /\ deleteMetadata key w1 = (Fulfilled tt, w2)
        /\ idle w2).
Proof.
  split.
  - intros [Hidle|Hstuck] e w' Hrun.
    + destruct (deleteMetadata_idle_resolves key w Hidle) as (w1 & Hfirst & _).
      congruence.
    + destruct (deleteMetadata_when_stuck key w Hstuck) as (w1 & Hfirst & _).
      congruence.
  - intros Hidle.
    destruct (deleteMetadata_idle_resolves key w Hidle) as (w1 & Hfirst & Hidle1).
    destruct (deleteMetadata_idle_resolves key w1 Hidle1) as (w2 & Hsecond & Hidle2).
    by exists w1, w2.
Qed.

(* =================================================================== *)
(** ** The event loop does not give up early *)
(* =================================================================== *)

Lemma pending_tasks_set_remote (tr : list Request) (t : Z) (w : World) :
  pending_tasks (set_remote tr t w) = pending_tasks w.
Proof. reflexivity. Qed.

Lemma pending_tasks_leave (w : World) :
  pending_tasks (snd (leave w)) = pending_tasks w.
Proof.
  unfold leave, pending_tasks.
  destruct (metadataSemaphore w) as [s|] eqn:Hs; [|simpl; by rewrite Hs].
  destruct (queue s) as [|item rest] eqn:Hq.
  - destruct (current s - 1 <? 0)%Z; simpl; lia.
  - destruct (capacity s <? 1 + (current s - 1))%Z; simpl;
      rewrite ?length_app; simpl; lia.
Qed.

Lemma pending_tasks_settle (p : nat) (s : Settlement) (w : World) :
  pending_tasks (snd (settle p s w)) = pending_tasks w.
Proof. unfold settle. by destruct (promises w !! p) as [[?|]|]. Qed.

Lemma pending_tasks_leave_then_settle (p : nat) (w : World) :
  pending_tasks (snd ((leave;;; settle p Resolved) w)) = pending_tasks w.
Proof.
  unfold bind.
  pose proof (pending_tasks_leave w) as Hleave.
  destruct (leave w) as [[[]|e|] w1]; simpl in *; [|lia|lia].
  by rewrite pending_tasks_settle.
Qed.

Lemma pending_tasks_leave_settle (p : nat) (w : World)
    (h : JsError -> M unit) :
  (forall e w0, pending_tasks (snd (h e w0)) = pending_tasks w0) ->
  pending_tasks (snd (try_catch (leave;;; settle p Resolved) h w))
  = pending_tasks w.
Proof.
  intros Hh. unfold try_catch, bind.
  pose proof (pending_tasks_leave w) as Hleave.
  destruct (leave w) as [[[]|e|] w1]; simpl in *.
  - pose proof (pending_tasks_settle p Resolved w1) as Hsettle.
    destruct (settle p Resolved w1) as [[[]|e|] w2]; simpl in *;
      rewrite ?Hh; lia.
  - rewrite Hh. lia.
  - lia.
Qed.

(** Running a task creates no task. *)
Lemma pending_tasks_run_task (t : Task) (w : World) :
  pending_tasks (run_task t w) = pending_tasks w.
Proof.
  destruct t as [p [key data0|key]]; unfold run_task;
    cbv iota beta delta [t_write t_promise].
  - rewrite storeMetadata_task_split.
    destruct (remote_only_run (store_remote key data0) w
                (remote_only_store_remote key data0))
      as (tr & t & [[a Hrun] | [e Hrun]]).
    + unfold try_catch at 1. erewrite bind_fulfilled by exact Hrun.
      change ((now <- dateNow;;
               localForage_setItem ("gh.meta." +:+ key)
                 {| expires := (now + 300000)%Z; data := data0 |};;;
               leave;;; settle p Resolved) (set_remote tr t w))
        with ((leave;;; settle p Resolved)
                (set_cache (<["gh.meta." +:+ key :=
                                {| expires := (t + 300000)%Z; data := data0 |}]>
                              (cache w)) (set_remote tr t w))).
      exact (pending_tasks_leave_settle p _
               (fun err => settle p (RejectedWith err))
               (fun e w0 => pending_tasks_settle p (RejectedWith e) w0)).
    + erewrite try_catch_rejected by (erewrite bind_rejected by exact Hrun; reflexivity).
      by rewrite pending_tasks_settle.
  - rewrite deleteMetadata_task_split.
    assert (Hcatch : forall (e : JsError) w0,
              pending_tasks (snd ((leave;;; settle p Resolved) w0)) = pending_tasks w0).
    { intros _ w0. apply pending_tasks_leave_then_settle. }
    destruct (remote_only_run (delete_remote key) w (remote_only_delete_remote key))
      as (tr & t & [[a Hrun] | [e Hrun]]).
    + unfold try_catch at 1. erewrite bind_fulfilled by exact Hrun.
      exact (pending_tasks_leave_settle p (set_remote tr t w) _ Hcatch).
    + erewrite try_catch_rejected by (erewrite bind_rejected by exact Hrun; reflexivity).
      by rewrite (Hcatch e).
Qed.

(** With the turns [await] allows, the loop stops on an open promise only
    when no task is left to run. *)
Lemma await_loop_pending (fuel p : nat) (w w' : World) :
  (pending_tasks w <= fuel)%nat ->
  await_loop fuel p w = (Pending, w') -> ready w' = [].
Proof.
  revert w. induction fuel as [|fuel IH]; intros w Hfuel Hrun; simpl in Hrun.
  - destruct (promises w !! p) as [[[|e]|]|]; try discriminate;
      injection Hrun as <-; unfold pending_tasks in Hfuel;
      destruct (ready w); simpl in *; [reflexivity|lia|reflexivity|lia].
  - destruct (promises w !! p) as [[[|e]|]|]; try discriminate;
      (destruct (ready w) as [|t rest] eqn:Hready;
       [by injection Hrun as <-|]);
      (eapply IH; [|exact Hrun]);
      rewrite pending_tasks_run_task; unfold pending_tasks in *;
      rewrite Hready in Hfuel; simpl in *; lia.
Qed.

Lemma await_pending (p : nat) (w w' : World) :
  await p w = (Pending, w') -> ready w' = [].
Proof. apply await_loop_pending. lia. Qed.

(* =================================================================== *)
(** ** The metadata cache *)
(* =================================================================== *)

Lemma retrieveMetadata_cached (key : string) (w : World) (c : CacheEntry) :
  cache w !! ("gh.meta." +:+ key) = Some c ->
  (clock w < expires c)%Z ->
  retrieveMetadata key w = (Fulfilled (data c), w).
Proof.
  intros Hc Hfresh. unfold retrieveMetadata, bind, localForage_getItem, dateNow.
  rewrite Hc. apply Z.ltb_lt in Hfresh. by rewrite Hfresh.
Qed.

Lemma retrieveMetadata_expired (key : string) (w : World) (c : CacheEntry) :
  cache w !! ("gh.meta." +:+ key) = Some c ->
  (expires c <= clock w)%Z ->
  exists root,
    trace (snd (retrieveMetadata key w))
    = trace w ++ [GetContents root (key +:+ ".json") "refs/meta/_netlify_cms"].
Proof.
  intros Hc Hold. unfold retrieveMetadata, bind, localForage_getItem, dateNow.
  rewrite Hc. apply Z.ltb_ge in Hold. rewrite Hold.
  destruct (negb (useOpenAuthoring this)); eexists;
    unfold try_catch, bind, request, parseMetadata, throw, ret;
    (destruct (respond remote _ _) as [raw|f]; [destruct (JSON_parse raw)|]);
    reflexivity.
Qed.

Lemma retrieveMetadata_uncached (key : string) (w : World) :
  cache w !! ("gh.meta." +:+ key) = None ->
  exists root,
    trace (snd (retrieveMetadata key w))
    = trace w ++ [GetContents root (key +:+ ".json") "refs/meta/_netlify_cms"].
Proof.
  intros Hc. unfold retrieveMetadata, bind, localForage_getItem, dateNow.
  rewrite Hc.
  destruct (negb (useOpenAuthoring this)); eexists;
    unfold try_catch, bind, request, parseMetadata, throw, ret;
    (destruct (respond remote _ _) as [raw|f]; [destruct (JSON_parse raw)|]);
    reflexivity.
Qed.

(** C9: after a successful [storeMetadata] on an idle store the cache
    entry of the key expires exactly 300000 ms after the moment the write
    completed; as long as that entry is in the cache, a read before the
    expiry returns the stored data and makes no remote call, and a read at
    or after the expiry makes one remote read of the document. *)
Theorem storeMetadata_caches_for_five_minutes
    (key : string) (data0 : Metadata) (w w' : World) :
  idle w ->
  storeMetadata key data0 w = (Fulfilled tt, w') ->
  cache w' !! ("gh.meta." +:+ key)
  = Some {| expires := (clock w' + 300000)%Z; data := data0 |}
  /\ forall later,
       cache later !! ("gh.meta." +:+ key) = cache w' !! ("gh.meta." +:+ key) ->
       ((clock later < clock w' + 300000)%Z ->
        retrieveMetadata key later = (Fulfilled data0, later))
       /\ ((clock w' + 300000 <= clock later)%Z ->
           exists root,
             trace (snd (retrieveMetadata key later))
             = trace later
                 ++ [GetContents root (key +:+ ".json") "refs/meta/_netlify_cms"]).
Proof.
  intros Hidle. rewrite (storeMetadata_idle key data0 w Hidle).
  destruct (remote_only_run (store_remote key data0) (started w)
              (remote_only_store_remote key data0))
    as (tr & t & [[a Hrun] | [e Hrun]]); rewrite Hrun; intros [= <-].
  assert (Hentry :
    cache (released (length (promises w))
             (set_cache (<["gh.meta." +:+ key :=
                             {| expires := (clock (set_remote tr t (started w)) + 300000)%Z;
                                data := data0 |}]>
                           (cache (set_remote tr t (started w))))
                        (set_remote tr t (started w))))
      !! ("gh.meta." +:+ key)
    = Some {| expires := (t + 300000)%Z; data := data0 |}).
  { simpl. apply lookup_insert_eq. }
  split; [exact Hentry|].
  intros later Hsame. pose proof (eq_trans Hsame Hentry) as Hlater.
  simpl clock. split; intros Htime.
  - exact (retrieveMetadata_cached key later _ Hlater Htime).
  - exact (retrieveMetadata_expired key later _ Hlater Htime).
Qed.

(* =================================================================== *)
(** ** Publishing *)
(* =================================================================== *)

Lemma called_trace (r : Request) (w : World) : trace (called r w) = trace w ++ [r].
Proof. reflexivity. Qed.

(** The fallback, when each of its calls succeeds: one read of the tip of
    the default branch, one tree built on it from the media files and the
    entry file, one commit with the tip as parent, and one ref update that
    is not forced. *)
Lemma forceMergePR_calls (objects : MetaDataObjects) (w : World)
    (tip tree : string) (made : GitHubCompareCommit) :
  let files0 := obj_files objects ++ [obj_entry objects] in
  let getTip := GetBranch (originRepoURL this) (branch this) in
  let build := CreateTree (repoURL this) (Some tip)
                          (map toTreeEntry (map mediaTreeFile files0)) in
  let create := CreateCommit (repoURL this) (forceMergeMessage files0) tree
                             (if truthy (Some tip) then [tip] else []) None None in
  let update := PatchRef (repoURL this) "heads" (branch this) (sha made) false in
  respond remote (trace w) getTip = inl tip ->
  respond remote (trace w ++ [getTip]) build = inl tree ->
  respond remote (trace w ++ [getTip; build]) create = inl made ->
  respond remote (trace w ++ [getTip; build; create]) update = inl tt ->
  forceMergePR objects w
  = (Fulfilled tt, called update (called create (called build (called getTip w)))).
Proof.
  intros files0 getTip build create update HgetTip Hbuild Hcreate Hupdate.
  unfold forceMergePR, getDefaultBranch. fold files0.
  erewrite bind_fulfilled by exact (request_answered getTip w tip HgetTip).
  unfold updateTree, createTree.
  erewrite bind_fulfilled.
  2:{ erewrite bind_fulfilled
        by exact (request_answered build (called getTip w) tree Hbuild).
      reflexivity. }
  unfold commit, createCommit. cbv beta iota delta [ct_parentSha ct_sha].
  erewrite bind_fulfilled.
  2:{ apply (request_answered create). simpl trace.
      rewrite <- app_assoc. exact Hcreate. }
  rewrite patchBranch_cases. simpl default. rewrite andb_false_l.
  apply (request_answered update). simpl trace.
  rewrite <- !app_assoc. exact Hupdate.
Qed.

(** C3: when the merge of the pull request is refused with status 405,
    [mergePR] runs the fallback once: it reads the tip of the default
    branch, builds a tree on it from the media files and the entry file,
    creates a commit on that tree with the tip as parent, and updates the
    default branch ref to the commit with a ref update that is not forced
    ([force = false]); the 405 is neither passed on nor dropped.  A merge
    error with any other status is thrown again as it is.  After the
    fallback [publishUnpublishedEntry] goes on to delete the branch and the
    metadata, as it does after a merge. *)
Theorem mergePR_falls_back_on_405
    (pullrequest : PR) (objects : MetaDataObjects) (w : World) :
  let merge := MergePull (originRepoURL this) (pr_number pullrequest)
                         MERGE_COMMIT_MESSAGE (pr_head pullrequest)
                         (mergeMethod this) in
  let files0 := obj_files objects ++ [obj_entry objects] in
  let getTip := GetBranch (originRepoURL this) (branch this) in
  (forall (failure : Failure) (tip tree : string) (made : GitHubCompareCommit),
     let build := CreateTree (repoURL this) (Some tip)
                             (map toTreeEntry (map mediaTreeFile files0)) in
     let create := CreateCommit (repoURL this) (forceMergeMessage files0) tree
                                (if truthy (Some tip) then [tip] else []) None None in
     let update := PatchRef (repoURL this) "heads" (branch this) (sha made) false in
     let after := called update (called create (called build
                    (called getTip (called merge w)))) in
     respond remote (trace w) merge = inr failure ->
     f_status failure = Some 405%Z ->
     respond remote (trace w ++ [merge]) getTip = inl tip ->
     respond remote (trace w ++ [merge; getTip]) build = inl tree ->
     respond remote (trace w ++ [merge; getTip; build]) create = inl made ->
     respond remote (trace w ++ [merge; getTip; build; create]) update = inl tt ->
     mergePR pullrequest objects w = (Fulfilled tt, after)
     /\ trace after = trace w ++ [merge; getTip; build; create; update]
     /\ forall collectionName slug before metadata,
          retrieveMetadata (generateContentKey this collectionName slug) before
          = (Fulfilled metadata, w) ->
          md_pr metadata = Some pullrequest ->
          md_objects metadata = objects ->
          publishUnpublishedEntry collectionName slug before
          = (deleteBranch (generateBranchName CMS_BRANCH_PREFIX
                             (generateContentKey this collectionName slug));;;
             deleteMetadata (generateContentKey this collectionName slug);;;
             ret metadata) after)
  /\ (forall failure : Failure,
        respond remote (trace w) merge = inr failure ->
        f_status failure <> Some 405%Z ->
        mergePR pullrequest objects w
        = (Rejected (APIError (f_message failure) (f_status failure)),
           called merge w)).
Proof.
  intros merge files0 getTip. split.
  - intros failure tip tree made build create update after
           Hmerge H405 HgetTip Hbuild Hcreate Hupdate.
    assert (Hrun : mergePR pullrequest objects w = (Fulfilled tt, after)).
    { unfold mergePR. fold merge.
      erewrite try_catch_rejected by exact (request_failed merge w failure Hmerge).
      rewrite H405.
      apply forceMergePR_calls; simpl trace; rewrite <- ?app_assoc; assumption. }
    split; [exact Hrun|]. split.
    + unfold after. rewrite !called_trace. by rewrite <- !app_assoc.
    + intros collectionName slug before metadata Hget Hpr Hobjects.
      unfold publishUnpublishedEntry.
      erewrite bind_fulfilled by exact Hget.
      rewrite Hpr, Hobjects.
      erewrite bind_fulfilled by exact Hrun. reflexivity.
  - intros failure Hmerge Hother. unfold mergePR. fold merge.
    erewrite try_catch_rejected by exact (request_failed merge w failure Hmerge).
    destruct (f_status failure) as [[|status|status]|]; try reflexivity.
    destruct (decide (status = 405%positive)) as [->|Hne]; [done|].
    repeat (destruct status as [status|status|]; try reflexivity); done.
Qed.

(** After a merge that succeeds the publish goes on in the same way. *)
Lemma publishUnpublishedEntry_after_merge
    (collectionName slug : string) (before w : World) (metadata : Metadata)
    (pullrequest : PR) :
  let merge := MergePull (originRepoURL this) (pr_number pullrequest)
                         MERGE_COMMIT_MESSAGE (pr_head pullrequest)
                         (mergeMethod this) in
  retrieveMetadata (generateContentKey this collectionName slug) before
  = (Fulfilled metadata, w) ->
  md_pr metadata = Some pullrequest ->
  respond remote (trace w) merge = inl tt ->
  publishUnpublishedEntry collectionName slug before
  = (deleteBranch (generateBranchName CMS_BRANCH_PREFIX
                     (generateContentKey this collectionName slug));;;
     deleteMetadata (generateContentKey this collectionName slug);;;
     ret metadata) (called merge w).
Proof.
  intros merge Hget Hpr Hmerged. unfold publishUnpublishedEntry.
  erewrite bind_fulfilled by exact Hget. rewrite Hpr.
  erewrite bind_fulfilled; [reflexivity|].
  unfold mergePR. apply try_catch_fulfilled.
  exact (request_answered merge w tt Hmerged).
Qed.

(* =================================================================== *)
(** ** Reconciliation and listing in the fork variant *)
(* =================================================================== *)









(* =================================================================== *)
(** ** Computations that leave the metadata store alone *)
(* =================================================================== *)

Lemma aside_ret {A : Type} (P : Request -> Prop) (a : A) : aside P (ret a).
Proof.
  intros w. repeat split; try done. exists []. by rewrite app_nil_r.
Qed.

Lemma aside_throw {A : Type} (P : Request -> Prop) (e : JsError) :
  aside P (@throw A e).
Proof.
  intros w. repeat split; try done. exists []. by rewrite app_nil_r.
Qed.

Lemma aside_request (P : Request -> Prop) (r : Request) :
  P r -> aside P (request r).
Proof.
  intros HP w. unfold request.
  destruct (respond remote (trace w) r); simpl;
    (repeat split; try done; exists [r]; split; [reflexivity|by constructor]).
Qed.

Lemma aside_requestAllPages (P : Request -> Prop) (r : Request) :
  P r -> aside P (requestAllPages r).
Proof.
  intros HP w. unfold requestAllPages.
  destruct (respond remote (trace w) r); simpl;
    (repeat split; try done; exists [r]; split; [reflexivity|by constructor]).
Qed.

Lemma aside_bind {A B : Type} (P : Request -> Prop) (m : M A) (k : A -> M B) :
  aside P m -> (forall a, aside P (k a)) -> aside P (x <- m;; k x).
Proof.
  intros Hm Hk w. unfold bind.
  destruct (Hm w) as (Hs & (ext & Ht & HP) & Hc & Hsem & Hr & Hp).
  destruct (m w) as [[a|e|] w1]; simpl in *.
  - destruct (Hk a w1) as (Hs' & (ext' & Ht' & HP') & Hc' & Hsem' & Hr' & Hp').
    repeat split; try congruence.
    exists (ext ++ ext'). split; [by rewrite Ht', Ht, app_assoc|].
    by apply Forall_app.
  - repeat split; try done. by exists ext.
  - done.
Qed.

Lemma aside_try_catch {A : Type} (P : Request -> Prop) (m : M A)
    (h : JsError -> M A) :
  aside P m -> (forall e, aside P (h e)) -> aside P (try_catch m h).
Proof.
  intros Hm Hh w. unfold try_catch.
  destruct (Hm w) as (Hs & (ext & Ht & HP) & Hc & Hsem & Hr & Hp).
  destruct (m w) as [[a|e|] w1]; simpl in *.
  - repeat split; try done. by exists ext.
  - destruct (Hh e w1) as (Hs' & (ext' & Ht' & HP') & Hc' & Hsem' & Hr' & Hp').
    repeat split; try congruence.
    exists (ext ++ ext'). split; [by rewrite Ht', Ht, app_assoc|].
    by apply Forall_app.
  - done.
Qed.

Lemma aside_mono {A : Type} (P Q : Request -> Prop) (m : M A) :
  (forall r, P r -> Q r) -> aside P m -> aside Q m.
Proof.
  intros HPQ Hm w.
  destruct (Hm w) as (Hs & (ext & Ht & HP) & Hrest).
  split; [done|]. split; [|done].
  exists ext. split; [done|]. eapply Forall_impl; eauto.
Qed.

Lemma aside_user (P : Request -> Prop) : P GetUser -> aside P user.
Proof.
  intros HP w. unfold user.
  destruct (userPromise w) as [[u|e]|].
  - repeat split; try done. exists []. by rewrite app_nil_r.
  - repeat split; try done. exists []. by rewrite app_nil_r.
  - destruct (aside_request P GetUser HP w)
      as (Hs & (ext & Ht & HPext) & Hc & Hsem & Hr & Hp).
    destruct (request GetUser w) as [[u|e|] w1]; simpl in *;
      try done; (repeat split; try done; by exists ext).
Qed.

Lemma aside_userStarted (P : Request -> Prop) : P GetUser -> aside P userStarted.
Proof.
  intros HP w. unfold userStarted.
  destruct (aside_user P HP w) as (Hs & Hrest). simpl. by split.
Qed.

Lemma aside_dateNow (P : Request -> Prop) : aside P dateNow.
Proof.
  intros w. repeat split; try done. exists []. by rewrite app_nil_r.
Qed.

Lemma aside_getItem (P : Request -> Prop) (k : string) :
  aside P (localForage_getItem k).
Proof.
  intros w. repeat split; try done. exists []. by rewrite app_nil_r.
Qed.

Lemma aside_spawn (P : Request -> Prop) (d : Detached) : aside P (spawn d).
Proof.
  intros w. repeat split; try done. exists []. by rewrite app_nil_r.
Qed.

Ltac aside_step :=
  first [ apply aside_bind
        | apply aside_try_catch
        | apply aside_ret
        | apply aside_throw
        | apply aside_dateNow
        | apply aside_getItem
        | apply aside_spawn
        | match goal with
          | |- aside _ (request ?r) => apply (aside_request _ r)
          | |- aside _ (requestAllPages ?r) => apply (aside_requestAllPages _ r)
          | |- aside _ user => apply aside_user
          | |- aside _ userStarted => apply aside_userStarted
          | |- aside _ (if ?c then _ else _) => destruct c
          | |- aside _ (match ?c with _ => _ end) => destruct c
          end ].

Ltac aside := repeat (intros; aside_step); try done.

Lemma aside_promiseAll {A : Type} (P : Request -> Prop) (calls : list (M A)) :
  Forall (aside P) calls -> aside P (promiseAll calls).
Proof.
  induction calls as [|call rest IH]; intros Hall; simpl.
  - apply aside_ret.
  - inversion Hall as [|? ? Hcall Hrest]; subst. specialize (IH Hrest).
    intros w.
    destruct (Hcall w) as (Hs & (ext & Ht & HP) & Hc & Hsem & Hr & Hp).
    destruct (call w) as [[a|e|] w1]; simpl in *; [| |done].
    + assert (Hk : aside P (results <- promiseAll rest;; ret (a :: results)))
        by (apply aside_bind; [exact IH|intros; apply aside_ret]).
      destruct (Hk w1) as (Hs' & (ext' & Ht' & HP') & Hc' & Hsem' & Hr' & Hp').
      repeat split; try congruence.
      exists (ext ++ ext'). split; [by rewrite Ht', Ht, app_assoc|].
      by apply Forall_app.
    + destruct (IH w1) as (Hs' & (ext' & Ht' & HP') & Hc' & Hsem' & Hr' & Hp').
      repeat split; try congruence.
      exists (ext ++ ext'). split; [by rewrite Ht', Ht, app_assoc|].
      by apply Forall_app.
Qed.

Lemma aside_onlySuccessfulPromises {A B : Type} (P : Request -> Prop)
    (step : A -> M B) (l : list A) :
  (forall x, aside P (step x)) -> aside P (onlySuccessfulPromises step l).
Proof.
  intros Hstep. induction l as [|x l IH]; simpl.
  - apply aside_ret.
  - intros w.
    destruct (Hstep x w) as (Hs & (ext & Ht & HP) & Hc & Hsem & Hr & Hp).
    destruct (step x w) as [[b|e|] w1]; simpl in *; [| |done].
    + assert (Hk : aside P (results <- onlySuccessfulPromises step l;;
                             ret (b :: results)))
        by (apply aside_bind; [exact IH|intros; apply aside_ret]).
      destruct (Hk w1) as (Hs' & (ext' & Ht' & HP') & Hc' & Hsem' & Hr' & Hp').
      repeat split; try congruence.
      exists (ext ++ ext'). split; [by rewrite Ht', Ht, app_assoc|].
      by apply Forall_app.
    + destruct (IH w1) as (Hs' & (ext' & Ht' & HP') & Hc' & Hsem' & Hr' & Hp').
      repeat split; try congruence.
      exists (ext ++ ext'). split; [by rewrite Ht', Ht, app_assoc|].
      by apply Forall_app.
Qed.

(* =================================================================== *)
(** ** Further properties: refs, trees and the user *)
(* =================================================================== *)

(** The metadata ref is looked up with one call when it exists.  When the
    lookup fails, for whatever reason, the ref is set up: the readme is
    uploaded, a tree holding it is built on no base, a first commit without
    parents is made, and the ref is created at that commit. *)
Theorem checkMetadataRef_sets_up_missing_ref (w : World) :
  let getRef := GetRef (repoURL this) "meta" "_netlify_cms" in
  (forall found : RefResponse,
     respond remote (trace w) getRef = inl found ->
     checkMetadataRef w = (Fulfilled (rr_object found), called getRef w))
  /\ (forall (failure : Failure) (blob tree : string)
             (made : GitHubCompareCommit) (created : RefResponse),
        let upload := CreateBlob (repoURL this) (Base64_encode (bi_raw readme)) in
        let build := CreateTree (repoURL this) None
                       [ {| te_path := "README.md"; te_mode := "100644";
                            te_type := "blob"; te_sha := Some blob |} ] in
        let first := CreateCommit (repoURL this) "First Commit" tree [] None None in
        let create := CreateRef (repoURL this) "refs/meta/_netlify_cms"
                                (HeadSha (sha made)) in
        respond remote (trace w) getRef = inr failure ->
        respond remote (trace w ++ [getRef]) upload = inl blob ->
        respond remote (trace w ++ [getRef; upload]) build = inl tree ->
        respond remote (trace w ++ [getRef; upload; build]) first = inl made ->
        respond remote (trace w ++ [getRef; upload; build; first]) create
        = inl created ->
        checkMetadataRef w
        = (Fulfilled (rr_object created),
           called create (called first (called build (called upload
             (called getRef w)))))).
Proof.
  intros getRef. split.
  - intros found Hfound. unfold checkMetadataRef. apply try_catch_fulfilled.
    erewrite bind_fulfilled by exact (request_answered getRef w found Hfound).
    reflexivity.
  - intros failure blob tree made created upload build first create
           Hmissing Hblob Htree Hmade Hcreated.
    unfold checkMetadataRef.
    erewrite try_catch_rejected.
    2:{ erewrite bind_rejected by exact (request_failed getRef w failure Hmissing).
        reflexivity. }
    unfold uploadBlob.
    erewrite bind_fulfilled.
    2:{ erewrite bind_fulfilled
          by exact (request_answered upload (called getRef w) blob Hblob).
        reflexivity. }
    cbv beta iota delta [bi_sha].
    erewrite bind_fulfilled.
    2:{ apply (request_answered build). simpl trace.
        rewrite <- app_assoc. exact Htree. }
    unfold commit, createCommit. cbv beta iota delta [ct_parentSha ct_sha].
    erewrite bind_fulfilled.
    2:{ apply (request_answered first). simpl trace.
        rewrite <- !app_assoc. exact Hmade. }
    unfold createRef.
    erewrite bind_fulfilled.
    2:{ apply (request_answered create). simpl trace.
        rewrite <- !app_assoc. exact Hcreated. }
    reflexivity.
Qed.

(** Deleting a branch that is not there counts as done: the failure
    [Reference does not exist] is absorbed.  Any other failure of the
    deletion is passed on as it came. *)
Theorem deleteBranch_absorbs_missing_branch
    (branchName : string) (w : World) (failure : Failure) :
  let del := DeleteRef (repoURL this) "heads" branchName in
  respond remote (trace w) del = inr failure ->
  deleteBranch branchName w
  = (if bool_decide (f_message failure = "Reference does not exist")
     then Fulfilled tt
     else Rejected (APIError (f_message failure) (f_status failure)),
     called del w).
Proof.
  intros del Hfailed. unfold deleteBranch, deleteRef.
  erewrite try_catch_rejected by exact (request_failed del w failure Hfailed).
  simpl error_message.
  rewrite (bool_decide_ext (Some (f_message failure) = Some "Reference does not exist")
                           (f_message failure = "Reference does not exist"))
    by (split; congruence).
  by destruct (bool_decide (f_message failure = "Reference does not exist")).
Qed.

(** The user is asked for once.  The outcome of that one call, a failure
    included, is what every later [user()] gives, without a further
    call. *)
Theorem user_is_asked_once (w : World) :
  userPromise w = None ->
  trace (snd (user w)) = trace w ++ [GetUser]
  /\ forall later : World,
       userPromise later = userPromise (snd (user w)) ->
       user later = (fst (user w), later).
Proof.
  intros Hnone.
  assert (Hfirst :
            user w
            = match respond remote (trace w) GetUser with
              | inl u => (Fulfilled u, set_userPromise (Some (inl u)) (called GetUser w))
              | inr f =>
                  (Rejected (APIError (f_message f) (f_status f)),
                   set_userPromise
                     (Some (inr (APIError (f_message f) (f_status f))))
                     (called GetUser w))
              end).
  { unfold user. rewrite Hnone. unfold request.
    by destruct (respond remote (trace w) GetUser). }
  rewrite Hfirst.
  destruct (respond remote (trace w) GetUser) as [u|f]; simpl;
    (split; [reflexivity|]); intros later Hsame; unfold user;
    rewrite Hsame; reflexivity.
Qed.

Lemma trimStartSlash_no_slash (s : string) :
  Js.startsWith "/" (Js.trimStartSlash s) = false.
Proof.
  induction s as [|c s IH]; [reflexivity|].
  simpl. destruct (Ascii.eqb_spec c "/"%char) as [->|Hne]; [exact IH|].
  destruct c as [[] [] [] [] [] [] [] []]; try (simpl; reflexivity);
    by destruct Hne.
Qed.

(** Every tree [updateTree] asks for is built on the given base from blob
    entries of mode [100644] whose paths do not begin with a slash, one per
    file and in the order of the files; a file without sha is a deletion. *)
Theorem updateTree_sends_relative_blob_paths
    (baseSha : string) (files0 : list TreeFile) (w : World) :
  exists entries,
    trace (snd (updateTree baseSha files0 w))
    = trace w ++ [CreateTree (repoURL this) (Some baseSha) entries]
    /\ map te_sha entries = map tf_sha files0
    /\ Forall (fun e => Js.startsWith "/" (te_path e) = false
                        /\ te_mode e = "100644" /\ te_type e = "blob") entries.
Proof.
  exists (map toTreeEntry files0). split; [|split].
  - unfold updateTree, createTree, bind, request.
    by destruct (respond remote (trace w) _).
  - rewrite map_map. reflexivity.
  - induction files0 as [|f files0 IH]; constructor; [|exact IH].
    split; [apply trimStartSlash_no_slash|by split].
Qed.

(** A branch named by [generateBranchName] can always be updated by
    force: the guard of [patchBranch] lets it through. *)
Theorem patchBranch_forces_workflow_branches
    (contentKey sha0 : string) (w : World) :
  patchBranch (generateBranchName CMS_BRANCH_PREFIX contentKey) sha0 (Some true) w
  = request (PatchRef (repoURL this) "heads"
                      (generateBranchName CMS_BRANCH_PREFIX contentKey) sha0 true) w.
Proof.
  rewrite patchBranch_cases. unfold assertCmsBranch, generateBranchName.
  rewrite <- append_assoc, startsWith_append. reflexivity.
Qed.

(* =================================================================== *)
(** ** Further properties: rebase *)
(* =================================================================== *)

Ltac aside_calls :=
  aside; try solve [left; exact I | right; exact I | exact I | reflexivity].

Lemma bind_run {A B : Type} (m m' : M A) (k : A -> M B) (w : World) :
  m w = m' w -> (x <- m;; k x) w = (x <- m';; k x) w.
Proof. intros H. unfold bind. by rewrite H. Qed.

Lemma aside_rebaseSingleCommit (baseCommit commit0 : GitHubCompareCommit) :
  aside (fun r => reads r \/ creates_objects r)
        (rebaseSingleCommit baseCommit commit0).
Proof.
  unfold rebaseSingleCommit, getCommitsDiff, updateTree, createTree, createCommit.
  aside_calls.
Qed.

Lemma aside_replay (commits0 : list GitHubCompareCommit)
    (m : M GitHubCompareCommit) :
  aside (fun r => reads r \/ creates_objects r) m ->
  aside (fun r => reads r \/ creates_objects r)
        (fold_left (fun lastCommitPromise c =>
                      newParent <- lastCommitPromise;;
                      rebaseSingleCommit newParent c) commits0 m).
Proof.
  revert m. induction commits0 as [|c l IH]; intros m Hm; simpl; [exact Hm|].
  apply IH. apply aside_bind; [exact Hm|].
  intros newParent. apply aside_rebaseSingleCommit.
Qed.

Lemma aside_rebaseCommits (baseCommit : GitHubCompareCommit)
    (commits0 : list GitHubCompareCommit) :
  aside (fun r => reads r \/ creates_objects r) (rebaseCommits baseCommit commits0).
Proof.
  unfold rebaseCommits.
  destruct commits0 as [|first rest]; [apply aside_ret|].
  destruct (parents first) as [|parent0 others]; [apply aside_throw|].
  destruct (bool_decide (parent0 = sha baseCommit)); [apply aside_ret|].
  apply aside_bind; [|intros; apply aside_ret].
  apply aside_replay, aside_ret.
Qed.

(** Rebasing a branch moves no ref and changes no pull request: whatever
    the hosting service answers, [rebaseBranch] settles, and all it does is
    read (the user, the comparison with the default branch, the diff of
    each commit) and create trees and commits.  The metadata store is not
    touched. *)
Theorem rebaseBranch_moves_no_ref (branchName : string) :
  aside (fun r => reads r \/ creates_objects r) (rebaseBranch branchName).
Proof.
  unfold rebaseBranch, compareBranchToDefault, getHeadReference.
  apply aside_try_catch; [|intros; apply aside_throw].
  apply aside_bind; [aside_calls|].
  intros compared. apply aside_rebaseCommits.
Qed.

(** The replay of a branch that does not sit on the base: the first
    commit is replayed on the base and the others, in their order, on the
    commit made for the one before; a failure of the first ends the replay
    with that failure and without a further call; and a replay that
    succeeds gives a commit. *)
Theorem rebaseCommits_replays_onto_new_commits
    (baseCommit first : GitHubCompareCommit) (rest : list GitHubCompareCommit)
    (parent0 : string) (others : list string) (w : World) :
  let step := fun (lastCommitPromise : M GitHubCompareCommit) c =>
                (newParent <- lastCommitPromise;; rebaseSingleCommit newParent c) in
  parents first = parent0 :: others ->
  parent0 <> sha baseCommit ->
  (forall e w1,
     rebaseSingleCommit baseCommit first w = (Rejected e, w1) ->
     rebaseCommits baseCommit (first :: rest) w = (Rejected e, w1))
  /\ (forall newFirst w1,
        rebaseSingleCommit baseCommit first w = (Fulfilled newFirst, w1) ->
        rebaseCommits baseCommit (first :: rest) w
        = (newHead <- fold_left step rest (ret newFirst);; ret (Some newHead)) w1)
  /\ (forall head w',
        rebaseCommits baseCommit (first :: rest) w = (Fulfilled head, w') ->
        is_Some head).
Proof.
  intros step Hparents Hmoved.
  assert (Hreplay :
            rebaseCommits baseCommit (first :: rest) w
            = (newHead <- (newFirst <- rebaseSingleCommit baseCommit first;;
                           fold_left step rest (ret newFirst));;
               ret (Some newHead)) w).
  { unfold rebaseCommits. rewrite Hparents.
    rewrite bool_decide_eq_false_2 by exact Hmoved.
    apply bind_run. apply replay_cons. }
  split; [|split].
  - intros e w1 Hfailed. rewrite Hreplay.
    apply bind_rejected. by apply bind_rejected.
  - intros newFirst w1 Hmade. rewrite Hreplay, bind_assoc.
    by erewrite bind_fulfilled by exact Hmade.
  - intros head w' Hdone. rewrite Hreplay in Hdone. unfold bind at 1 in Hdone.
    destruct ((newFirst <- rebaseSingleCommit baseCommit first;;
               fold_left step rest (ret newFirst)) w) as [[newHead|e|] w1];
      try discriminate.
    unfold ret in Hdone. injection Hdone as <- _. by eexists.
Qed.

(* =================================================================== *)
(** ** Further properties: the metadata store *)
(* =================================================================== *)

Lemma aside_checkMetadataRef : aside store_call checkMetadataRef.
Proof.
  unfold checkMetadataRef, uploadBlob, commit, createCommit, createRef.
  aside; exact eq_refl.
Qed.

Lemma aside_store_remote (key : string) (data0 : Metadata) :
  aside store_call (store_remote key data0).
Proof.
  unfold store_remote. apply aside_bind; [apply aside_checkMetadataRef|].
  unfold uploadBlob, updateTree, createTree, commit, createCommit, patchRef.
  aside; exact eq_refl.
Qed.

Lemma aside_delete_remote (key : string) : aside store_call (delete_remote key).
Proof.
  unfold delete_remote. apply aside_bind; [apply aside_checkMetadataRef|].
  unfold updateTree, createTree, commit, createCommit, patchRef.
  aside; exact eq_refl.
Qed.

(** What a write on an idle store leaves behind: its calls are calls of the
    store and the cache is changed by a successful [storeMetadata] alone. *)
Lemma storeMetadata_idle_calls (key : string) (data0 : Metadata) (w : World) :
  idle w ->
  exists ext,
    trace (snd (storeMetadata key data0 w)) = trace w ++ ext
    /\ Forall store_call ext.
Proof.
  intros Hidle. rewrite (storeMetadata_idle key data0 w Hidle).
  destruct (aside_store_remote key data0 (started w))
    as (_ & (ext & Ht & HP) & _).
  exists ext. split; [|exact HP].
  destruct (store_remote key data0 (started w)) as [[[]|e|] w1]; exact Ht.
Qed.

Lemma deleteMetadata_idle_calls (key : string) (w : World) :
  idle w ->
  exists ext,
    trace (snd (deleteMetadata key w)) = trace w ++ ext
    /\ Forall store_call ext
    /\ cache (snd (deleteMetadata key w)) = cache w
    /\ idle (snd (deleteMetadata key w)).
Proof.
  intros Hidle. rewrite (deleteMetadata_idle key w Hidle).
  destruct (aside_delete_remote key (started w))
    as (_ & (ext & Ht & HP) & Hc & _).
  exists ext.
  destruct (delete_remote key (started w)) as [[[]|e|] w1] eqn:Hrun;
    simpl in *; (split; [exact Ht|]); (split; [exact HP|]);
    (split; [exact Hc|]).
  - split; [reflexivity|by right].
  - split; [reflexivity|by right].
  - by destruct (proj1 (remote_only_delete_remote key (started w))); rewrite Hrun.
Qed.

(** Writes of the metadata store go to the metadata ref of this
    repository and nowhere else: called on an idle store, [storeMetadata]
    and [deleteMetadata] only look up or set up the ref
    [refs/meta/_netlify_cms], create blobs, trees and commits, and advance
    that ref without force.  No branch is touched, no ref is deleted, no
    update is forced, whatever the hosting service answers. *)
Theorem metadata_writes_stay_on_the_metadata_ref
    (key : string) (data0 : Metadata) (w : World) :
  idle w ->
  (exists ext,
     trace (snd (storeMetadata key data0 w)) = trace w ++ ext
     /\ Forall store_call ext)
  /\ (exists ext,
        trace (snd (deleteMetadata key w)) = trace w ++ ext
        /\ Forall store_call ext).
Proof.
  intros Hidle. split.
  - by apply storeMetadata_idle_calls.
  - destruct (deleteMetadata_idle_calls key w Hidle) as (ext & Ht & HP & _).
    by exists ext.
Qed.

(** [deleteMetadata] does not touch the cache: an entry cached for the key
    stays, and until it expires [retrieveMetadata] goes on returning the
    deleted document without asking the hosting service. *)
Theorem deleteMetadata_keeps_the_cached_entry
    (key : string) (w : World) (c : CacheEntry) :
  idle w ->
  cache w !! ("gh.meta." +:+ key) = Some c ->
  let after := snd (deleteMetadata key w) in
  fst (deleteMetadata key w) = Fulfilled tt
  /\ cache after = cache w
  /\ ((clock after < expires c)%Z ->
      retrieveMetadata key after = (Fulfilled (data c), after)).
Proof.
  intros Hidle Hcached after.
  destruct (deleteMetadata_idle_resolves key w Hidle) as (w1 & Hrun & _).
  destruct (deleteMetadata_idle_calls key w Hidle) as (ext & _ & _ & Hcache & _).
  fold after in Hcache. split; [by rewrite Hrun|]. split; [exact Hcache|].
  intros Hfresh. apply retrieveMetadata_cached; [|exact Hfresh].
  by rewrite Hcache.
Qed.





(* =================================================================== *)
(** ** Further properties: reconciliation, publishing, deletion, listing *)
(* =================================================================== *)

(** The reconciler changes nothing but the status, and the status it sets
    is [draft] or [pending_review]: whatever it reports for an entry is
    the metadata it was given, or that metadata with the status replaced
    by [draft], or, for an entry that has a pull request, by
    [pending_review]. *)
Theorem reconciler_changes_the_status_only
    (contentKey : string) (metadata reported : Metadata) (w w' : World) :
  getUpdatedOpenAuthoringMetadata contentKey (Some metadata) w
  = (Fulfilled (Some reported), w') ->
  reported = metadata
  \/ (reported = with_status metadata "draft" /\ md_status metadata <> "draft")
  \/ (reported = with_status metadata "pending_review"
      /\ md_status metadata <> "pending_review"
      /\ is_Some (md_pr metadata)).
Proof.
  intros Hrun. unfold getUpdatedOpenAuthoringMetadata in Hrun.
  rewrite bind_ret_l in Hrun.
  destruct (md_pr metadata) as [pr|] eqn:Hpr.
  - unfold bind at 1 in Hrun.
    destruct (getPullRequest (pr_number pr) w) as [[info|e|] w1]; try discriminate.
    destruct (bool_decide (pi_state info = "closed") && truthy (pi_merged_at info)).
    { unfold bind, spawn, ret in Hrun. discriminate. }
    destruct (bool_decide (pi_state info = "closed")
              && negb (truthy (pi_merged_at info))).
    + destruct (bool_decide (md_status metadata = "draft")) eqn:Hdraft; simpl in Hrun.
      * unfold ret in Hrun. injection Hrun as <- _. by left.
      * apply bool_decide_eq_false in Hdraft. unfold bind in Hrun.
        destruct (storeMetadata contentKey _ w1) as [[[]|e|] w2]; try discriminate.
        unfold ret in Hrun. injection Hrun as <- _. right. left. by split.
    + destruct (bool_decide (md_status metadata = "pending_review")) eqn:Hreview;
        simpl in Hrun.
      * unfold ret in Hrun. injection Hrun as <- _. by left.
      * apply bool_decide_eq_false in Hreview. unfold bind in Hrun.
        destruct (storeMetadata contentKey _ w1) as [[[]|e|] w2]; try discriminate.
        unfold ret in Hrun. injection Hrun as <- _. right. right.
        split; [reflexivity|]. split; [exact Hreview|by eexists].
  - destruct (bool_decide (md_status metadata = "draft")) eqn:Hdraft; simpl in Hrun.
    + unfold ret in Hrun. injection Hrun as <- _. by left.
    + apply bool_decide_eq_false in Hdraft. unfold bind in Hrun.
      destruct (storeMetadata_promise contentKey _ w) as [[p|e|] w2];
        try discriminate.
      unfold ret in Hrun. injection Hrun as <- _. right. left. by split.
Qed.


Lemma mergePR_rethrows (pullrequest : PR) (objects : MetaDataObjects) (w : World)
    (failure : Failure) :
  let merge := MergePull (originRepoURL this) (pr_number pullrequest)
                         MERGE_COMMIT_MESSAGE (pr_head pullrequest)
                         (mergeMethod this) in
  respond remote (trace w) merge = inr failure ->
  f_status failure <> Some 405%Z ->
  mergePR pullrequest objects w
  = (Rejected (APIError (f_message failure) (f_status failure)), called merge w).
Proof.
  intros merge Hmerge Hother. unfold mergePR. fold merge.
  erewrite try_catch_rejected by exact (request_failed merge w failure Hmerge).
  destruct (f_status failure) as [[|status|status]|]; try reflexivity.
  destruct (decide (status = 405%positive)) as [->|Hne]; [done|].
  repeat (destruct status as [status|status|]; try reflexivity); done.
Qed.

(** A publish that cannot merge deletes nothing: when the metadata records
    no pull request the publish fails before any merge is tried, and when
    the merge is refused with a status other than 405 the publish fails
    with that refusal; in both cases the branch and the metadata are left
    as they are. *)
Theorem publish_keeps_the_entry_when_the_merge_fails
    (collectionName slug : string) (before w : World) (metadata : Metadata) :
  retrieveMetadata (generateContentKey this collectionName slug) before
  = (Fulfilled metadata, w) ->
  (md_pr metadata = None ->
   exists message,
     publishUnpublishedEntry collectionName slug before
     = (Rejected (TypeError message), w))
  /\ (forall (pullrequest : PR) (failure : Failure),
        let merge := MergePull (originRepoURL this) (pr_number pullrequest)
                               MERGE_COMMIT_MESSAGE (pr_head pullrequest)
                               (mergeMethod this) in
        md_pr metadata = Some pullrequest ->
        respond remote (trace w) merge = inr failure ->
        f_status failure <> Some 405%Z ->
        publishUnpublishedEntry collectionName slug before
        = (Rejected (APIError (f_message failure) (f_status failure)),
           called merge w)).
Proof.
  intros Hget. split.
  - intros Hnone. eexists. unfold publishUnpublishedEntry.
    erewrite bind_fulfilled by exact Hget. rewrite Hnone. reflexivity.
  - intros pullrequest failure merge Hpr Hmerge Hother.
    unfold publishUnpublishedEntry.
    erewrite bind_fulfilled by exact Hget. rewrite Hpr.
    apply bind_rejected.
    exact (mergePR_rethrows pullrequest (md_objects metadata) w failure Hmerge Hother).
Qed.


(** When the workflow branches cannot be listed: a 404 stands for no
    branches, and in the fork variant the listing is then empty after that
    one call; any other failure fails the listing as it came. *)
Theorem listUnpublishedBranches_when_the_refs_are_missing
    (w : World) (failure : Failure) :
  let list := ListRefs (repoURL this) "cms" in
  respond remote (trace w) list = inr failure ->
  (f_status failure <> Some 404%Z ->
   listUnpublishedBranches w
   = (Rejected (APIError (f_message failure) (f_status failure)), called list w))
  /\ (f_status failure = Some 404%Z ->
      useOpenAuthoring this = true ->
      listUnpublishedBranches w = (Fulfilled [], called list w)).
Proof.
  intros list Hfailed. split.
  - intros Hother. unfold listUnpublishedBranches.
    erewrite try_catch_rejected; [reflexivity|].
    apply bind_rejected.
    erewrite try_catch_rejected by exact (request_failed list w failure Hfailed).
    unfold replace404WithEmptyArray. simpl error_status.
    by rewrite bool_decide_eq_false_2.
  - intros H404 Hfork. unfold listUnpublishedBranches. rewrite Hfork.
    apply try_catch_fulfilled.
    erewrite bind_fulfilled.
    2:{ erewrite try_catch_rejected
          by exact (request_failed list w failure Hfailed).
        unfold replace404WithEmptyArray. simpl error_status.
        by rewrite bool_decide_eq_true_2. }
    reflexivity.
Qed.

Lemma filter_none {A : Type} (P : A -> Prop) `{forall x, Decision (P x)}
    (l : list A) :
  Forall (fun x => ~ P x) l -> filter P l = [].
Proof.
  induction 1 as [|x l Hx Hl IH]; [reflexivity|].
  by rewrite filter_cons_False.
Qed.

(** In the standard variant a branch without an open pull request of its
    own is not looked at: when no listed branch is the head of an open pull
    request the listing is empty after two calls, the list of the refs and
    the list of the pull requests; no metadata is read and nothing is
    migrated. *)
Theorem listUnpublishedBranches_skips_branches_without_pull_request
    (w : World) (branches : list Branch) (prs : list PullInfo) :
  let list := ListRefs (repoURL this) "cms" in
  let pulls := ListPulls (repoURL this) CMS_BRANCH_PREFIX "open" (branch this) in
  useOpenAuthoring this = false ->
  respond remote (trace w) list = inl branches ->
  respond remote (trace w ++ [list]) pulls = inl prs ->
  Forall (fun b => Forall (fun pr => pi_head_ref pr <> branchNameFromRef (ref b)) prs)
         branches ->
  listUnpublishedBranches w = (Fulfilled [], called pulls (called list w)).
Proof.
  intros list pulls Hstandard Hlist Hpulls Hnone.
  unfold listUnpublishedBranches. rewrite Hstandard.
  apply try_catch_fulfilled.
  erewrite bind_fulfilled.
  2:{ apply try_catch_fulfilled. exact (request_answered list w branches Hlist). }
  unfold getPRsForBranchName.
  erewrite bind_fulfilled.
  2:{ unfold requestAllPages. fold pulls. simpl trace. by rewrite Hpulls. }
  match goal with
  | |- context [onlySuccessfulPromises migrateBranch ?kept] =>
      assert (Hempty : kept = [])
  end.
  { apply filter_none. eapply Forall_impl; [exact Hnone|].
    intros b Hb Hex. apply Exists_exists in Hex as (pr & Hin & Heq).
    rewrite Forall_forall in Hb. by apply (Hb pr). }
  rewrite Hempty. reflexivity.
Qed.

(* =================================================================== *)
(** ** Further properties: saving and status changes *)
(* =================================================================== *)

Lemma aside_retrieveMetadata (key : string) : aside reads (retrieveMetadata key).
Proof.
  unfold retrieveMetadata, parseMetadata. aside_calls.
Qed.

Lemma aside_uploadFile (file : PersistFile) :
  aside (fun r => creates_blob r /\ direct_save_call r) (uploadFile file).
Proof.
  unfold uploadFile. aside. all: by split.
Qed.

Lemma aside_uploads (files0 : list PersistFile) :
  aside (fun r => creates_blob r /\ direct_save_call r)
        (promiseAll (map uploadFile files0)).
Proof.
  apply aside_promiseAll. apply Forall_forall. intros call Hin.
  apply list_elem_of_fmap in Hin as (file & -> & _). apply aside_uploadFile.
Qed.

(** A save without workflow stays on the default branch: whatever the
    hosting service answers it only creates blobs, a tree and a commit in
    this repository, reads the tip of the default branch and moves the
    default branch without force.  It touches no workflow branch, no pull
    request and nothing of the metadata store. *)
Theorem persistFiles_direct_stays_on_the_default_branch
    (entry : option Entry) (mediaFiles : list AssetProxy) (options : PersistOptions) :
  default false (po_useWorkflow options) = false ->
  aside direct_save_call (persistFiles entry mediaFiles options).
Proof.
  intros Hdirect. unfold persistFiles. rewrite Hdirect.
  change (negb false) with true. cbv iota.
  apply aside_bind.
  - eapply aside_mono; [|apply aside_uploads]. by intros r [_ Hr].
  - intros uploaded.
    unfold getDefaultBranch, updateTree, createTree, commit, createCommit.
    unfold patchBranch, patchRef. simpl default. simpl andb. cbv iota.
    aside. all: try (simpl; done).
Qed.

(** A workflow save needs an entry: called without one it uploads the
    media files and then fails, having made no other call than the
    uploads. *)
Theorem persistFiles_workflow_needs_an_entry
    (mediaFiles : list AssetProxy) (options : PersistOptions) (w : World) :
  default false (po_useWorkflow options) = true ->
  let run := persistFiles None mediaFiles options w in
  (exists e, fst run = Rejected e)
  /\ (exists uploads,
        trace (snd run) = trace w ++ uploads
        /\ Forall creates_blob uploads
        /\ length uploads = length mediaFiles).
Proof.
  intros Hworkflow run. unfold run, persistFiles. rewrite Hworkflow.
  change (negb true) with false. cbv iota.
  assert (Hup : forall files0 w0,
            exists uploads,
              trace (snd (promiseAll (map uploadFile files0) w0))
              = trace w0 ++ uploads
              /\ Forall creates_blob uploads
              /\ length uploads = length files0
              /\ fst (promiseAll (map uploadFile files0) w0) <> Pending).
  { induction files0 as [|file rest IH]; intros w0.
    - exists []. simpl. by rewrite app_nil_r.
    - simpl map. simpl promiseAll.
      assert (Hcall : exists r out,
                creates_blob r /\ uploadFile file w0 = (out, called r w0)
                /\ out <> Pending).
      { destruct file as [asset|e].
        - exists (CreateBlob (repoURL this) (ap_toBase64 asset)).
          unfold uploadFile, bind, request, ret.
          destruct (respond remote (trace w0) _) as [v|f]; eexists;
            (split; [exact I|]); (split; [reflexivity|done]).
        - exists (CreateBlob (repoURL this) (Base64_encode (en_raw e))).
          unfold uploadFile, bind, request, ret.
          destruct (respond remote (trace w0) _) as [v|f]; eexists;
            (split; [exact I|]); (split; [reflexivity|done]). }
      destruct Hcall as (r & out & Hblob & Hrun & Hsettled). rewrite Hrun.
      destruct (IH (called r w0)) as (uploads & Ht & HP & Hlen & Hs).
      exists (r :: uploads).
      assert (Htrace : trace (called r w0) ++ uploads = trace w0 ++ r :: uploads)
        by (rewrite called_trace, <- app_assoc; reflexivity).
      destruct out as [a|e|]; [| |done].
      + unfold bind.
        destruct (promiseAll (map uploadFile rest) (called r w0)) as [[l|e|] w1];
          simpl in *; (split; [congruence|]);
          (split; [by constructor|]); (split; [by rewrite Hlen|done]).
      + simpl in *. split; [congruence|]. split; [by constructor|].
        split; [by rewrite Hlen|done]. }
  destruct (Hup (map AssetFile mediaFiles) w) as (uploads & Ht & HP & Hlen & Hs).
  rewrite length_map in Hlen. unfold bind.
  destruct (promiseAll (map uploadFile (map AssetFile mediaFiles)) w)
    as [[uploaded|e|] w1]; simpl in *; [| |done].
  - split; [by eexists|]. by exists uploads.
  - split; [by eexists|]. by exists uploads.
Qed.

(** *** When every call is answered *)

Lemma answers_ret {A : Type} (a : A) : answers (ret a).
Proof. intros _ w. exists a, (trace w), (clock w). by destruct w. Qed.

Lemma answers_request (r : Request) : answers (request r).
Proof.
  intros Hok w. destruct (Hok (trace w) r) as [v Hv].
  exists v. do 2 eexists. exact (request_answered r w v Hv).
Qed.

Lemma answers_bind {A B : Type} (m : M A) (k : A -> M B) :
  answers m -> (forall a, answers (k a)) -> answers (x <- m;; k x).
Proof.
  intros Hm Hk Hok w. destruct (Hm Hok w) as (a & tr & t & Hrun).
  destruct (Hk a Hok (set_remote tr t w)) as (b & tr' & t' & Hrun').
  exists b, tr', t'. unfold bind. rewrite Hrun, Hrun'. reflexivity.
Qed.

Lemma answers_try_catch {A : Type} (m : M A) (h : JsError -> M A) :
  answers m -> answers (try_catch m h).
Proof.
  intros Hm Hok w. destruct (Hm Hok w) as (a & tr & t & Hrun).
  exists a, tr, t. unfold try_catch. by rewrite Hrun.
Qed.

Ltac answers :=
  repeat (intros;
          first [ apply answers_bind
                | apply answers_try_catch
                | apply answers_ret
                | match goal with
                  | |- answers (request ?r) => apply (answers_request r)
                  end ]).

Lemma answers_updateTree (baseSha : string) (files0 : list TreeFile) :
  answers (updateTree baseSha files0).
Proof. unfold updateTree, createTree. answers. Qed.

Lemma answers_commit (message : string) (changeTree : ChangeTree) :
  answers (commit message changeTree).
Proof. unfold commit, createCommit. answers. Qed.

Lemma answers_store_remote (key : string) (data0 : Metadata) :
  answers (store_remote key data0).
Proof.
  unfold store_remote, checkMetadataRef, uploadBlob, updateTree, createTree.
  unfold commit, createCommit, patchRef. answers.
Qed.

Lemma user_answers (w : World) :
  always_answers ->
  idle w ->
  (forall e, userPromise w <> Some (inr e)) ->
  exists u w0,
    user w = (Fulfilled u, w0)
    /\ userPromise w0 = Some (inl u)
    /\ idle w0
    /\ cache w0 = cache w.
Proof.
  intros Hok Hidle Hkept. unfold user.
  destruct (userPromise w) as [[u|e]|] eqn:Hpromise.
  - by exists u, w.
  - by destruct (Hkept e).
  - destruct (Hok (trace w) GetUser) as [u Hu].
    rewrite (request_answered GetUser w u Hu).
    eexists u, _. split; [reflexivity|]. split; [reflexivity|].
    split; [|reflexivity]. destruct Hidle as [Hready Hsem]. by split.
Qed.

(** An update of an entry under review needs commits to rebase: in the
    standard variant, when the branch of the entry is not ahead of the
    default branch, the update fails with a [TypeError] right after the
    comparison; no tree or commit is created, the metadata is not
    rewritten and the branch is not moved. *)
Theorem editorialWorkflowGit_update_needs_commits_ahead
    (files0 : list Uploaded) (entry : Entry) (entrySha : string)
    (mediaFilesList : list MediaFile) (options : PersistOptions)
    (w w1 : World) (metadata : Metadata) (response : GitHubCompareResponse) :
  let contentKey :=
    generateContentKey this (po_collectionName options) (en_slug entry) in
  let compare :=
    Compare (originRepoURL this) (branch this)
            (generateBranchName CMS_BRANCH_PREFIX contentKey) in
  useOpenAuthoring this = false ->
  default false (po_unpublished options) = true ->
  retrieveMetadata contentKey w = (Fulfilled metadata, w1) ->
  respond remote (trace w1) compare = inl response ->
  commits response = [] ->
  editorialWorkflowGit files0 (Some (entry, entrySha)) mediaFilesList options w
  = (Rejected (TypeError "Cannot read property 'sha' of undefined"),
     called compare w1).
Proof.
  intros contentKey compare Hstandard Hupdate Hget Hcompare Hnone.
  unfold editorialWorkflowGit. fold contentKey. rewrite Hupdate.
  change (negb true) with false. cbv iota.
  erewrite bind_fulfilled by exact Hget.
  assert (Hrebase :
    rebaseBranch (generateBranchName CMS_BRANCH_PREFIX contentKey) w1
    = (Fulfilled None, called compare w1)).
  { unfold rebaseBranch. apply try_catch_fulfilled.
    unfold compareBranchToDefault, getHeadReference. rewrite Hstandard.
    cbv iota. unfold compare in Hcompare |- *.
    unfold bind at 1 2 3, ret at 1 2, request. rewrite Hcompare.
    cbn [fst snd]. rewrite Hnone. reflexivity. }
  erewrite bind_fulfilled by exact Hrebase. reflexivity.
Qed.

(** The first save of an entry under the workflow records it: when every
    call is answered and the metadata store is idle, the save succeeds,
    leaves the store idle, and the document cached for the entry carries
    the status asked for (the initial workflow status when none is), the
    branch of the entry, the collection, the entry and media files,
    version 1, and a pull request exactly in the standard variant. *)
Theorem editorialWorkflowGit_records_a_new_entry
    (files0 : list Uploaded) (entry : Entry) (entrySha : string)
    (mediaFilesList : list MediaFile) (options : PersistOptions) (w : World) :
  let contentKey :=
    generateContentKey this (po_collectionName options) (en_slug entry) in
  let run :=
    editorialWorkflowGit files0 (Some (entry, entrySha)) mediaFilesList options w in
  always_answers ->
  idle w ->
  (forall e, userPromise w <> Some (inr e)) ->
  default false (po_unpublished options) = false ->
  fst run = Fulfilled tt
  /\ idle (snd run)
  /\ exists c,
       cache (snd run) !! ("gh.meta." +:+ contentKey) = Some c
       /\ expires c = (clock (snd run) + 300000)%Z
       /\ md_status (data c) = orElse (po_status options) (initialWorkflowStatus this)
       /\ md_branch (data c) = generateBranchName CMS_BRANCH_PREFIX contentKey
       /\ md_collection (data c) = po_collectionName options
       /\ md_objects (data c)
          = {| obj_entry := {| mf_sha := entrySha; mf_path := en_path entry |};
               obj_files := mediaFilesList |}
       /\ md_version (data c) = Some "1"
       /\ (is_Some (md_pr (data c)) <-> useOpenAuthoring this = false).
Proof.
  intros contentKey run Hok Hidle Hkept Hnew.
  unfold run, editorialWorkflowGit. fold contentKey. rewrite Hnew.
  change (negb false) with true. cbv iota.
  destruct (user_answers w Hok Hidle Hkept) as (u & w0 & Huser & Hpromise & Hidle0 & _).
  assert (Hstarted : userStarted w = (Fulfilled tt, w0))
    by (unfold userStarted; by rewrite Huser).
  erewrite bind_fulfilled by exact Hstarted.
  destruct (answers_request (GetBranch (originRepoURL this) (branch this)) Hok w0)
    as (tip & tr1 & t1 & H1).
  unfold getDefaultBranch. erewrite bind_fulfilled by exact H1.
  destruct (answers_updateTree tip (map uploadedTreeFile files0) Hok
              (set_remote tr1 t1 w0)) as (changeTree & tr2 & t2 & H2).
  erewrite bind_fulfilled by exact H2.
  destruct (answers_commit (po_commitMessage options) changeTree Hok
              (set_remote tr2 t2 (set_remote tr1 t1 w0)))
    as (commitResponse & tr3 & t3 & H3).
  erewrite bind_fulfilled by exact H3.
  set (w3 := set_remote tr3 t3 (set_remote tr2 t2 (set_remote tr1 t1 w0))).
  assert (Hpr : exists pr tr4 t4,
            (if useOpenAuthoring this then
               createBranch (generateBranchName CMS_BRANCH_PREFIX contentKey)
                            (HeadSha (sha commitResponse));;;
               ret None
             else
               created <- createBranchAndPullRequest
                            (generateBranchName CMS_BRANCH_PREFIX contentKey)
                            (sha commitResponse) (po_commitMessage options);;
               ret (Some created)) w3
            = (Fulfilled pr, set_remote tr4 t4 w3)
            /\ (is_Some pr <-> useOpenAuthoring this = false)).
  { unfold createBranchAndPullRequest, createPR, getHeadReference.
    unfold createBranch, createRef.
    destruct (useOpenAuthoring this).
    - match goal with
      | |- exists pr tr4 t4, ?m w3 = _ /\ _ =>
          assert (Hm : answers m) by answers
      end.
      destruct (Hm Hok w3) as (pr & tr4 & t4 & H4).
      exists pr, tr4, t4. split; [exact H4|].
      unfold bind, request, ret in H4.
      destruct (respond remote (trace w3) _); [|discriminate].
      injection H4 as <- _. split; [by intros [? ?]|done].
    - match goal with
      | |- exists pr tr4 t4, ?m w3 = _ /\ _ =>
          assert (Hm : answers m) by answers
      end.
      destruct (Hm Hok w3) as (pr & tr4 & t4 & H4).
      exists pr, tr4, t4. split; [exact H4|].
      split; [done|]. intros _. unfold bind, request, ret in H4.
      repeat match type of H4 with
             | context [respond remote ?h ?r] =>
                 destruct (respond remote h r); [|discriminate]
             end.
      injection H4 as <- _. by eexists. }
  destruct Hpr as (pr & tr4 & t4 & H4 & Hvariant).
  erewrite bind_fulfilled by exact H4.
  set (w4 := set_remote tr4 t4 w3).
  assert (Hidle4 : idle w4) by (destruct Hidle0; by split).
  assert (Huser4 : user w4 = (Fulfilled u, w4)).
  { unfold user. change (userPromise w4) with (userPromise w0).
    by rewrite Hpromise. }
  erewrite bind_fulfilled by exact Huser4.
  rewrite (bind_fulfilled dateNow _ w4 w4 (clock w4)) by reflexivity.
  rewrite (storeMetadata_idle _ _ w4 Hidle4).
  match goal with
  | |- context [store_remote ?key ?md (started w4)] =>
      destruct (answers_store_remote key md Hok (started w4))
        as ([] & tr5 & t5 & H5); rewrite H5
  end.
  cbn [fst snd]. split; [reflexivity|].
  split; [split; [reflexivity|by right]|].
  eexists. split; [apply lookup_insert_eq|].
  repeat (split; [reflexivity|]).
  simpl. rewrite <- Hvariant.
  destruct pr; simpl; split; intros [x Hx]; try discriminate; by eexists.
Qed.

(** In the fork variant the status [pending_publish] is refused: the call
    never succeeds, and all it does is read the metadata of the entry;
    when that read succeeds the error names the refused status. *)
Theorem updateUnpublishedEntryStatus_refuses_pending_publish
    (collectionName slug : string) (w : World) :
  let contentKey := generateContentKey this collectionName slug in
  let run := updateUnpublishedEntryStatus collectionName slug "pending_publish" w in
  useOpenAuthoring this = true ->
  fst run <> Fulfilled tt
  /\ snd run = snd (retrieveMetadata contentKey w)
  /\ (forall metadata w1,
        retrieveMetadata contentKey w = (Fulfilled metadata, w1) ->
        fst run = Rejected (PlainError pendingPublishRefused)).
Proof.
  intros contentKey run Hfork. unfold run, updateUnpublishedEntryStatus.
  fold contentKey. rewrite Hfork. change (negb true) with false. cbv iota.
  rewrite bool_decide_eq_true_2 by reflexivity. unfold bind.
  destruct (retrieveMetadata contentKey w) as [[metadata|e|] w1]; simpl.
  - split; [done|]. split; [reflexivity|]. done.
  - split; [done|]. split; [reflexivity|]. intros ? ? [=].
  - split; [done|]. split; [reflexivity|]. intros ? ? [=].
Qed.

(** In the fork variant a status change that matches no transition is
    dropped without a word: for an entry without pull request any status
    but [pending_review], and for an entry with one any combination other
    than an open pull request going to [draft] or a closed one going to
    [pending_review], the call reports success and stores nothing. *)
Theorem updateUnpublishedEntryStatus_drops_other_changes
    (collectionName slug status : string) (w w1 : World) (metadata : Metadata) :
  let contentKey := generateContentKey this collectionName slug in
  let run := updateUnpublishedEntryStatus collectionName slug status w in
  useOpenAuthoring this = true ->
  status <> "pending_publish" ->
  retrieveMetadata contentKey w = (Fulfilled metadata, w1) ->
  (md_pr metadata = None -> status <> "pending_review" ->
   run = (Fulfilled tt, w1))
  /\ (forall pr info,
        let lookup := GetPull (originRepoURL this) (pr_number pr) in
        md_pr metadata = Some pr ->
        respond remote (trace w1) lookup = inl info ->
        ~ (pi_state info = "open" /\ status = "draft") ->
        ~ (pi_state info = "closed" /\ status = "pending_review") ->
        run = (Fulfilled tt, called lookup w1)).
Proof.
  intros contentKey run Hfork Hstatus Hget.
  unfold run, updateUnpublishedEntryStatus. fold contentKey.
  rewrite Hfork. change (negb true) with false. cbv iota.
  rewrite (bool_decide_eq_false_2 _ Hstatus).
  erewrite bind_fulfilled by exact Hget. split.
  - intros -> Hother. by rewrite (bool_decide_eq_false_2 _ Hother).
  - intros pr info -> Hinfo Hclose Hopen.
    set (lookup := GetPull (originRepoURL this) (pr_number pr)) in *.
    unfold getPullRequest. fold lookup.
    erewrite bind_fulfilled by exact (request_answered lookup w1 info Hinfo).
    destruct (bool_decide (pi_state info = "open")) eqn:H1;
      destruct (bool_decide (status = "draft")) eqn:H2;
      destruct (bool_decide (pi_state info = "closed")) eqn:H3;
      destruct (bool_decide (status = "pending_review")) eqn:H4;
      simpl; try reflexivity;
      repeat match goal with
             | H : bool_decide _ = true |- _ => apply bool_decide_eq_true in H
             end; tauto.
Qed.

(** Branches whose metadata carries a version are not migrated, and a
    migration never tears the old entry down before the new one is
    recorded: a legacy document without pull request fails the migration
    before any call, and when the metadata under the new key cannot be
    stored the old pull request, branch and metadata are left alone. *)
Theorem migrateBranch_keeps_what_it_cannot_replace
    (branch0 : Branch) (w w1 : World) (metadata : Metadata) :
  let oldContentKey := Js.substring (String.length "refs/heads/cms/") (ref branch0) in
  let newContentKey := md_collection metadata +:+ "/" +:+ oldContentKey in
  let newBranchName := "cms/" +:+ newContentKey in
  retrieveMetadata (contentKeyFromRef CMS_BRANCH_PREFIX (ref branch0)) w
  = (Fulfilled metadata, w1) ->
  (truthy (md_version metadata) = true ->
   migrateBranch branch0 w = (Fulfilled branch0, w1))
  /\ (truthy (md_version metadata) = false -> md_pr metadata = None ->
      exists message, migrateBranch branch0 w = (Rejected (TypeError message), w1))
  /\ (forall oldPR newBranch w2 created w3 e w4,
        truthy (md_version metadata) = false ->
        md_pr metadata = Some oldPR ->
        createBranch newBranchName (pr_head oldPR) w1 = (Fulfilled newBranch, w2) ->
        createPR (md_commitMessage metadata) newBranchName w2
        = (Fulfilled created, w3) ->
        storeMetadata newContentKey
          (migrated metadata
             {| pr_number := pi_number created;
                pr_head := HeadSha (pi_head_sha created) |}
             newBranchName) w3
        = (Rejected e, w4) ->
        migrateBranch branch0 w = (Rejected e, w4)).
Proof.
  intros oldContentKey newContentKey newBranchName Hget.
  unfold migrateBranch. erewrite bind_fulfilled by exact Hget.
  split; [|split].
  - by intros ->.
  - intros -> Hnone. simpl. unfold migrateToVersion1. rewrite Hnone. by eexists.
  - intros oldPR newBranch w2 created w3 e w4 -> Hpr Hbranch Hcreated Hstore.
    simpl. unfold migrateToVersion1. rewrite Hpr.
    fold oldContentKey. fold newContentKey. fold newBranchName.
    erewrite bind_fulfilled by exact Hbranch.
    erewrite bind_fulfilled by exact Hcreated.
    by apply bind_rejected.
Qed.

(* =================================================================== *)
(** ** Further properties: reading metadata *)
(* =================================================================== *)

(** [retrieveMetadata] does not cache what it fetches: a read that misses
    the cache makes one call for the document on the metadata ref and
    leaves the cache as it was, so the same read made again asks the
    hosting service again, whatever the first answer was. *)
Theorem retrieveMetadata_does_not_cache (key : string) (w : World) :
  cache w !! ("gh.meta." +:+ key) = None ->
  exists root,
    let fetch := GetContents root (key +:+ ".json") "refs/meta/_netlify_cms" in
    let once := snd (retrieveMetadata key w) in
    trace once = trace w ++ [fetch]
    /\ cache once = cache w
    /\ trace (snd (retrieveMetadata key once)) = trace w ++ [fetch; fetch].
Proof.
  intros Hmiss.
  assert (Hfetch : exists root, forall w0,
            cache w0 !! ("gh.meta." +:+ key) = None ->
            exists out,
              retrieveMetadata key w0
              = (out, called (GetContents root (key +:+ ".json")
                                          "refs/meta/_netlify_cms") w0)).
  { unfold retrieveMetadata, bind at 1, localForage_getItem, bind at 1, dateNow.
    destruct (negb (useOpenAuthoring this)); eexists; intros w0 Hc; rewrite Hc;
      unfold try_catch, bind, request, parseMetadata, throw, ret;
      (destruct (respond remote _ _) as [raw|f]; [destruct (JSON_parse raw)|]);
      eexists; reflexivity. }
  destruct Hfetch as [root Hfetch]. exists root. intros fetch once.
  destruct (Hfetch w Hmiss) as [out Hrun].
  assert (Honce : once = called fetch w) by (unfold once; by rewrite Hrun).
  assert (Hmiss' : cache once !! ("gh.meta." +:+ key) = None)
    by (rewrite Honce; exact Hmiss).
  destruct (Hfetch once Hmiss') as [out' Hrun'].
  rewrite Hrun'. rewrite Honce. simpl. split; [reflexivity|].
  split; [reflexivity|]. by rewrite <- app_assoc.
Qed.

Lemma rev_app_rev_app (u v t : string) :
  String.rev_app (String.rev_app u v) t = String.rev_app v (u +:+ t).
Proof.
  revert v. induction u as [|c u IH]; intros v; [reflexivity|].
  simpl String.rev_app. rewrite IH. reflexivity.
Qed.

Lemma append_nil_r (s : string) : s +:+ EmptyString = s.
Proof.
  induction s as [|c s IH]; [reflexivity|]. rewrite append_cons. by rewrite IH.
Qed.

Lemma split_go_segment (u rest cur : string) :
  slashFree u = true ->
  Js.split_go cur (u +:+ String "/" rest)
  = String.rev (String.rev_app u cur) :: Js.split_go EmptyString rest.
Proof.
  revert cur. induction u as [|c u IH]; intros cur Hfree; [reflexivity|].
  simpl in Hfree. apply andb_true_iff in Hfree as [Hc Hu].
  rewrite append_cons. simpl String.rev_app. rewrite <- (IH (String c cur) Hu).
  destruct c as [[] [] [] [] [] [] [] []]; try reflexivity; discriminate Hc.
Qed.

Lemma splitSlash_segment (u rest : string) :
  slashFree u = true ->
  Js.splitSlash (u +:+ "/" +:+ rest) = u :: Js.splitSlash rest.
Proof.
  intros Hfree. unfold Js.splitSlash.
  change ("/" +:+ rest) with (String "/" rest).
  rewrite (split_go_segment u rest EmptyString Hfree). f_equal.
  unfold String.rev. rewrite rev_app_rev_app. simpl. apply append_nil_r.
Qed.

(** In the fork variant the metadata of an entry is read from the fork
    itself: the content key starts with the name of the fork, and the
    read takes the owner and the repository from the first two segments
    of the key.  Stated for a repository name of the form
    [owner/name]. *)
Theorem retrieveMetadata_reads_from_the_fork
    (owner name collectionName slug : string) (w : World) :
  let contentKey := generateContentKey this collectionName slug in
  useOpenAuthoring this = true ->
  repo this = owner +:+ "/" +:+ name ->
  slashFree owner = true ->
  slashFree name = true ->
  cache w !! ("gh.meta." +:+ contentKey) = None ->
  trace (snd (retrieveMetadata contentKey w))
  = trace w ++ [GetContents (repoURL this) (contentKey +:+ ".json")
                            "refs/meta/_netlify_cms"].
Proof.
  intros contentKey Hfork Hrepo Howner Hname Hmiss.
  assert (Hparts : exists more,
            Js.splitSlash contentKey = owner :: name :: more).
  { unfold contentKey, generateContentKey. rewrite Hrepo.
    rewrite !append_assoc.
    rewrite (splitSlash_segment owner _ Howner).
    rewrite (splitSlash_segment name _ Hname). by eexists. }
  destruct Hparts as [more Hparts].
  unfold retrieveMetadata, bind at 1, localForage_getItem, bind at 1, dateNow.
  rewrite Hmiss, Hfork. change (negb true) with false. cbv iota.
  rewrite Hparts. simpl lookup. unfold Js.interpolate.
  unfold repoURL. rewrite Hrepo.
  unfold try_catch, bind, request, parseMetadata, throw, ret.
  destruct (respond remote _ _) as [raw|f]; [destruct (JSON_parse raw)|];
    reflexivity.
Qed.

(* =================================================================== *)
(** ** Further properties: updating an entry under review *)
(* =================================================================== *)

(** A failed [storeMetadata] leaves nothing in the cache: the cache is
    written after the metadata ref has been advanced, so when a write on
    an idle store is rejected the cache is what it was before, a document
    cached earlier for the key included, and the promise of the write is
    rejected with the error. *)
Theorem storeMetadata_failure_leaves_the_cache
    (key : string) (data0 : Metadata) (w w' : World) (e : JsError) :
  idle w ->
  storeMetadata key data0 w = (Rejected e, w') ->
  cache w' = cache w
  /\ promises w' !! length (promises w) = Some (Some (RejectedWith e))
  /\ forall c,
       cache w !! ("gh.meta." +:+ key) = Some c ->
       (clock w' < expires c)%Z ->
       retrieveMetadata key w' = (Fulfilled (data c), w').
Proof.
  intros Hidle. rewrite (storeMetadata_idle key data0 w Hidle).
  destruct (remote_only_run (store_remote key data0) (started w)
              (remote_only_store_remote key data0))
    as (tr & t & [[a Hrun] | [e' Hrun]]); rewrite Hrun; intros [= <- <-].
  split; [reflexivity|]. split; [apply promise_settled|].
  intros c Hcached Hfresh. by apply retrieveMetadata_cached.
Qed.

(** An update of an entry under review whose branch sits on the tip of the
    default branch (standard variant, every call answered, idle store):
    the save succeeds, the cached metadata keeps its status, takes the new
    entry and media files and points the recorded pull request at the new
    commit, and the last call made is the forced update of the branch of
    the entry to that commit, after the metadata has been stored. *)
Theorem editorialWorkflowGit_update_moves_the_branch_last
    (files0 : list Uploaded) (entry : Entry) (entrySha : string)
    (mediaFilesList : list MediaFile) (options : PersistOptions)
    (w w1 : World) (metadata : Metadata) (response : GitHubCompareResponse)
    (first : GitHubCompareCommit) (rest : list GitHubCompareCommit)
    (others : list string) :
  let contentKey :=
    generateContentKey this (po_collectionName options) (en_slug entry) in
  let branchName := generateBranchName CMS_BRANCH_PREFIX contentKey in
  let compare := Compare (originRepoURL this) (branch this) branchName in
  let run :=
    editorialWorkflowGit files0 (Some (entry, entrySha)) mediaFilesList options w in
  always_answers ->
  idle w ->
  useOpenAuthoring this = false ->
  default false (po_unpublished options) = true ->
  retrieveMetadata contentKey w = (Fulfilled metadata, w1) ->
  respond remote (trace w1) compare = inl response ->
  commits response = first :: rest ->
  parents first = sha (base_commit response) :: others ->
  exists (commit0 : GitHubCompareCommit) (c : CacheEntry),
    fst run = Fulfilled tt
    /\ last (trace (snd run))
       = Some (PatchRef (repoURL this) "heads" branchName (sha commit0) true)
    /\ cache (snd run) !! ("gh.meta." +:+ contentKey) = Some c
    /\ md_pr (data c)
       = (fun p => {| pr_number := pr_number p; pr_head := HeadSha (sha commit0) |})
           <$> md_pr metadata
    /\ md_status (data c) = md_status metadata
    /\ md_objects (data c)
       = {| obj_entry := {| mf_sha := entrySha; mf_path := en_path entry |};
            obj_files := mediaFilesList |}.
Proof.
  intros contentKey branchName compare run Hok Hidle Hstandard Hupdate Hget
         Hcompare Hcommits Hparent.
  assert (Hidle1 : idle w1).
  { destruct (aside_retrieveMetadata contentKey w) as (_ & _ & _ & Hsem & Hready & _).
    rewrite Hget in Hsem, Hready. simpl in Hsem, Hready.
    destruct Hidle as [Hr Hs]. split; [by rewrite Hready|by rewrite Hsem]. }
  destruct (rebaseCommits_short_cut (base_commit response) first rest others
              (called compare w1) Hparent) as [Hshort [head Hlast]].
  assert (Hrebase :
    rebaseBranch branchName w1 = (Fulfilled (Some head), called compare w1)).
  { unfold rebaseBranch. apply try_catch_fulfilled.
    unfold compareBranchToDefault, getHeadReference. rewrite Hstandard.
    cbv iota. unfold compare in Hcompare, Hshort |- *.
    unfold bind at 1 2 3, ret at 1 2, request. rewrite Hcompare.
    cbn [fst snd]. rewrite Hcommits, Hshort, Hlast. reflexivity. }
  unfold run, editorialWorkflowGit. fold contentKey. fold branchName.
  rewrite Hupdate. change (negb true) with false. cbv iota.
  erewrite bind_fulfilled by exact Hget.
  erewrite bind_fulfilled by exact Hrebase. cbv beta iota.
  match goal with
  | |- context [updateTree ?b ?f] =>
      destruct (answers_updateTree b f Hok (called compare w1))
        as (changeTree & tr2 & t2 & H2)
  end.
  erewrite bind_fulfilled by exact H2.
  destruct (answers_commit (po_commitMessage options) changeTree Hok
              (set_remote tr2 t2 (called compare w1)))
    as (commit0 & tr3 & t3 & H3).
  erewrite bind_fulfilled by exact H3.
  set (w3 := set_remote tr3 t3 (set_remote tr2 t2 (called compare w1))).
  assert (Hidle3 : idle w3) by (destruct Hidle1; by split).
  match goal with
  | |- context [storeMetadata contentKey ?md] =>
      assert (Hstore : exists tr4 t4,
                storeMetadata contentKey md w3
                = (Fulfilled tt,
                   released (length (promises w3))
                     (set_cache (<["gh.meta." +:+ contentKey :=
                                     {| expires := (t4 + 300000)%Z; data := md |}]>
                                   (cache w3))
                                (set_remote tr4 t4 (started w3)))))
  end.
  { rewrite (storeMetadata_idle _ _ w3 Hidle3).
    match goal with
    | |- context [store_remote ?key ?md (started w3)] =>
        destruct (answers_store_remote key md Hok (started w3))
          as ([] & tr4 & t4 & H4); rewrite H4
    end.
    by exists tr4, t4. }
  destruct Hstore as (tr4 & t4 & Hstore).
  erewrite bind_fulfilled by exact Hstore.
  assert (Hcms : assertCmsBranch CMS_BRANCH_PREFIX branchName = true).
  { unfold assertCmsBranch, branchName, generateBranchName.
    by rewrite <- append_assoc, startsWith_append. }
  rewrite patchBranch_cases, Hcms. simpl default. simpl andb. cbv iota.
  match goal with
  | |- context [request ?r ?w4] =>
      destruct (Hok (trace w4) r) as [v Hv];
      rewrite (request_answered r w4 v Hv)
  end.
  exists commit0. eexists. cbn [fst snd].
  split; [by destruct v|]. split; [rewrite called_trace; apply last_snoc|].
  split; [apply lookup_insert_eq|]. by repeat split.
Qed.

End Backend.

(* ===================================================================== *)
(** ** Worked instances *)
(* ===================================================================== *)

Import Sample.

(** C1: in the standard variant the content key of collection [posts] and
    slug [hello] should be [posts/hello]; the method returns it with the
    repository in front, as it does in the fork variant, because the value
    computed for the standard variant is not returned. *)
Theorem generateContentKey_standard_variant_keeps_repository :
  useOpenAuthoring standard = false
  /\ generateContentKey standard "posts" "hello" = "owner/repo/posts/hello"
  /\ generateContentKey standard "posts" "hello"
     <> lib_generateContentKey "posts" "hello".
Proof. repeat split. apply generateContentKey_never_plain. Qed.

(** C6: in the standard variant the slug does not come back from the
    content key: for collection [posts] and slug [hello] the result is
    [repo/posts/hello]. *)
Theorem slugFromContentKey_standard_variant_loses_slug :
  useOpenAuthoring standard = false
  /\ slugFromContentKey standard (generateContentKey standard "posts" "hello") "posts"
     = "repo/posts/hello"
  /\ slugFromContentKey standard (generateContentKey standard "posts" "hello") "posts"
     <> "hello".
Proof. repeat split. discriminate. Qed.

(** C2: a [storeMetadata] whose remote calls fail rejects without giving
    the slot back: the semaphore stays taken with nothing left to run, and
    the next write, here a [deleteMetadata], is queued, makes no remote
    call and never settles. *)
Theorem storeMetadata_failure_blocks_later_writes :
  let first := storeMetadata stringify base64 unreachable standard
                 "posts/hello" (meta "posts/hello" None) (initial_world 0) in
  let second := deleteMetadata stringify base64 unreachable standard
                  "posts/other" (snd first) in
  fst first = Rejected (APIError "Failed to fetch" None)
  /\ metadataSemaphore (snd first)
     = Some {| capacity := 1; current := 1; queue := [] |}
  /\ ready (snd first) = []
  /\ fst second = Pending
  /\ trace (snd second) = trace (snd first)
  /\ metadataSemaphore (snd second)
     = Some {| capacity := 1; current := 1;
               queue := [ {| t_promise := 1; t_write := WDelete "posts/other" |} ] |}.
Proof. vm_compute. repeat split. Qed.

(** The same at any idle store and for any failure. *)
Lemma storeMetadata_failure_blocks (JSON_stringify : Metadata -> string)
    (Base64_encode : string -> string) (remote : Remote) (this : API)
    (key other : string) (data0 : Metadata) (w w' : World) (e : JsError) :
  idle w ->
  storeMetadata JSON_stringify Base64_encode remote this key data0 w
  = (Rejected e, w') ->
  exists w'',
    deleteMetadata JSON_stringify Base64_encode remote this other w'
    = (Pending, w'')
    /\ trace w'' = trace w'.
Proof.
  intros Hidle Hfail.
  pose proof (storeMetadata_failure_keeps_slot _ _ _ _ _ _ _ _ _ Hidle Hfail)
    as Hstuck.
  destruct (deleteMetadata_when_stuck JSON_stringify Base64_encode remote this
              other w' Hstuck) as (w'' & Hrun & Htrace & _).
  by exists w''.
Qed.

Lemma idle_initial (now : Z) : idle (initial_world now).
Proof. split; [reflexivity|by left]. Qed.

Lemma patchBranch_force_needs_cms_branch_witness :
  Js.startsWith (PREFIX +:+ "/") "master" = false
  /\ patchBranch PREFIX happy standard "master" "c1" (Some true) (initial_world 0)
     = (Rejected (PlainError
                    "Only CMS branches can be force updated, cannot force update master"),
        initial_world 0).
Proof.
  split; [reflexivity|].
  exact (proj1 (patchBranch_force_needs_cms_branch PREFIX happy standard
                  "master" "c1" (initial_world 0) eq_refl)).
Defined.

Lemma rebaseSingleCommit_replays_changes_witness :
  trace (snd (rebaseSingleCommit renaming standard (made "d0") original
                (initial_world 0)))
  = [ Compare "/repos/owner/repo" "p0" "x1";
      CreateTree "/repos/owner/repo" (Some "d0")
        [ {| te_path := "a.md"; te_mode := "100644"; te_type := "blob";
             te_sha := None |};
          {| te_path := "b.md"; te_mode := "100644"; te_type := "blob";
             te_sha := Some "s1" |} ];
      CreateCommit "/repos/owner/repo" "Rename a to b" "t1" ["d0"]
                   (Some someone) (Some someone) ].
Proof.
  exact (proj2 (rebaseSingleCommit_replays_changes renaming standard (made "d0")
                  original "p0" [] (initial_world 0)
                  {| base_commit := made "d0"; commits := []; files := [renamed] |}
                  "t1" eq_refl eq_refl eq_refl)).
Defined.

Lemma deleteMetadata_twice_resolves_witness :
  idle (initial_world 0)
  /\ exists w1 w2,
       deleteMetadata stringify base64 unreachable standard "posts/hello"
                      (initial_world 0) = (Fulfilled tt, w1)
       /\ deleteMetadata stringify base64 unreachable standard "posts/hello" w1
          = (Fulfilled tt, w2)
       /\ idle w2.
Proof.
  split; [apply idle_initial|].
  exact (proj2 (deleteMetadata_twice_resolves stringify base64 unreachable standard
                  "posts/hello" (initial_world 0)) (idle_initial 0)).
Defined.

Lemma storeMetadata_caches_for_five_minutes_witness :
  let stored := snd (storeMetadata stringify base64 happy standard "posts/hello"
                       (meta "posts/hello" None) (initial_world 0)) in
  idle (initial_world 0)
  /\ clock stored = 50%Z
  /\ cache stored !! ("gh.meta." +:+ "posts/hello")
     = Some {| expires := (clock stored + 300000)%Z;
               data := meta "posts/hello" None |}.
Proof.
  intros stored.
  assert (Hrun : storeMetadata stringify base64 happy standard "posts/hello"
                   (meta "posts/hello" None) (initial_world 0)
                 = (Fulfilled tt, stored)) by (vm_compute; reflexivity).
  split; [apply idle_initial|]. split; [vm_compute; reflexivity|].
  exact (proj1 (storeMetadata_caches_for_five_minutes stringify parse base64 happy
                  standard "posts/hello" (meta "posts/hello" None)
                  (initial_world 0) stored (idle_initial 0) Hrun)).
Defined.

Lemma mergePR_falls_back_on_405_witness :
  let after := snd (mergePR PREFIX "Merged" conflicting standard pull
                      {| obj_entry := entryFile; obj_files := [mediaFile] |}
                      (initial_world 0)) in
  fst (mergePR PREFIX "Merged" conflicting standard pull
         {| obj_entry := entryFile; obj_files := [mediaFile] |} (initial_world 0))
  = Fulfilled tt
  /\ trace after
     = [ MergePull "/repos/owner/repo" 7 "Merged" (HeadSha "h1") "merge";
         GetBranch "/repos/owner/repo" "master";
         CreateTree "/repos/owner/repo" (Some "d0")
           [ {| te_path := "static/img.png"; te_mode := "100644";
                te_type := "blob"; te_sha := Some "i1" |};
             {| te_path := "posts/hello.md"; te_mode := "100644";
                te_type := "blob"; te_sha := Some "e1" |} ];
         CreateCommit "/repos/owner/repo"
           (forceMergeMessage [mediaFile; entryFile]) "t1" ["d0"] None None;
         PatchRef "/repos/owner/repo" "heads" "master" "c1" false ].
Proof.
  pose proof (proj1 (mergePR_falls_back_on_405 PREFIX "Merged" stringify parse
                       base64 conflicting standard pull
                       {| obj_entry := entryFile; obj_files := [mediaFile] |}
                       (initial_world 0))
                {| f_message := "Pull Request is not mergeable";
                   f_status := Some 405%Z |}
                "d0" "t1" (made "c1")
                eq_refl eq_refl eq_refl eq_refl eq_refl eq_refl)
    as (Hrun & Htrace & _).
  split.
  - exact (f_equal fst Hrun).
  - exact (eq_trans (f_equal (fun r => trace (snd r)) Hrun) Htrace).
Defined.

(** The fallback does not force the update of the default branch: on a
    refused merge its only ref update carries [force = false], and no call
    made by [mergePR] is a forced update. *)
Lemma forceMergePR_update_is_not_forced :
  let run := mergePR PREFIX "Merged" conflicting standard pull
               {| obj_entry := entryFile; obj_files := [mediaFile] |}
               (initial_world 0) in
  fst run = Fulfilled tt
  /\ last (trace (snd run))
     = Some (PatchRef "/repos/owner/repo" "heads" "master" "c1" false)
  /\ ~ exists root type name sha0,
         In (PatchRef root type name sha0 true) (trace (snd run)).
Proof.
  split; [reflexivity|]. split; [reflexivity|].
  intros (root & type & name & sha0 & Hin).
  vm_compute in Hin.
  repeat (destruct Hin as [Hin|Hin]; [discriminate Hin|]).
  exact Hin.
Qed.


(** The whole listing on that service: the merged entry is left out, its
    deletion is started, and once it has run the branch and the metadata
    document are gone. *)
Example listUnpublishedBranches_merged_entry :
  let listing := listUnpublishedBranches PREFIX EmptyString stringify parse base64 happy fork
                   (initial_world 0) in
  fst listing = Fulfilled []
  /\ detached (snd listing) = [DeleteUnpublishedEntry "posts" "hello"]
  /\ trace (flush_detached PREFIX stringify parse base64 happy fork (snd listing))
     = trace (snd listing)
         ++ [ GetContents "/repos/contributor/repo"
                "contributor/repo/posts/hello.json" "refs/meta/_netlify_cms";
              PatchPull "/repos/owner/repo" 7 "closed";
              DeleteRef "/repos/contributor/repo" "heads"
                "cms/contributor/repo/posts/hello";
              GetRef "/repos/contributor/repo" "meta" "_netlify_cms";
              CreateTree "/repos/contributor/repo" (Some "m0")
                [ {| te_path := "contributor/repo/posts/hello.json";
                     te_mode := "100644"; te_type := "blob"; te_sha := None |} ];
              CreateCommit "/repos/contributor/repo"
                "Deleting “contributor/repo/posts/hello” metadata" "t1" ["m0"]
                None None;
              PatchRef "/repos/contributor/repo" "meta" "_netlify_cms" "c1" false ].
Proof. vm_compute. repeat split. Qed.

(* ===================================================================== *)
(** ** Worked instances of the further properties *)
(* ===================================================================== *)

Lemma happy_always_answers : always_answers happy.
Proof. intros h r. destruct r; eexists; reflexivity. Qed.

Lemma deleteBranch_absorbs_missing_branch_witness :
  deleteBranch (More.scripted More.noBranch happy) standard "cms/posts/hello"
               (initial_world 0)
  = (Fulfilled tt,
     called (More.scripted More.noBranch happy)
            (DeleteRef "/repos/owner/repo" "heads" "cms/posts/hello")
            (initial_world 0)).
Proof.
  exact (deleteBranch_absorbs_missing_branch (More.scripted More.noBranch happy)
           standard "cms/posts/hello" (initial_world 0) More.gone eq_refl).
Defined.

Lemma user_is_asked_once_witness :
  userPromise (initial_world 0) = None
  /\ trace (snd (user happy (initial_world 0))) = [GetUser].
Proof.
  split; [reflexivity|].
  exact (proj1 (user_is_asked_once happy (initial_world 0) eq_refl)).
Defined.

Lemma rebaseCommits_replays_onto_new_commits_witness :
  parents original = ["p0"]
  /\ "p0" <> sha (made "d0")
  /\ exists head w',
       rebaseCommits (More.scripted More.ahead renaming) standard (made "d0")
                     [original; More.second] (initial_world 0)
       = (Fulfilled head, w')
       /\ is_Some head.
Proof.
  assert (Hbase : "p0" <> sha (made "d0")) by discriminate.
  split; [reflexivity|]. split; [exact Hbase|].
  pose proof (rebaseCommits_replays_onto_new_commits
                (More.scripted More.ahead renaming) standard (made "d0")
                original [More.second] "p0" [] (initial_world 0) eq_refl Hbase)
    as (_ & _ & Hhead).
  set (run := rebaseCommits (More.scripted More.ahead renaming) standard
                (made "d0") [original; More.second] (initial_world 0)).
  assert (Hrun : run = (Fulfilled (Some (made "c1")), snd run))
    by (vm_compute; reflexivity).
  exists (Some (made "c1")), (snd run). split; [exact Hrun|].
  exact (Hhead _ _ Hrun).
Defined.

Lemma metadata_writes_stay_on_the_metadata_ref_witness :
  idle (initial_world 0)
  /\ exists ext,
       trace (snd (storeMetadata stringify base64 unreachable standard
                     "posts/hello" (meta "posts/hello" None) (initial_world 0)))
       = trace (initial_world 0) ++ ext
       /\ Forall (store_call standard) ext.
Proof.
  split; [apply idle_initial|].
  exact (proj1 (metadata_writes_stay_on_the_metadata_ref stringify base64
                  unreachable standard "posts/hello" (meta "posts/hello" None)
                  (initial_world 0) (idle_initial 0))).
Defined.

Lemma deleteMetadata_keeps_the_cached_entry_witness :
  let kept := {| expires := 1000; data := meta "posts/hello" None |} in
  let w := set_cache (<["gh.meta.posts/hello" := kept]> ∅) (initial_world 0) in
  let after := snd (deleteMetadata stringify base64 happy standard "posts/hello" w) in
  idle w
  /\ fst (deleteMetadata stringify base64 happy standard "posts/hello" w)
     = Fulfilled tt
  /\ retrieveMetadata parse happy standard "posts/hello" after
     = (Fulfilled (meta "posts/hello" None), after).
Proof.
  intros kept w after.
  assert (Hidle : idle w) by (split; [reflexivity|by left]).
  assert (Hcached : cache w !! ("gh.meta." +:+ "posts/hello") = Some kept)
    by apply lookup_insert_eq.
  assert (Hfresh : (clock after < expires kept)%Z) by (vm_compute; reflexivity).
  pose proof (deleteMetadata_keeps_the_cached_entry stringify parse base64 happy
                standard "posts/hello" w kept Hidle Hcached)
    as (Hrun & _ & Hread).
  split; [exact Hidle|]. split; [exact Hrun|]. exact (Hread Hfresh).
Defined.


Lemma reconciler_changes_the_status_only_witness :
  let metadata := meta "contributor/repo/posts/hello" (Some pull) in
  fst (getUpdatedOpenAuthoringMetadata stringify parse base64
         (More.scripted (More.pullIs More.closedPull) happy) fork
         "contributor/repo/posts/hello" (Some metadata) (initial_world 0))
  = Fulfilled (Some (with_status metadata "draft"))
  /\ (with_status metadata "draft" = metadata
  \/ (with_status metadata "draft" = with_status metadata "draft"
      /\ md_status metadata <> "draft")
  \/ (with_status metadata "draft" = with_status metadata "pending_review"
      /\ md_status metadata <> "pending_review"
      /\ is_Some (md_pr metadata))).
Proof.
  intros metadata.
  set (run := getUpdatedOpenAuthoringMetadata stringify parse base64
                (More.scripted (More.pullIs More.closedPull) happy) fork
                "contributor/repo/posts/hello" (Some metadata) (initial_world 0)).
  assert (Hrun : run = (Fulfilled (Some (with_status metadata "draft")), snd run))
    by (vm_compute; reflexivity).
  split; [exact (f_equal fst Hrun)|].
  exact (reconciler_changes_the_status_only stringify parse base64
           (More.scripted (More.pullIs More.closedPull) happy) fork
           "contributor/repo/posts/hello" metadata (with_status metadata "draft")
           (initial_world 0) (snd run) Hrun).
Defined.


Lemma publish_keeps_the_entry_when_the_merge_fails_witness :
  fst (publishUnpublishedEntry PREFIX "Merged" stringify parse base64
         (More.scripted More.noPulls happy) standard "posts" "hello"
         (initial_world 0))
  = Rejected (APIError "Server Error" (Some 500%Z)).
Proof.
  set (remote := More.scripted More.noPulls happy).
  set (run := retrieveMetadata parse remote standard
                (generateContentKey standard "posts" "hello") (initial_world 0)).
  assert (Hget : run = (Fulfilled (meta "owner/repo/posts/hello.json" (Some pull)),
                        snd run)) by (vm_compute; reflexivity).
  assert (Hother : f_status More.serverError <> Some 405%Z) by discriminate.
  assert (Hmerge : respond remote (trace (snd run))
                     (MergePull (originRepoURL standard) (pr_number pull) "Merged"
                                (pr_head pull) (mergeMethod standard))
                   = inr More.serverError) by reflexivity.
  exact (f_equal fst
           (proj2 (publish_keeps_the_entry_when_the_merge_fails PREFIX "Merged"
                     stringify parse base64 remote standard "posts" "hello"
                     (initial_world 0) (snd run) _ Hget)
                  pull More.serverError eq_refl Hmerge Hother)).
Defined.

Lemma listUnpublishedBranches_when_the_refs_are_missing_witness :
  fst (listUnpublishedBranches PREFIX EmptyString stringify parse base64
         (More.scripted More.noRefs happy) fork (initial_world 0))
  = Fulfilled [].
Proof.
  exact (f_equal fst
           (proj2 (listUnpublishedBranches_when_the_refs_are_missing PREFIX
                     EmptyString stringify parse base64
                     (More.scripted More.noRefs happy) fork (initial_world 0)
                     More.notFound eq_refl)
                  eq_refl eq_refl)).
Defined.

Lemma listUnpublishedBranches_skips_branches_without_pull_request_witness :
  listUnpublishedBranches PREFIX EmptyString stringify parse base64 happy standard
                          (initial_world 0)
  = (Fulfilled [],
     called happy (ListPulls "/repos/owner/repo" "cms" "open" "master")
       (called happy (ListRefs "/repos/owner/repo" "cms") (initial_world 0))).
Proof.
  assert (Hnone :
    Forall (fun b : Branch =>
              Forall (fun pr => pi_head_ref pr <> branchNameFromRef (ref b))
                     [mergedPull])
           [ {| ref := "refs/heads/cms/contributor/repo/posts/hello" |} ])
    by (repeat constructor; discriminate).
  exact (listUnpublishedBranches_skips_branches_without_pull_request PREFIX
           EmptyString stringify parse base64 happy standard (initial_world 0)
           _ _ eq_refl eq_refl eq_refl Hnone).
Defined.

Lemma persistFiles_direct_stays_on_the_default_branch_witness :
  default false (po_useWorkflow More.direct) = false
  /\ exists calls,
       trace (snd (persistFiles PREFIX EmptyString stringify parse base64 unreachable
                     standard More.isoDate (Some More.post) [More.image]
                     More.direct (initial_world 0)))
       = trace (initial_world 0) ++ calls
       /\ Forall (direct_save_call standard) calls.
Proof.
  split; [reflexivity|].
  exact (proj1 (proj2 (persistFiles_direct_stays_on_the_default_branch PREFIX
                         EmptyString stringify parse base64 unreachable standard
                         More.isoDate (Some More.post) [More.image] More.direct
                         eq_refl (initial_world 0)))).
Defined.

Lemma persistFiles_workflow_needs_an_entry_witness :
  default false (po_useWorkflow More.review) = true
  /\ exists e,
       fst (persistFiles PREFIX EmptyString stringify parse base64 happy standard
              More.isoDate None [More.image] More.review (initial_world 0))
       = Rejected e.
Proof.
  split; [reflexivity|].
  exact (proj1 (persistFiles_workflow_needs_an_entry PREFIX EmptyString stringify
                  parse base64 happy standard More.isoDate [More.image]
                  More.review (initial_world 0) eq_refl)).
Defined.

Lemma editorialWorkflowGit_update_needs_commits_ahead_witness :
  fst (editorialWorkflowGit PREFIX EmptyString stringify parse base64 happy standard
         More.isoDate
         [ {| up_file := EntryFile More.post; up_sha := "b1" |} ]
         (Some (More.post, "b1")) [] More.revise (initial_world 0))
  = Rejected (TypeError "Cannot read property 'sha' of undefined").
Proof.
  set (run := retrieveMetadata parse happy standard
                (generateContentKey standard "posts" "hello") (initial_world 0)).
  assert (Hget : run = (Fulfilled (meta "owner/repo/posts/hello.json" (Some pull)),
                        snd run)) by (vm_compute; reflexivity).
  exact (f_equal fst
           (editorialWorkflowGit_update_needs_commits_ahead PREFIX EmptyString
              stringify parse base64 happy standard More.isoDate
              [ {| up_file := EntryFile More.post; up_sha := "b1" |} ]
              More.post "b1" [] More.revise (initial_world 0) (snd run) _
              {| base_commit := made "d0"; commits := []; files := [] |}
              eq_refl eq_refl Hget eq_refl eq_refl)).
Defined.

Lemma editorialWorkflowGit_records_a_new_entry_witness :
  idle (initial_world 0)
  /\ default false (po_unpublished More.review) = false
  /\ fst (editorialWorkflowGit PREFIX EmptyString stringify parse base64 happy
            standard More.isoDate
            [ {| up_file := EntryFile More.post; up_sha := "b1" |} ]
            (Some (More.post, "b1")) [] More.review (initial_world 0))
     = Fulfilled tt.
Proof.
  assert (Hkept : forall e : JsError,
            userPromise (initial_world 0) <> Some (inr e)) by discriminate.
  split; [apply idle_initial|]. split; [reflexivity|].
  exact (proj1 (editorialWorkflowGit_records_a_new_entry PREFIX EmptyString
                  stringify parse base64 happy standard More.isoDate
                  [ {| up_file := EntryFile More.post; up_sha := "b1" |} ]
                  More.post "b1" [] More.review (initial_world 0)
                  happy_always_answers (idle_initial 0) Hkept eq_refl)).
Defined.

Lemma updateUnpublishedEntryStatus_refuses_pending_publish_witness :
  useOpenAuthoring fork = true
  /\ fst (updateUnpublishedEntryStatus PREFIX EmptyString stringify parse base64
            happy fork "posts" "hello" "pending_publish" (initial_world 0))
     = Rejected (PlainError pendingPublishRefused).
Proof.
  split; [reflexivity|].
  set (run := retrieveMetadata parse happy fork
                (generateContentKey fork "posts" "hello") (initial_world 0)).
  assert (Hget : run = (Fulfilled (meta "contributor/repo/posts/hello.json"
                                        (Some pull)), snd run))
    by (vm_compute; reflexivity).
  exact (proj2 (proj2 (updateUnpublishedEntryStatus_refuses_pending_publish PREFIX
                         EmptyString stringify parse base64 happy fork "posts"
                         "hello" (initial_world 0) eq_refl))
               _ _ Hget).
Defined.

Lemma updateUnpublishedEntryStatus_drops_other_changes_witness :
  useOpenAuthoring fork = true
  /\ fst (updateUnpublishedEntryStatus PREFIX EmptyString stringify More.parseDraft
            base64 happy fork "posts" "hello" "draft" (initial_world 0))
     = Fulfilled tt.
Proof.
  split; [reflexivity|].
  set (run := retrieveMetadata More.parseDraft happy fork
                (generateContentKey fork "posts" "hello") (initial_world 0)).
  assert (Hget : run = (Fulfilled (meta "contributor/repo/posts/hello.json" None),
                        snd run)) by (vm_compute; reflexivity).
  assert (Hstatus : "draft" <> "pending_publish") by discriminate.
  assert (Hother : "draft" <> "pending_review") by discriminate.
  exact (f_equal fst
           (proj1 (updateUnpublishedEntryStatus_drops_other_changes PREFIX
                     EmptyString stringify More.parseDraft base64 happy fork
                     "posts" "hello" "draft" (initial_world 0) (snd run) _
                     eq_refl Hstatus Hget)
                  eq_refl Hother)).
Defined.

Lemma migrateBranch_keeps_what_it_cannot_replace_witness :
  fst (migrateBranch PREFIX EmptyString stringify parse base64 happy standard
         {| ref := "refs/heads/cms/posts/hello" |} (initial_world 0))
  = Fulfilled {| ref := "refs/heads/cms/posts/hello" |}.
Proof.
  set (run := retrieveMetadata parse happy standard
                (contentKeyFromRef PREFIX "refs/heads/cms/posts/hello")
                (initial_world 0)).
  assert (Hget : run = (Fulfilled (meta "posts/hello.json" (Some pull)), snd run))
    by (vm_compute; reflexivity).
  exact (f_equal fst
           (proj1 (migrateBranch_keeps_what_it_cannot_replace PREFIX EmptyString
                     stringify parse base64 happy standard
                     {| ref := "refs/heads/cms/posts/hello" |} (initial_world 0)
                     (snd run) _ Hget)
                  eq_refl)).
Defined.

Lemma retrieveMetadata_does_not_cache_witness :
  cache (initial_world 0) !! ("gh.meta." +:+ "posts/hello") = None
  /\ exists root,
       let fetch := GetContents root ("posts/hello" +:+ ".json")
                                "refs/meta/_netlify_cms" in
       trace (snd (retrieveMetadata parse unreachable standard "posts/hello"
                     (snd (retrieveMetadata parse unreachable standard
                             "posts/hello" (initial_world 0)))))
       = trace (initial_world 0) ++ [fetch; fetch].
Proof.
  assert (Hmiss : cache (initial_world 0) !! ("gh.meta." +:+ "posts/hello") = None)
    by apply lookup_empty.
  split; [exact Hmiss|].
  destruct (retrieveMetadata_does_not_cache parse unreachable standard
              "posts/hello" (initial_world 0) Hmiss) as (root & _ & _ & Hagain).
  exists root. exact Hagain.
Defined.

Lemma retrieveMetadata_reads_from_the_fork_witness :
  useOpenAuthoring fork = true
  /\ repo fork = "contributor" +:+ "/" +:+ "repo"
  /\ trace (snd (retrieveMetadata parse happy fork
                   (generateContentKey fork "posts" "hello") (initial_world 0)))
     = [ GetContents "/repos/contributor/repo"
           "contributor/repo/posts/hello.json" "refs/meta/_netlify_cms" ].
Proof.
  split; [reflexivity|]. split; [reflexivity|].
  exact (retrieveMetadata_reads_from_the_fork parse happy fork "contributor" "repo"
           "posts" "hello" (initial_world 0) eq_refl eq_refl eq_refl eq_refl
           (lookup_empty _)).
Defined.

Lemma storeMetadata_failure_leaves_the_cache_witness :
  let run := storeMetadata stringify base64 unreachable standard "posts/hello"
               (meta "posts/hello" None) (initial_world 0) in
  idle (initial_world 0)
  /\ fst run = Rejected (APIError "Failed to fetch" None)
  /\ cache (snd run) = cache (initial_world 0).
Proof.
  intros run.
  assert (Hrun : run = (Rejected (APIError "Failed to fetch" None), snd run))
    by (vm_compute; reflexivity).
  split; [apply idle_initial|]. split; [exact (f_equal fst Hrun)|].
  exact (proj1 (storeMetadata_failure_leaves_the_cache stringify parse base64
                  unreachable standard "posts/hello" (meta "posts/hello" None)
                  (initial_world 0) (snd run) _ (idle_initial 0) Hrun)).
Defined.

Lemma onTip_always_answers : always_answers (More.scripted More.onTip happy).
Proof. intros h r. destruct r; eexists; reflexivity. Qed.

Lemma editorialWorkflowGit_update_moves_the_branch_last_witness :
  let run := editorialWorkflowGit PREFIX EmptyString stringify parse base64
               (More.scripted More.onTip happy) standard More.isoDate
               [ {| up_file := EntryFile More.post; up_sha := "b1" |} ]
               (Some (More.post, "b1")) [] More.revise (initial_world 0) in
  idle (initial_world 0)
  /\ parents original = [sha (made "p0")]
  /\ exists commit0,
       fst run = Fulfilled tt
       /\ last (trace (snd run))
          = Some (PatchRef "/repos/owner/repo" "heads" "cms/owner/repo/posts/hello"
                           (sha commit0) true).
Proof.
  intros run.
  set (remote := More.scripted More.onTip happy).
  set (read := retrieveMetadata parse remote standard
                 (generateContentKey standard "posts" "hello") (initial_world 0)).
  assert (Hget : read = (Fulfilled (meta "owner/repo/posts/hello.json" (Some pull)),
                         snd read)) by (vm_compute; reflexivity).
  split; [apply idle_initial|]. split; [reflexivity|].
  destruct (editorialWorkflowGit_update_moves_the_branch_last PREFIX EmptyString
              stringify parse base64 remote standard More.isoDate
              [ {| up_file := EntryFile More.post; up_sha := "b1" |} ]
              More.post "b1" [] More.revise (initial_world 0) (snd read) _
              {| base_commit := made "p0"; commits := [original]; files := [] |}
              original [] [] onTip_always_answers (idle_initial 0)
              eq_refl eq_refl Hget eq_refl eq_refl eq_refl)
    as (commit0 & c & Hrun & Hlast & _).
  exists commit0. split; [exact Hrun|exact Hlast].
Defined.
